(** * Timeseries_automation: the forecast pipeline core

    A shallow embedding of [src/forecasting/models.py] and [src/pipeline.py]
    with the properties of the baseline forecaster, the splitter, the rolling
    evaluator, the synthetic data source and the orchestrator.

    Conventions.
    - Python [int] is [Z]; Python [float] is Rocq's primitive binary64 [float].
    - A [pd.Series] is a list of (label, value) rows: positional access
      ([iloc], [tail]) works on the list, the index is [map fst].
    - A call that may raise returns [result A]: [Raise e] or [Return x].
    - A generator is the list of the items it yields together with the
      exception that ended it, if any. *)

From Stdlib Require Import ZArith List String Bool Lia Floats.
Import ListNotations.

Set Implicit Arguments.
Open Scope string_scope.
Open Scope list_scope.
Open Scope Z_scope.

(** ** Exceptions *)

Module Py.

(** The classes of exception the modelled code raises or receives from its
    collaborators; all of them derive from Python's [Exception]. *)
Inductive exn : Type :=
| ValueError (msg : string)
| IndexError (msg : string)
| RuntimeError (msg : string)
| OSError (msg : string)
| HTTPError (msg : string).

Definition result (A : Type) : Type := (exn + A)%type.

Definition Raise {A : Type} (e : exn) : result A := inl e.
Definition Return {A : Type} (x : A) : result A := inr x.

Definition bind {A B : Type} (c : result A) (k : A -> result B) : result B :=
  match c with
  | inl e => inl e
  | inr x => k x
  end.

(** Truthiness of an optional string ([if not token]): [None] and the empty
    string are falsy. *)
Definition truthy (s : option string) : bool :=
  match s with
  | Some EmptyString => false
  | Some _ => true
  | None => false
  end.

(** ** Sequences: [len], slices, [range] *)

Definition len {A : Type} (l : list A) : Z := Z.of_nat (List.length l).

(** A slice bound as [slice.indices] normalises it for step 1: a negative
    bound counts from the end, and every bound is clamped to [0, len]. *)
Definition norm_bound (n i : Z) : Z :=
  if i <? 0 then Z.max 0 (i + n) else Z.min i n.

(** [l[start:stop]]; [None] is an omitted bound. *)
Definition slice {A : Type} (start stop : option Z) (l : list A) : list A :=
  let n := len l in
  let lo := match start with None => 0 | Some i => norm_bound n i end in
  let hi := match stop with None => n | Some j => norm_bound n j end in
  firstn (Z.to_nat (hi - lo)) (skipn (Z.to_nat lo) l).

(** [l[i]] for an integer [i]. *)
Definition item {A : Type} (l : list A) (i : Z) : result A :=
  let j := if i <? 0 then i + len l else i in
  if (j <? 0) || (len l <=? j) then
    Raise (IndexError "single positional indexer is out-of-bounds")
  else
    match nth_error l (Z.to_nat j) with
    | Some x => Return x
    | None => Raise (IndexError "single positional indexer is out-of-bounds")
    end.

(** [list(range(start, stop, step))]. *)
Definition range (start stop step : Z) : result (list Z) :=
  if step =? 0 then Raise (ValueError "range() arg 3 must not be zero")
  else
    let count :=
      if 0 <? step then (stop - start + step - 1) / step
      else (start - stop - step - 1) / (- step) in
    Return (map (fun k => start + Z.of_nat k * step) (seq 0 (Z.to_nat count))).

(** A generator run to its end: what it yielded, and the exception that
    stopped it, if one did. *)
Record generated (A : Type) : Type := Generated {
  yielded : list A;
  stopped_by : option exn
}.

(** [for x in xs: yield body(x)]. *)
Fixpoint for_yield {X A : Type} (body : X -> result A) (xs : list X) : generated A :=
  match xs with
  | [] => Generated [] None
  | x :: rest =>
      match body x with
      | inl e => Generated [] (Some e)
      | inr y =>
          let g := for_yield body rest in
          Generated (y :: yielded g) (stopped_by g)
      end
  end.

End Py.

Import Py.

Notation "x <- c ;; k" := (bind c (fun x => k))
  (at level 61, c at next level, right associativity).

(** ** pandas and numpy: the operations the forecaster uses *)

Module Pd.
Section Series.

Context {L V : Type}.

(** A series: index labels paired with values, in order. *)
Definition Series : Type := list (L * V).

Definition index (s : Series) : list L := map fst s.
Definition values (s : Series) : list V := map snd s.
Definition empty (s : Series) : bool := len s =? 0.

(** [series.iloc[start:stop]]. *)
Definition iloc (start stop : option Z) (s : Series) : Series := slice start stop s.

(** [series.iloc[i]]. *)
Definition iloc_at (s : Series) (i : Z) : result V :=
  row <- item s i ;; Return (snd row).

(** [series.tail(n)]: [iloc[0:0]] for [n = 0], [iloc[-n:]] otherwise. *)
Definition tail (s : Series) (n : Z) : Series :=
  if n =? 0 then iloc (Some 0) (Some 0) s else iloc (Some (- n)) None s.

(** [np.repeat(a, repeats)] for a scalar [a]. *)
Definition np_repeat (a : V) (repeats : Z) : result (list V) :=
  if repeats <? 0 then Raise (ValueError "repeats may not contain negative values.")
  else Return (repeat a (Z.to_nat repeats)).

(** [pd.Series(data, index=idx)] for an array [data]. *)
Definition mkSeries (data : list V) (idx : list L) : result Series :=
  if len data =? len idx then Return (combine idx data)
  else Raise (ValueError "Length of values does not match length of index").

(** [pd.concat([a, b])]. *)
Definition concat (parts : list Series) : Series := List.concat parts.

End Series.
End Pd.

(** ** src/forecasting/models.py *)

Section Models.

Context {L V : Type}.

#[local] Abbreviation Series := (@Pd.Series L V).

Record ForecastResult : Type := mkForecastResult {
  y_true : Series;
  y_pred : Series
}.

Definition naive_forecast (series : Series) (horizon : Z) : result ForecastResult :=
  let y_true := Pd.tail series horizon in
  if Pd.empty y_true then
    Raise (ValueError "Series must contain at least 'horizon' values")
  else
    last <- Pd.iloc_at series (-1) ;;
    data <- Pd.np_repeat last horizon ;;
    y_pred <- Pd.mkSeries data (Pd.index y_true) ;;
    Return (mkForecastResult y_true y_pred).

Definition train_test_split (series : Series) (test_size : Z) : result (Series * Series) :=
  if test_size <=? 0 then Raise (ValueError "test_size must be positive")
  else if test_size >=? len series then
    Raise (ValueError "test_size must be smaller than the series length")
  else
    Return (Pd.iloc None (Some (- test_size)) series,
            Pd.iloc (Some (- test_size)) None series).

Record RollingWindowConfig : Type := mkRollingWindowConfig {
  window_size : Z;
  step_size : Z                 (* 1 when the caller gives none *)
}.

(** The slice one rolling trial forecasts on: the window before [start]
    followed by the [horizon] actuals from [start]. *)
Definition rolling_trial (series : Series) (horizon : Z) (config : RollingWindowConfig)
    (start : Z) : Series :=
  let window := Pd.iloc (Some (start - window_size config)) (Some start) series in
  let actual := Pd.iloc (Some start) (Some (start + horizon)) series in
  Pd.concat [window; actual].

Definition rolling_forecast (series : Series) (horizon : Z) (config : RollingWindowConfig)
    : generated ForecastResult :=
  match range (window_size config) (len series - horizon + 1) (step_size config) with
  | inl e => Generated [] (Some e)
  | inr starts =>
      for_yield (fun start => naive_forecast (rolling_trial series horizon config start) horizon)
                starts
  end.

(** The prediction as the specification words it: the single observation
    just before the holdout window, [s[-horizon-1]], or [s[-horizon]] when no
    observation precedes the window. *)
Definition spec_value_before_holdout (series : Series) (horizon : Z) : result V :=
  if horizon <? len series then Pd.iloc_at series (- horizon - 1)
  else Pd.iloc_at series (- horizon).

(** The failure condition as the specification words it: the call fails with
    the insufficient-data error (a [ValueError] in the source) exactly when the
    series has fewer than [horizon] observations. *)
Definition spec_fails_exactly_when_short (series : Series) (horizon : Z) : Prop :=
  (exists msg, naive_forecast series horizon = Raise (ValueError msg)) <->
  len series < horizon.

(** The rolling evaluator as the specification words it: the generator ends
    without an exception and yields, for every start position of the range in
    order, the naive forecast of that start's trial slice. *)
Definition spec_rolling_yields_every_trial (series : Series) (horizon : Z)
    (config : RollingWindowConfig) : Prop :=
  exists starts,
    range (window_size config) (len series - horizon + 1) (step_size config) = Return starts /\
    stopped_by (rolling_forecast series horizon config) = None /\
    Forall2 (fun start r =>
               naive_forecast (rolling_trial series horizon config start) horizon = Return r)
            starts (yielded (rolling_forecast series horizon config)).

End Models.

Arguments ForecastResult : clear implicits.

(** ** Floats: the reductions behind the accuracy metrics *)

Module Fl.

Definition nan : float := PrimFloat.nan.

Definition of_nat (n : nat) : float := PrimFloat.of_uint63 (Uint63.of_Z (Z.of_nat n)).

(** Truthiness of a float ([if previous]): only zero is falsy. *)
Definition truthy (x : float) : bool := negb (x =? 0)%float.

(** The sum of an array, accumulated from the left. numpy adds in blocks
    from eight elements on, so that the last bit of a sum can differ; the
    properties below hold for either order: none fixes the value of a sum. *)
Definition sum (xs : list float) : float := fold_left PrimFloat.add xs 0%float.

(** [np.mean] of a series, which is [Series.mean()]: missing values are
    skipped, and the mean of what is left is [NaN] when nothing is left. *)
Definition mean (xs : list float) : float :=
  let kept := filter (fun x => negb (PrimFloat.is_nan x)) xs in
  match kept with
  | [] => nan
  | _ :: _ => (sum kept / of_nat (List.length kept))%float
  end.

End Fl.

(** ** src/forecasting/models.py: the metrics of a [ForecastResult]

    The two series of a result carry the same index (the invariant of the
    data model, established by [naive_forecast]); on equal indexes pandas'
    arithmetic and boolean masking are positional, and that is how they are
    written here. On a result whose indexes differ pandas aligns by label, and
    masking [y_pred] raises: the metrics are not modelled there, and the
    statements about them are for results on one index. *)

Module Metrics.

Definition FSeries : Type := @Pd.Series Z float.
Definition Result : Type := ForecastResult Z float.

(** [a op b] row by row, on the index of [a]. *)
Definition zip_with (op : float -> float -> float) (a b : FSeries) : FSeries :=
  map (fun ab => (fst (fst ab), op (snd (fst ab)) (snd (snd ab)))) (combine a b).

Definition map_values (f : float -> float) (a : FSeries) : FSeries :=
  map (fun row => (fst row, f (snd row))) a.

(** [s[mask]] for a boolean mask on the same index. *)
Fixpoint select (mask : list bool) (s : FSeries) : FSeries :=
  match mask, s with
  | m :: mask', row :: s' => if m then row :: select mask' s' else select mask' s'
  | _, _ => []
  end.

Definition rmse (r : Result) : float :=
  let diff := zip_with PrimFloat.sub (y_true r) (y_pred r) in
  PrimFloat.sqrt (Fl.mean (Pd.values (map_values (fun d => d * d)%float diff))).

Definition mae (r : Result) : float :=
  let diff := zip_with PrimFloat.sub (y_true r) (y_pred r) in
  Fl.mean (Pd.values (map_values PrimFloat.abs diff)).

Definition mape (r : Result) : float :=
  let mask := map (fun x => negb (x =? 0)%float) (Pd.values (y_true r)) in
  let t := select mask (y_true r) in
  let p := select mask (y_pred r) in
  let ratio := zip_with PrimFloat.div (zip_with PrimFloat.sub t p) t in
  (Fl.mean (Pd.values (map_values PrimFloat.abs ratio)) * 100)%float.

End Metrics.

(** ** src/pipeline.py *)

Module Pipeline.

Import Metrics.

(** The metrics dictionary; its six keys are fixed, so it is a record. *)
Record MetricsBundle : Type := mkMetrics {
  latest : float;
  previous : float;
  delta_pct : float;
  m_rmse : float;
  m_mae : float;
  m_mape : float
}.

Definition _collect_metrics (result : Result) : Py.result MetricsBundle :=
  latest <- Pd.iloc_at (y_pred result) (-1) ;;
  previous <- (if 1 <? len (y_true result) then Pd.iloc_at (y_true result) (-2)
               else Return latest) ;;
  let delta_pct :=
    if Fl.truthy previous then (((latest - previous) / previous) * 100)%float
    else 0%float in
  Return (mkMetrics latest previous delta_pct (rmse result) (mae result) (mape result)).

(** [previous] as the specification words it for a forecast of [series] over
    [horizon]: the last observation strictly before the holdout window, or
    [latest] when there is none. *)
Definition spec_previous (series : FSeries) (horizon : Z) (latest : float) : Py.result float :=
  if horizon <? len series then Pd.iloc_at series (- horizon - 1) else Return latest.

(** *** Collaborators and the world of one run

    The HTTP clients, the chart renderer and the database are external
    collaborators. One run meets each of them at most once, so the world of a
    run fixes the outcome of each call: a value or a raised exception. *)

Definition Path : Type := string.

(** [settings.apis]: the optional credentials the pipeline tests. *)
Record Settings : Type := mkSettings {
  nordpool_api_key : option string;
  slack_token : option string;
  notion_token : option string;
  notion_database_id : option string;
  github_token : option string;
  github_repo : option string
}.

(** One record of the live feed as [_load_price_frame] sees it after
    [pd.to_datetime] and [pd.to_numeric] with [errors="coerce"]: a key may be
    absent ([None]); a present [DateTime] parses to a timestamp or to NaT
    ([Some None]); a present [SpotPrice] coerces to a float, NaN included. *)
Record RawPrice : Type := mkRawPrice {
  raw_DateTime : option (option Z);
  raw_SpotPrice : option float
}.

(** What the feed call returns, as lines 108-115 of [_load_price_frame]
    meet it: records that pandas coerces as above, or data on which one of
    these lines raises [exc] (timestamps of mixed timezones in
    [pd.to_datetime], a payload that [pd.DataFrame] rejects). These lines are
    outside the [try] of the call. *)
Inductive Payload : Type :=
| Records (records : list RawPrice)
| Uncleanable (exc : exn).

Record World : Type := mkWorld {
  today : Z;                                   (* date.today().toordinal() *)
  settings : Settings;
  fetch_spot_prices : result Payload;
  post_message : result unit;
  upload_file : option (result unit);          (* None: no callable upload_file *)
  render_forecast_plot : result Path;
  record_forecast_run : result unit;
  log_forecast : result unit;
  commit_file : result unit;
  commit_text : result unit
}.

(** numpy's and Python's numerics that the model leaves uninterpreted: the
    sine, the bit generator behind [default_rng], and fixed-point formatting. *)
Record Numerics : Type := mkNumerics {
  np_sin : float -> float;
  Generator : Type;
  default_rng : Z -> Generator;
  standard_normal : Generator -> float * Generator;
  format_fixed : nat -> float -> string
}.

(** The calls a run makes to its collaborators, and what it prints. *)
Inductive Event : Type :=
| FetchSpotPrices (target_date : Z)
| PostMessage (channel text : string)
| RenderForecastPlot (horizon_hours : Z)
| UploadFile (channel : string) (filepath : Path)
| RecordForecastRun (data_source : string) (report_path : Path)
| LogForecast (report_uri : string)
| CommitFile (report_path : Path)
| CommitText (report_path : Path)
| Print (text : string).

(** A computation that may raise and that appends to the trace of events. *)
Definition Run (A : Type) : Type := list Event -> result A * list Event.

Definition ret {A : Type} (x : A) : Run A := fun tr => (Return x, tr).
Definition raise {A : Type} (e : exn) : Run A := fun tr => (Raise e, tr).
Definition lift {A : Type} (c : result A) : Run A := fun tr => (c, tr).

Definition call {A : Type} (ev : Event) (outcome : result A) : Run A :=
  fun tr => (outcome, tr ++ [ev]).

Definition print (text : string) : Run unit :=
  fun tr => (Return tt, tr ++ [Print text]).

Definition bindR {A B : Type} (c : Run A) (k : A -> Run B) : Run B :=
  fun tr =>
    match c tr with
    | (inl e, tr') => (inl e, tr')
    | (inr x, tr') => k x tr'
    end.

(** [try: c  except Exception as exc: handler(exc)]. *)
Definition try_except {A : Type} (c : Run A) (handler : exn -> Run A) : Run A :=
  fun tr =>
    match c tr with
    | (inl e, tr') => handler e tr'
    | (inr x, tr') => (inr x, tr')
    end.

Notation "x <~ c ;; k" := (bindR c (fun x => k))
  (at level 61, c at next level, right associativity).

(** [str(exc)]. *)
Definition str (e : exn) : string :=
  match e with
  | ValueError m | IndexError m | RuntimeError m | OSError m | HTTPError m => m
  end.

(** *** Frames

    A row of the price table: the columns the pipeline reads. [lags] holds
    the lag columns in column order, each under its lag ([k] stands for the
    column name [SpotPrice_lag_k]); [Source] is the provenance column of a
    synthetic frame. The calendar columns are not represented:
    they are computed from [DateTime], which is never missing here, and
    nothing downstream reads them. *)
Record Row : Type := mkRow {
  DateTime : Z;                 (* microseconds since the start of ordinal day 0 *)
  SpotPrice : float;
  lags : list (Z * float);
  Source : option string
}.

Definition Frame : Type := list (Z * Row).

(** [frame["SpotPrice"]]. *)
Definition SpotPrice_column (frame : Frame) : FSeries :=
  map (fun lr => (fst lr, SpotPrice (snd lr))) frame.

Definition microseconds_per_hour : Z := 3600000000.

(** [timedelta(hours=n)]. *)
Definition timedelta_hours (n : Z) : Z := n * microseconds_per_hour.

(** [datetime.combine(d, datetime.min.time())] for the date of ordinal [d]. *)
Definition midnight (d : Z) : Z := timedelta_hours (24 * d).

Definition map2 {A B C : Type} (f : A -> B -> C) (xs : list A) (ys : list B) : list C :=
  map (fun xy => f (fst xy) (snd xy)) (combine xs ys).

(** [pd.DataFrame(columns)] on the default index [0, 1, ...]. *)
Definition reset_index (rows : list Row) : Frame :=
  combine (map Z.of_nat (seq 0 (List.length rows))) rows.

(** [np.pi]. *)
Definition np_pi : float := 0x1.921fb54442d18p+1%float.

(** [np.linspace(start, stop, num)]. *)
Definition linspace (start stop : float) (num : nat) : list float :=
  let div := Fl.of_nat (num - 1) in
  let delta := (stop - start)%float in
  let step := (delta / div)%float in
  let point (i : nat) : float :=
    if (num - 1 =? 0)%nat then (Fl.of_nat i * delta + start)%float
    else if (step =? 0)%float then (Fl.of_nat i / div * delta + start)%float
    else (Fl.of_nat i * step + start)%float in
  map (fun i => if (1 <? num)%nat && (i =? num - 1)%nat then stop else point i)
      (seq 0 num).

Section WithNumerics.

Variable nm : Numerics.

(** [rng.normal(loc, scale, size)]: [size] draws, each
    [loc + scale * standard_normal]. *)
Fixpoint normal (rng : Generator nm) (loc scale : float) (size : nat) : list float :=
  match size with
  | O => []
  | S size' =>
      let (z, rng') := standard_normal nm rng in
      (loc + scale * z)%float :: normal rng' loc scale size'
  end.

Definition _generate_synthetic_frame (target_date : Z) (horizon : Z) : Frame :=
  let hours := Z.max (horizon + 48) 72 in
  let start := midnight target_date - timedelta_hours (hours - 1) in
  let n := Z.to_nat hours in
  let timestamps := map (fun i => start + timedelta_hours (Z.of_nat i)) (seq 0 n) in
  let rng := default_rng nm target_date in
  let base :=
    map (fun i => (60 + 5 * np_sin nm (2 * np_pi * Fl.of_nat i / 24))%float) (seq 0 n) in
  let trend := linspace (-2)%float 2%float n in
  let noise := normal rng 0%float 1.5%float n in
  let prices := map2 PrimFloat.add (map2 PrimFloat.add base trend) noise in
  reset_index (map2 (fun t p => mkRow t p [] (Some "synthetic")) timestamps prices).

(** The synthetic prices as the specification words them: the diurnal base
    [60 + 5 sin(2 pi i / 24)], plus a linear trend from -2 to 2 across the
    window, plus normal noise of mean 0 and deviation 1.5 drawn from a
    generator seeded with the target date's ordinal. *)
Definition spec_synthetic_prices (target_date : Z) (n : nat) : list float :=
  map2 PrimFloat.add
       (map2 PrimFloat.add
             (map (fun i => (60 + 5 * np_sin nm (2 * np_pi * Fl.of_nat i / 24))%float) (seq 0 n))
             (linspace (-2)%float 2%float n))
       (normal (default_rng nm target_date) 0%float 1.5%float n).

(** Insertion into a list of rows ordered by [DateTime], before the rows of
    the same timestamp. *)
Fixpoint insert_by_DateTime (r : Row) (rows : list Row) : list Row :=
  match rows with
  | [] => [r]
  | r' :: rest =>
      if DateTime r <=? DateTime r' then r :: r' :: rest
      else r' :: insert_by_DateTime r rest
  end.

(** [frame.sort_values("DateTime")]: ascending. Rows of the same timestamp
    stay here in the order of the response, which the default sort of pandas
    does not promise on long columns: a statement that depends on the order
    of the rows asks for distinct timestamps. *)
Definition sort_values_DateTime (rows : list Row) : list Row :=
  fold_right insert_by_DateTime [] rows.

Definition is_Some {A : Type} (o : option A) : bool :=
  match o with Some _ => true | None => false end.

(** Lines 108-115 of [_load_price_frame]: [None] when a column is missing,
    otherwise the coerced frame without its incomplete rows, sorted and
    re-indexed. *)
Definition clean_api_frame (raw_prices : list RawPrice) : option Frame :=
  if existsb (fun r => is_Some (raw_DateTime r)) raw_prices
     && existsb (fun r => is_Some (raw_SpotPrice r)) raw_prices
  then
    let rows :=
      flat_map (fun r =>
                  match raw_DateTime r, raw_SpotPrice r with
                  | Some (Some t), Some p =>
                      if PrimFloat.is_nan p then [] else [mkRow t p [] None]
                  | _, _ => []
                  end) raw_prices in
    Some (reset_index (sort_values_DateTime rows))
  else None.

(** Lines 108-115 on what the feed returned. *)
Definition clean_payload (payload : Payload) : result (option Frame) :=
  match payload with
  | Records raw_prices => Return (clean_api_frame raw_prices)
  | Uncleanable exc => Raise exc
  end.

Variable w : World.

Definition _load_price_frame (horizon : Z) : Run (Frame * string) :=
  let target_date := today w in
  if negb (truthy (nordpool_api_key (settings w))) then
    ret (_generate_synthetic_frame target_date horizon, "synthetic")
  else
    fetched <~ try_except
                 (raw_prices <~ call (FetchSpotPrices target_date) (fetch_spot_prices w) ;;
                  ret (Some raw_prices))
                 (fun _ => ret None) ;;
    match fetched with
    | None => ret (_generate_synthetic_frame target_date horizon, "synthetic")
    | Some raw_prices =>
        cleaned <~ lift (clean_payload raw_prices) ;;
        match cleaned with
        | Some frame =>
            if horizon <? len frame then ret (frame, "api")
            else ret (_generate_synthetic_frame target_date horizon, "synthetic")
        | None => ret (_generate_synthetic_frame target_date horizon, "synthetic")
        end
    end.

End WithNumerics.

(** *** src/data_preparation/transformers.py *)

(** [add_calendar_features(frame, "DateTime")]: adds the calendar columns,
    which [Row] does not represent. *)
Definition add_calendar_features (frame : Frame) : Frame := frame.

(** [column.shift(lag)]: the values move down by [lag] rows, up for a
    negative [lag]; NaN fills the rows left free. *)
Definition shift (lag : Z) (column : list float) : list float :=
  if 0 <=? lag then
    firstn (List.length column) (repeat Fl.nan (Z.to_nat lag) ++ column)
  else
    skipn (Z.to_nat (- lag)) column
    ++ repeat Fl.nan (Nat.min (Z.to_nat (- lag)) (List.length column)).

(** [row[name] = v] on the lag columns: the column of that name is
    overwritten where it stands, a new one comes last. *)
Fixpoint set_lag (lag : Z) (v : float) (columns : list (Z * float)) : list (Z * float) :=
  match columns with
  | [] => [(lag, v)]
  | (k, x) :: rest =>
      if k =? lag then (k, v) :: rest else (k, x) :: set_lag lag v rest
  end.

(** [add_lag_features(frame, "SpotPrice", lags)]. *)
Definition add_lag_features (frame : Frame) (lag_list : list Z) : Frame :=
  fold_left
    (fun fr lag =>
       map2 (fun lr v =>
               (fst lr,
                mkRow (DateTime (snd lr)) (SpotPrice (snd lr))
                      (set_lag lag v (lags (snd lr))) (Source (snd lr))))
            fr (shift lag (map (fun lr => SpotPrice (snd lr)) fr)))
    lag_list frame.

(** [frame.dropna()]: the rows without a missing value. *)
Definition dropna (frame : Frame) : Frame :=
  filter (fun lr =>
            negb (PrimFloat.is_nan (SpotPrice (snd lr)))
            && forallb (fun kv => negb (PrimFloat.is_nan (snd kv))) (lags (snd lr)))
         frame.

(** *** The orchestrator *)

Record PipelineOutput : Type := mkPipelineOutput {
  forecast : Result;
  message : string;
  report_path : Path;
  metrics : MetricsBundle;
  data_source : string
}.

Definition newline : string := String (Ascii.ascii_of_nat 10) EmptyString.

Definition insufficient_data : exn :=
  ValueError "Not enough observations to perform forecast – increase data window or reduce horizon.".

Definition bad_split_nonpositive : exn := ValueError "test_size must be positive".


Section Orchestrator.

Variable nm : Numerics.
Variable w : World.

Definition _build_message (metrics : MetricsBundle) : string :=
  let direction := if (0 <=? delta_pct metrics)%float then "↑" else "↓" in
  ("*Dagens elpris-forecast:* " ++ format_fixed nm 2 (latest metrics) ++ " €/MWh ("
   ++ direction ++ format_fixed nm 1 (PrimFloat.abs (delta_pct metrics))
   ++ "% fra sidste observation)" ++ newline
   ++ "• RMSE: " ++ format_fixed nm 2 (m_rmse metrics) ++ newline
   ++ "• MAE: " ++ format_fixed nm 2 (m_mae metrics) ++ newline
   ++ "• MAPE: " ++ format_fixed nm 2 (m_mape metrics) ++ "%")%string.

Definition _maybe_upload_chart (report_path : Path) : Run unit :=
  match upload_file w with
  | Some upload =>
      if truthy (slack_token (settings w)) then
        try_except
          (call (UploadFile "#energy-forecast" report_path) upload)
          (fun exc => print ("Slack upload skipped: " ++ str exc)%string)
      else ret tt
  | None => ret tt
  end.

(** [sync_to_notion] of src/reporting/logging.py. The properties are built
    before the [try]: [round] of a float and [as_uri] of the absolute report
    path, neither of which raises. *)
Definition sync_to_notion (report_path : Path) : Run unit :=
  if negb (truthy (notion_token (settings w)))
     || negb (truthy (notion_database_id (settings w)))
  then ret tt
  else
    try_except
      (call (LogForecast ("file://" ++ report_path)%string) (log_forecast w))
      (fun exc => print ("Notion logging skipped: " ++ str exc)%string).

Definition _persist_run (data_source : string) (report_path : Path) : Run unit :=
  _ <~ try_except
         (call (RecordForecastRun data_source report_path) (record_forecast_run w))
         (fun exc => print ("Database logging skipped: " ++ str exc)%string) ;;
  sync_to_notion report_path.

(** The destinations of the two commits are [reports/plots/<name>] and
    [reports/history/<stem>.json] for the name and the stem of [report_path];
    the events record the path they derive from. Building the repository
    configuration and the committer before the [try] does no I/O. *)
Definition _maybe_commit_to_github (report_path : Path) : Run unit :=
  if negb (truthy (github_token (settings w)))
     || negb (truthy (github_repo (settings w)))
  then ret tt
  else
    try_except
      (_ <~ call (CommitFile report_path) (commit_file w) ;;
       call (CommitText report_path) (commit_text w))
      (fun exc => print ("GitHub commit skipped: " ++ str exc)%string).

Definition run (horizon : Z) : Run PipelineOutput :=
  loaded <~ _load_price_frame nm w horizon ;;
  let data_source := snd loaded in
  let frame := add_calendar_features (fst loaded) in
  let frame := add_lag_features frame [1; 24] in
  let frame := dropna frame in
  if len frame <=? horizon then raise insufficient_data
  else
    split <~ lift (train_test_split (SpotPrice_column frame) horizon) ;;
    result <~ lift (naive_forecast (Pd.concat [fst split; snd split]) horizon) ;;
    metrics <~ lift (_collect_metrics result) ;;
    let message := _build_message metrics in
    _ <~ call (PostMessage "#energy-forecast" message) (post_message w) ;;
    report_path <~ call (RenderForecastPlot horizon) (render_forecast_plot w) ;;
    _ <~ _maybe_upload_chart report_path ;;
    _ <~ _persist_run data_source report_path ;;
    _ <~ _maybe_commit_to_github report_path ;;
    ret (mkPipelineOutput result message report_path metrics data_source).


End Orchestrator.


End Pipeline.

(** ** Concrete inputs used by the examples below *)

Definition series10 : @Pd.Series Z Z :=
  [(0, 0); (1, 1); (2, 2); (3, 3); (4, 4); (5, 5); (6, 6); (7, 7); (8, 8); (9, 9)].

Definition series3 : @Pd.Series Z Z := [(0, 1); (1, 2); (2, 3)].

Definition series5f : Metrics.FSeries :=
  [(0, 10%float); (1, 20%float); (2, 30%float); (3, 40%float); (4, 50%float)].

(** An aligned result whose actuals are all zero (of either sign). *)
Definition result_zero_actuals : Metrics.Result :=
  mkForecastResult [(0, 0%float); (1, (-0)%float)] [(0, 1.5%float); (1, 1.5%float)].

(** A one-point result whose prediction is NaN. *)
Definition result_nan_prediction : Metrics.Result :=
  mkForecastResult [(0, 1%float)] [(0, Fl.nan)].

(** Stand-ins for the uninterpreted numerics, to run the model on concrete
    inputs: a flat sine, a generator that counts its draws and draws zeros. *)
Definition numerics0 : Pipeline.Numerics :=
  Pipeline.mkNumerics (fun _ => 0%float) (fun seed : Z => seed)
                      (fun g : Z => (0%float, g + 1)) (fun _ _ => "0.00").

Definition no_credentials : Pipeline.Settings :=
  Pipeline.mkSettings None None None None None None.

(** A world without credentials in which every collaborator succeeds. *)
Definition world_quiet : Pipeline.World :=
  Pipeline.mkWorld 739558 no_credentials (Return (Pipeline.Records [])) (Return tt) None
                   (Return "reports/plots/forecast_20251103_050000.png")
                   (Return tt) (Return tt) (Return tt) (Return tt).


(** A world with a live-feed credential whose feed is down. *)
Definition world_feed_down : Pipeline.World :=
  Pipeline.mkWorld 739558
                   (Pipeline.mkSettings (Some "key") None None None None None)
                   (Raise (HTTPError "503 Server Error")) (Return tt) None
                   (Return "reports/plots/forecast_20251103_050000.png")
                   (Return tt) (Return tt) (Return tt) (Return tt).

(** The synthetic frame of ordinal day 739558 for a horizon of 24. *)
Definition synthetic_24 : Pipeline.Frame :=
  Pipeline._generate_synthetic_frame numerics0 739558 24.

From Stdlib Require Import Sorted.

(** ** Further concrete inputs *)

(** The second rolling trial of 0..9 for a window of 4, a step of 2 and a
    horizon of 3: it starts at position 6. *)
Definition trial_at_6 : ForecastResult Z Z :=
  mkForecastResult [(6, 6); (7, 7); (8, 8)] [(6, 8); (7, 8); (8, 8)].

(** ** Signs of binary64 values

    Two classes of IEEE values, read on the specification side of a float:
    those that do not compare below zero (NaN and both zeros included), and
    those whose sign bit is clear (NaN included). *)

Module FlSign.

Definition not_below_zero (x : spec_float) : bool :=
  match x with
  | S754_zero _ | S754_nan => true
  | S754_infinity s | S754_finite s _ _ => negb s
  end.

Definition sign_clear (x : spec_float) : bool :=
  match x with
  | S754_nan => true
  | S754_zero s | S754_infinity s | S754_finite s _ _ => negb s
  end.

End FlSign.

(** The price [lag] rows before row [i] of a frame (after it for a negative
    [lag]), NaN when there is no such row. *)
Definition price_at_lag (frame : Pipeline.Frame) (i : nat) (lag : Z) : float :=
  if Z.of_nat i - lag <? 0 then Fl.nan
  else match nth_error frame (Z.to_nat (Z.of_nat i - lag)) with
       | Some lr => Pipeline.SpotPrice (snd lr)
       | None => Fl.nan
       end.

(** [row[name]] on the lag columns. *)
Fixpoint get_lag (lag : Z) (columns : list (Z * float)) : option float :=
  match columns with
  | [] => None
  | (k, x) :: rest => if k =? lag then Some x else get_lag lag rest
  end.

(** One pass of the loop of [add_lag_features]: the column of one lag. *)
Definition lag_pass (fr : Pipeline.Frame) (lag : Z) : Pipeline.Frame :=
  Pipeline.map2
    (fun lr v =>
       (fst lr,
        Pipeline.mkRow (Pipeline.DateTime (snd lr)) (Pipeline.SpotPrice (snd lr))
                       (Pipeline.set_lag lag v (Pipeline.lags (snd lr)))
                       (Pipeline.Source (snd lr))))
    fr (Pipeline.shift lag (map (fun lr => Pipeline.SpotPrice (snd lr)) fr)).

(** The frame [run] forecasts on: features added, incomplete rows dropped
    (lines 49-51 of [run]). *)
Definition shaped (frame : Pipeline.Frame) : Pipeline.Frame :=
  Pipeline.dropna
    (Pipeline.add_lag_features (Pipeline.add_calendar_features frame) [1; 24]).

(** A frame as the resolver builds it: no NaN price, no lag column yet. *)
Definition fresh_and_complete (frame : Pipeline.Frame) : bool :=
  forallb (fun lr =>
             negb (PrimFloat.is_nan (Pipeline.SpotPrice (snd lr)))
             && match Pipeline.lags (snd lr) with [] => true | _ :: _ => false end)
          frame.

(** Timestamps in ascending order without a repetition. *)
Fixpoint strictly_ascending (timestamps : list Z) : bool :=
  match timestamps with
  | t :: (t' :: _) as rest => (t <? t') && strictly_ascending rest
  | _ => true
  end.

(** Rows in timestamp order. *)
Definition by_DateTime (a b : Pipeline.Row) : Prop :=
  Pipeline.DateTime a <= Pipeline.DateTime b.

(** A live feed with an incomplete record, an unparseable timestamp, a NaN
    price and three complete records out of order. *)
Definition raw_feed : list Pipeline.RawPrice :=
  [Pipeline.mkRawPrice (Some (Some 30)) (Some 3%float);
   Pipeline.mkRawPrice (Some (Some 10)) None;
   Pipeline.mkRawPrice (Some None) (Some 7%float);
   Pipeline.mkRawPrice (Some (Some 20)) (Some Fl.nan);
   Pipeline.mkRawPrice (Some (Some 10)) (Some 1%float);
   Pipeline.mkRawPrice (Some (Some 20)) (Some 2%float)].

Definition raw_feed_cleaned : Pipeline.Frame :=
  [(0, Pipeline.mkRow 10 1%float [] None);
   (1, Pipeline.mkRow 20 2%float [] None);
   (2, Pipeline.mkRow 30 3%float [] None)].

(** Events that come before the chart is rendered, and before the
    best-effort sinks. *)
Definition before_render (ev : Pipeline.Event) : bool :=
  match ev with
  | Pipeline.FetchSpotPrices _ | Pipeline.PostMessage _ _ => true
  | _ => false
  end.

Definition before_sinks (ev : Pipeline.Event) : bool :=
  match ev with
  | Pipeline.FetchSpotPrices _ | Pipeline.PostMessage _ _
  | Pipeline.RenderForecastPlot _ => true
  | _ => false
  end.

(** What one best-effort call leaves in the trace: the call, and the line
    printed when it raised. *)
Definition attempted (ev : Pipeline.Event) (skipped : string) (outcome : result unit)
    : list Pipeline.Event :=
  ev :: match outcome with
        | inl e => [Pipeline.Print (skipped ++ Pipeline.str e)%string]
        | inr _ => []
        end.

(** The events of the best-effort steps of one run, step by step in the
    order Slack upload, database, Notion, GitHub: nothing for a step that is
    not configured, and no second commit after a failed first one. *)
Definition fan_out_events (w : Pipeline.World) (tag : string) (p : Pipeline.Path)
    : list Pipeline.Event :=
  (match Pipeline.upload_file w with
   | Some upload =>
       if truthy (Pipeline.slack_token (Pipeline.settings w))
       then attempted (Pipeline.UploadFile "#energy-forecast" p) "Slack upload skipped: " upload
       else []
   | None => []
   end)
  ++ attempted (Pipeline.RecordForecastRun tag p) "Database logging skipped: "
               (Pipeline.record_forecast_run w)
  ++ (if truthy (Pipeline.notion_token (Pipeline.settings w))
         && truthy (Pipeline.notion_database_id (Pipeline.settings w))
      then attempted (Pipeline.LogForecast ("file://" ++ p)%string)
                     "Notion logging skipped: " (Pipeline.log_forecast w)
      else [])
  ++ (if truthy (Pipeline.github_token (Pipeline.settings w))
         && truthy (Pipeline.github_repo (Pipeline.settings w))
      then match Pipeline.commit_file w with
           | inl e => attempted (Pipeline.CommitFile p) "GitHub commit skipped: " (inl e)
           | inr _ =>
               Pipeline.CommitFile p
               :: attempted (Pipeline.CommitText p) "GitHub commit skipped: "
                            (Pipeline.commit_text w)
           end
      else []).

(** Whether a run ended with an exception. *)
Definition raises_run {A : Type} (out : result A * list Pipeline.Event) : bool :=
  match fst out with
  | inl _ => true
  | inr _ => false
  end.

Definition all_credentials : Pipeline.Settings :=
  Pipeline.mkSettings None (Some "xoxb") (Some "secret") (Some "db") (Some "ghp")
                      (Some "owner/name").

(** Every sink configured and failing. *)
Definition world_sinks_fail : Pipeline.World :=
  Pipeline.mkWorld 739558 all_credentials (Return (Pipeline.Records [])) (Return tt)
                   (Some (Raise (RuntimeError "upload")))
                   (Return "reports/plots/forecast_20251103_050000.png")
                   (Raise (OSError "database is locked")) (Raise (HTTPError "401"))
                   (Raise (HTTPError "403")) (Return tt).

(** A live feed of 30 hourly records, timestamps 0, 1, ... microseconds
    apart for brevity, all complete. *)
Definition raw_feed_30 : list Pipeline.RawPrice :=
  map (fun i => Pipeline.mkRawPrice (Some (Some (Z.of_nat i))) (Some 50%float)) (seq 0 30).

Definition world_short_feed : Pipeline.World :=
  Pipeline.mkWorld 739558
                   (Pipeline.mkSettings (Some "key") None None None None None)
                   (Return (Pipeline.Records raw_feed_30)) (Return tt) None
                   (Return "reports/plots/forecast_20251103_050000.png")
                   (Return tt) (Return tt) (Return tt) (Return tt).

(** ** src/automation/scheduler.py

    Strings are sequences of characters with code points below 256, which
    covers cron expressions. *)

Module Scheduler.

(** [str.isspace] on such a character: tab to carriage return, the four
    separators 28..31, the space, next line (133) and no-break space (160). *)
Definition isspace (c : Ascii.ascii) : bool :=
  let n := Ascii.nat_of_ascii c in
  ((9 <=? n) && (n <=? 13) || (28 <=? n) && (n <=? 32) || (n =? 133) || (n =? 160))%nat.

(** [s.split()] continued: [word] is the word read so far. *)
Fixpoint split_from (word : string) (s : string) : list string :=
  match s with
  | EmptyString =>
      match word with
      | EmptyString => []
      | _ => [word]
      end
  | String c rest =>
      if isspace c then
        match word with
        | EmptyString => split_from EmptyString rest
        | _ => word :: split_from EmptyString rest
        end
      else split_from (word ++ String c EmptyString)%string rest
  end.

(** [s.split()]: the words between runs of whitespace. *)
Definition split (s : string) : list string := split_from EmptyString s.

(** The keyword arguments of a cron trigger; the dictionary has these five
    keys. *)
Record CronKwargs : Type := mkCronKwargs {
  minute : string;
  hour : string;
  day : string;
  month : string;
  day_of_week : string
}.

(** The unpacking of the five fields raises a [ValueError] on any other
    number of fields (the message of Python also gives the counts). *)
Definition _cron_to_kwargs (cron_expression : string) : result CronKwargs :=
  match split cron_expression with
  | [minute; hour; day; month; day_of_week] =>
      Return (mkCronKwargs minute hour day month day_of_week)
  | _ :: _ :: _ :: _ :: _ :: _ :: _ => Raise (ValueError "too many values to unpack")
  | _ => Raise (ValueError "not enough values to unpack")
  end.

(** A cron field: not empty, without whitespace. *)
Fixpoint no_space (s : string) : bool :=
  match s with
  | EmptyString => true
  | String c rest => negb (isspace c) && no_space rest
  end.

Definition is_field (s : string) : bool :=
  match s with
  | EmptyString => false
  | _ => no_space s
  end.

End Scheduler.

(** ** src/automation/github.py

    The REST calls are collaborators: a world fixes what the one GET and the
    one PUT of a commit answer, or that they raise. Text is held as its UTF-8
    bytes; a JSON object is the list of its string members. *)

Module GitHub.

Definition Json : Type := list (string * string).

(** [obj.get(key)]. *)
Fixpoint get (key : string) (obj : Json) : option string :=
  match obj with
  | [] => None
  | (k, v) :: rest => if String.eqb k key then Some v else get key rest
  end.

Record Response : Type := mkResponse {
  status_code : Z;
  json : result Json                 (* response.json() *)
}.

(** [response.raise_for_status()]: an [HTTPError] for 4xx and 5xx. *)
Definition raise_for_status (response : Response) : result unit :=
  if (400 <=? status_code response) && (status_code response <? 600)
  then Raise (HTTPError "HTTP error status")
  else Return tt.

Record Remote : Type := mkRemote {
  read_bytes : result string;        (* path.read_bytes() *)
  session_get : result Response;
  session_put : result Response
}.

Inductive Event : Type :=
| ReadBytes (path : string)
| Get (url : string)
| Put (url : string) (message : string) (sha : option string) (content_b64 : string).

Section Committer.

Variable b64encode : string -> string.
Variable repo : string.              (* self._config.repo *)
Variable remote : Remote.

Definition contents_url (destination : string) : string :=
  ("https://api.github.com/repos/" ++ repo ++ "/contents/" ++ destination)%string.

Definition _get_existing_sha (url : string) : result (option string) * list Event :=
  let trace := [Get url] in
  match session_get remote with
  | inl e => (inl e, trace)
  | inr response =>
      if status_code response =? 200 then
        (obj <- json response ;; Return (get "sha" obj), trace)
      else if status_code response =? 404 then (Return None, trace)
      else (_ <- raise_for_status response ;; Return None, trace)
  end.

Definition commit_file (path destination message : string) : result Json * list Event :=
  match read_bytes remote with
  | inl e => (inl e, [ReadBytes path])
  | inr bytes =>
      let content_b64 := b64encode bytes in
      let url := contents_url destination in
      match _get_existing_sha url with
      | (inl e, trace) => (inl e, ReadBytes path :: trace)
      | (inr existing_sha, trace) =>
          let sha := if truthy existing_sha then existing_sha else None in
          let trace := ReadBytes path :: trace ++ [Put url message sha content_b64] in
          match session_put remote with
          | inl e => (inl e, trace)
          | inr response => (_ <- raise_for_status response ;; json response, trace)
          end
      end
  end.

Definition commit_text (content destination message : string) : result Json * list Event :=
  let content_b64 := b64encode content in
  let url := contents_url destination in
  match _get_existing_sha url with
  | (inl e, trace) => (inl e, trace)
  | (inr existing_sha, trace) =>
      let sha := if truthy existing_sha then existing_sha else None in
      let trace := trace ++ [Put url message sha content_b64] in
      match session_put remote with
      | inl e => (inl e, trace)
      | inr response => (_ <- raise_for_status response ;; json response, trace)
      end
  end.

End Committer.

End GitHub.

(** A repository that already holds the file, and one that answers the
    lookup with a server error. *)
Definition remote_existing : GitHub.Remote :=
  GitHub.mkRemote (Return "png bytes")
                  (Return (GitHub.mkResponse 200 (Return [("name", "history.json"); ("sha", "abc123")])))
                  (Return (GitHub.mkResponse 200 (Return [("commit", "done")]))).

Definition remote_lookup_fails : GitHub.Remote :=
  GitHub.mkRemote (Return "png bytes")
                  (Return (GitHub.mkResponse 500 (Return [])))
                  (Return (GitHub.mkResponse 201 (Return [("commit", "done")]))).

(** A live feed of 60 complete hourly records and a world that serves it. *)
Definition raw_feed_60 : list Pipeline.RawPrice :=
  map (fun i => Pipeline.mkRawPrice (Some (Some (Z.of_nat i))) (Some 50%float)) (seq 0 60).

Definition world_live_feed : Pipeline.World :=
  Pipeline.mkWorld 739558
                   (Pipeline.mkSettings (Some "key") None None None None None)
                   (Return (Pipeline.Records raw_feed_60)) (Return tt) None
                   (Return "reports/plots/forecast_20251103_050000.png")
                   (Return tt) (Return tt) (Return tt) (Return tt).

Definition live_frame_60 : Pipeline.Frame :=
  Pipeline.reset_index
    (map (fun i => Pipeline.mkRow (Z.of_nat i) 50%float [] None) (seq 0 60)).

(** * Properties *)

Lemma bind_Return (A B : Type) (x : A) (k : A -> result B) : bind (Return x) k = k x.
Proof. reflexivity. Qed.

(** ** Slices *)

Section SliceFacts.

Context {A : Type}.
Implicit Types l : list A.

Lemma len_nonneg l : 0 <= len l.
Proof. unfold len; lia. Qed.

Lemma len_nil_iff l : len l = 0 <-> l = [].
Proof.
  unfold len; destruct l; simpl; split; intros H; try reflexivity; try discriminate; lia.
Qed.

Lemma len_app l1 l2 : len (l1 ++ l2) = len l1 + len l2.
Proof. unfold len; rewrite length_app; lia. Qed.

Lemma len_skipn l (k : nat) : len (skipn k l) = Z.max 0 (len l - Z.of_nat k).
Proof. unfold len; rewrite length_skipn; lia. Qed.

Lemma len_firstn l (k : nat) : len (firstn k l) = Z.min (Z.of_nat k) (len l).
Proof. unfold len; rewrite length_firstn; lia. Qed.

(** [l[lo:hi]] for bounds already inside the list. *)
Lemma slice_between l (lo hi : Z) :
  0 <= lo -> lo <= hi -> hi <= len l ->
  slice (Some lo) (Some hi) l = firstn (Z.to_nat (hi - lo)) (skipn (Z.to_nat lo) l).
Proof.
  intros H0 H1 H2. unfold slice, norm_bound.
  destruct (Z.ltb_spec lo 0); [lia|].
  destruct (Z.ltb_spec hi 0); [lia|].
  rewrite !Z.min_l by lia. reflexivity.
Qed.

Lemma len_slice_between l (lo hi : Z) :
  0 <= lo -> lo <= hi -> hi <= len l -> len (slice (Some lo) (Some hi) l) = hi - lo.
Proof.
  intros H0 H1 H2. rewrite slice_between by assumption.
  rewrite len_firstn, len_skipn. lia.
Qed.

(** [l[-k:]] is the last [k] elements. *)
Lemma slice_suffix l (k : Z) :
  0 < k -> k <= len l -> slice (Some (- k)) None l = skipn (Z.to_nat (len l - k)) l.
Proof.
  intros H0 H1. unfold slice, norm_bound.
  destruct (Z.ltb_spec (- k) 0); [|lia].
  rewrite Z.max_r by lia.
  replace (- k + len l) with (len l - k) by lia.
  apply firstn_all2. rewrite length_skipn. unfold len in *. lia.
Qed.

(** [l[-k:]] is the whole list when [k] exceeds its length. *)
Lemma slice_suffix_all l (k : Z) :
  len l <= k -> 0 < k -> slice (Some (- k)) None l = l.
Proof.
  intros H0 H1. unfold slice, norm_bound.
  destruct (Z.ltb_spec (- k) 0); [|lia].
  rewrite Z.max_l by lia. simpl. apply firstn_all2. unfold len. lia.
Qed.

(** [l[:-k]] is everything but the last [k] elements. *)
Lemma slice_prefix l (k : Z) :
  0 < k -> k <= len l -> slice None (Some (- k)) l = firstn (Z.to_nat (len l - k)) l.
Proof.
  intros H0 H1. unfold slice, norm_bound.
  destruct (Z.ltb_spec (- k) 0); [|lia].
  rewrite Z.max_r by lia. simpl.
  f_equal. f_equal. lia.
Qed.

Lemma slice_0_0 l : slice (Some 0) (Some 0) l = [].
Proof.
  unfold slice, norm_bound. simpl.
  rewrite Z.min_l by apply len_nonneg. reflexivity.
Qed.

(** [l[-k]] for [1 <= k <= len l] is the element at position [len l - k]. *)
Lemma item_from_end l (k : Z) :
  0 < k -> k <= len l ->
  exists x, item l (- k) = Return x /\ nth_error l (Z.to_nat (len l - k)) = Some x.
Proof.
  intros Hk Hlen.
  unfold item. destruct (Z.ltb_spec (- k) 0); [|lia]. cbv zeta.
  destruct (Z.ltb_spec (- k + len l) 0); [lia|].
  destruct (Z.leb_spec (len l) (- k + len l)); [lia|]. cbv [orb].
  replace (- k + len l) with (len l - k) by lia.
  destruct (nth_error l (Z.to_nat (len l - k))) as [x|] eqn:E.
  - exists x. split; reflexivity.
  - apply nth_error_None in E. unfold len in *. lia.
Qed.

Lemma item_last l :
  0 < len l ->
  exists x, item l (-1) = Return x /\ nth_error l (Z.to_nat (len l - 1)) = Some x.
Proof. intros Hlen. apply (@item_from_end l 1); lia. Qed.

End SliceFacts.

(** ** The baseline forecaster *)

Section NaiveFacts.

Context {L V : Type}.
#[local] Abbreviation Series := (@Pd.Series L V).
Implicit Types s : Series.

Lemma tail_holdout s (h : Z) :
  1 <= h -> h <= len s -> Pd.tail s h = skipn (Z.to_nat (len s - h)) s.
Proof.
  intros H1 H2. unfold Pd.tail, Pd.iloc.
  destruct (Z.eqb_spec h 0); [lia|].
  apply slice_suffix; lia.
Qed.

Lemma len_index s : len (Pd.index s) = len s.
Proof. unfold Pd.index, len. rewrite length_map. reflexivity. Qed.

Lemma len_repeat (v : V) (n : Z) : 0 <= n -> len (repeat v (Z.to_nat n)) = n.
Proof. intros H. unfold len. rewrite repeat_length. lia. Qed.

Lemma index_combine (idx : list L) (data : list V) :
  List.length idx = List.length data -> Pd.index (combine idx data) = idx.
Proof.
  revert data. induction idx as [|i idx IH]; intros [|d data] H; simpl in *;
    try reflexivity; try discriminate.
  f_equal. apply IH. lia.
Qed.

Lemma values_combine (idx : list L) (data : list V) :
  List.length idx = List.length data -> Pd.values (combine idx data) = data.
Proof.
  revert data. induction idx as [|i idx IH]; intros [|d data] H; simpl in *;
    try reflexivity; try discriminate.
  f_equal. apply IH. lia.
Qed.

(** What [naive_forecast] returns on a series long enough for the horizon:
    the last [horizon] rows as [y_true], and on their index the value
    [series.iloc[-1]] repeated. *)
Lemma naive_forecast_ok s (h : Z) :
  1 <= h -> h <= len s ->
  exists v,
    nth_error (Pd.values s) (Z.to_nat (len s - 1)) = Some v /\
    naive_forecast s h =
      Return (mkForecastResult
                (skipn (Z.to_nat (len s - h)) s)
                (combine (Pd.index (skipn (Z.to_nat (len s - h)) s))
                         (repeat v (Z.to_nat h)))).
Proof.
  intros H1 H2.
  destruct (@item_last _ s) as [row [Hitem Hnth]]; [lia|].
  exists (snd row). split.
  - unfold Pd.values. rewrite nth_error_map, Hnth. reflexivity.
  - unfold naive_forecast. rewrite tail_holdout by assumption.
    assert (Hlen : len (skipn (Z.to_nat (len s - h)) s) = h).
    { rewrite len_skipn. lia. }
    unfold Pd.empty. rewrite Hlen.
    destruct (Z.eqb_spec h 0); [lia|].
    unfold Pd.iloc_at. rewrite Hitem. cbn [bind Return].
    unfold Pd.np_repeat. destruct (Z.ltb_spec h 0); [lia|]. cbn [bind Return].
    unfold Pd.mkSeries. rewrite len_repeat, len_index, Hlen by lia.
    rewrite Z.eqb_refl. reflexivity.
Qed.

Lemma slice_of_nil (A : Type) (lo hi : option Z) : slice lo hi (@nil A) = [].
Proof. unfold slice. rewrite skipn_nil, firstn_nil. reflexivity. Qed.

(** Outside [1 <= horizon <= len series] the call raises a [ValueError]:
    from the explicit emptiness check, from [np.repeat] on a negative count,
    or from the [pd.Series] constructor on a length mismatch. *)
Lemma naive_forecast_raises s (h : Z) :
  h <= 0 \/ len s < h -> exists msg, naive_forecast s h = Raise (ValueError msg).
Proof.
  intros Hh. unfold naive_forecast.
  destruct (Pd.empty (Pd.tail s h)) eqn:Hempty; [eexists; reflexivity|].
  assert (Hs : 0 < len s).
  { pose proof (len_nonneg s). destruct (Z.eq_dec (len s) 0) as [E|E]; [|lia].
    apply len_nil_iff in E. subst s.
    unfold Pd.tail, Pd.iloc in Hempty.
    destruct (h =? 0); rewrite slice_of_nil in Hempty; discriminate. }
  destruct (item_last s Hs) as [row [Hitem _]].
  unfold Pd.iloc_at. rewrite Hitem. cbn [bind Return].
  unfold Pd.np_repeat. destruct (Z.ltb_spec h 0); [eexists; reflexivity|].
  cbn [bind Return].
  assert (Hpos : 0 < h).
  { destruct (Z.eq_dec h 0) as [->|]; [|lia].
    unfold Pd.tail, Pd.iloc in Hempty. simpl in Hempty.
    rewrite slice_0_0 in Hempty. discriminate. }
  unfold Pd.tail, Pd.iloc. destruct (Z.eqb_spec h 0); [lia|].
  rewrite slice_suffix_all by lia.
  unfold Pd.mkSeries. rewrite len_repeat, len_index by lia.
  destruct (Z.eqb_spec h (len s)); [lia|]. eexists; reflexivity.
Qed.

End NaiveFacts.

(** ** Claims about [naive_forecast] *)

(** C1, as the code has it: for [1 <= horizon <= len s] the prediction is the
    constant sequence of length [horizon] whose every element is [s.iloc[-1]],
    the last observation of the whole series (the final value of the holdout
    window itself). *)
Theorem naive_forecast_predicts_last_value (L V : Type) (s : @Pd.Series L V) (horizon : Z) :
  1 <= horizon -> horizon <= len s ->
  exists r v,
    naive_forecast s horizon = Return r /\
    Pd.iloc_at s (-1) = Return v /\
    nth_error (Pd.values s) (Z.to_nat (len s - 1)) = Some v /\
    Pd.values (y_pred r) = repeat v (Z.to_nat horizon).
Proof.
  intros H1 H2.
  destruct (naive_forecast_ok s H1 H2) as [v [Hv Hr]].
  eexists; exists v. split; [exact Hr|]. split; [|split; [exact Hv|]].
  - destruct (@item_last _ s) as [row [Hitem Hnth]]; [lia|].
    unfold Pd.iloc_at. rewrite Hitem. cbn [bind Return].
    unfold Pd.values in Hv. rewrite nth_error_map, Hnth in Hv.
    simpl in Hv. congruence.
  - cbn [y_pred]. apply values_combine.
    rewrite repeat_length. unfold Pd.index. rewrite length_map, length_skipn.
    unfold len in *. lia.
Qed.

Lemma naive_forecast_predicts_last_value_witness :
  exists r v,
    naive_forecast series10 3 = Return r /\
    Pd.iloc_at series10 (-1) = Return v /\
    nth_error (Pd.values series10) (Z.to_nat (len series10 - 1)) = Some v /\
    Pd.values (y_pred r) = repeat v (Z.to_nat 3).
Proof.
  apply (@naive_forecast_predicts_last_value Z Z series10 3); vm_compute; congruence.
Defined.

(** C1 as stated fails: on the series 0..9 with horizon 3 the observation
    before the holdout is 6, and the prediction is 9 three times. *)
Lemma naive_forecast_not_value_before_holdout :
  spec_value_before_holdout series10 3 = Return 6 /\
  exists r,
    naive_forecast series10 3 = Return r /\
    Pd.values (y_pred r) = [9; 9; 9] /\
    Pd.values (y_pred r) <> repeat 6 (Z.to_nat 3).
Proof.
  split; [reflexivity|].
  eexists. split; [reflexivity|]. split; [reflexivity|].
  vm_compute. discriminate.
Qed.

(** C2, as the code has it: [naive_forecast] raises a [ValueError] exactly
    when [horizon <= 0] or [horizon > len s], and returns a result exactly when
    [1 <= horizon <= len s]; in particular it raises for [0 < len s < horizon]. *)
Theorem naive_forecast_fails_iff (L V : Type) (s : @Pd.Series L V) (horizon : Z) :
  ((exists msg, naive_forecast s horizon = Raise (ValueError msg)) <->
   (horizon <= 0 \/ len s < horizon)) /\
  ((exists r, naive_forecast s horizon = Return r) <->
   (1 <= horizon /\ horizon <= len s)).
Proof.
  destruct (Z_le_gt_dec horizon 0) as [Hle|Hgt];
    [|destruct (Z_lt_le_dec (len s) horizon) as [Hlt|Hge]].
  - destruct (@naive_forecast_raises _ _ s horizon) as [msg Hm]; [lia|].
    split; split; intros H; try lia; try (exists msg; exact Hm).
    destruct H as [r Hr]. rewrite Hm in Hr. discriminate.
  - destruct (@naive_forecast_raises _ _ s horizon) as [msg Hm]; [lia|].
    split; split; intros H; try lia; try (exists msg; exact Hm).
    destruct H as [r Hr]. rewrite Hm in Hr. discriminate.
  - destruct (@naive_forecast_ok _ _ s horizon) as [v [_ Hr]]; try lia.
    split; split; intros H; try lia.
    + destruct H as [msg Hm]. rewrite Hr in Hm. discriminate.
    + eexists; exact Hr.
Qed.

(** C2 as stated fails: with [horizon = 0] the call raises although the
    series is not shorter than the horizon. *)
Lemma naive_forecast_fails_on_zero_horizon :
  ~ spec_fails_exactly_when_short series3 0.
Proof.
  unfold spec_fails_exactly_when_short. intros [H _].
  assert (Hlt : len series3 < 0) by (apply H; eexists; reflexivity).
  vm_compute in Hlt. discriminate.
Qed.

(** C9: for [1 <= horizon <= len s] the result's actual and predicted
    sequences both have length [horizon] and carry the same ordered index,
    the index of the last [horizon] observations. *)
Theorem naive_forecast_aligned (L V : Type) (s : @Pd.Series L V) (horizon : Z) :
  1 <= horizon -> horizon <= len s ->
  exists r,
    naive_forecast s horizon = Return r /\
    len (y_true r) = horizon /\
    len (y_pred r) = horizon /\
    Pd.index (y_pred r) = Pd.index (y_true r) /\
    Pd.index (y_true r) = skipn (Z.to_nat (len s - horizon)) (Pd.index s).
Proof.
  intros H1 H2.
  destruct (naive_forecast_ok s H1 H2) as [v [_ Hr]].
  eexists. split; [exact Hr|]. cbn [y_true y_pred].
  assert (Hidx : List.length (Pd.index (skipn (Z.to_nat (len s - horizon)) s)) =
                 List.length (repeat v (Z.to_nat horizon))).
  { rewrite repeat_length. unfold Pd.index. rewrite length_map, length_skipn.
    unfold len in *. lia. }
  repeat split.
  - rewrite len_skipn. lia.
  - unfold len. rewrite length_combine, <- Hidx, Nat.min_id.
    unfold Pd.index. rewrite length_map, length_skipn. unfold len in *. lia.
  - apply index_combine. exact Hidx.
  - unfold Pd.index. symmetry. apply skipn_map.
Qed.

Lemma naive_forecast_aligned_witness :
  exists r,
    naive_forecast series10 3 = Return r /\
    len (y_true r) = 3 /\
    len (y_pred r) = 3 /\
    Pd.index (y_pred r) = Pd.index (y_true r) /\
    Pd.index (y_true r) = skipn (Z.to_nat (len series10 - 3)) (Pd.index series10).
Proof.
  apply (@naive_forecast_aligned Z Z series10 3); vm_compute; congruence.
Defined.

(** ** Claims about [train_test_split] *)

Lemma train_test_split_ok (L V : Type) (s : @Pd.Series L V) (test_size : Z) :
  0 < test_size -> test_size < len s ->
  train_test_split s test_size =
    Return (firstn (Z.to_nat (len s - test_size)) s,
            skipn (Z.to_nat (len s - test_size)) s).
Proof.
  intros H0 H1. unfold train_test_split.
  destruct (Z.leb_spec test_size 0); [lia|].
  destruct (Z.geb_spec test_size (len s)); [lia|].
  unfold Pd.iloc. rewrite slice_prefix, slice_suffix by lia. reflexivity.
Qed.

(** C5: [train_test_split] raises a [ValueError] if and only if
    [test_size <= 0] or [test_size >= len s]; otherwise it returns
    [(train, test)] with [test] the trailing [test_size] elements, [train]
    everything before, and [train ++ test = s]. *)
Theorem train_test_split_spec (L V : Type) (s : @Pd.Series L V) (test_size : Z) :
  ((exists msg, train_test_split s test_size = Raise (ValueError msg)) <->
   (test_size <= 0 \/ test_size >= len s)) /\
  (~ (test_size <= 0 \/ test_size >= len s) ->
   exists train test,
     train_test_split s test_size = Return (train, test) /\
     test = skipn (Z.to_nat (len s - test_size)) s /\
     len test = test_size /\
     train = firstn (Z.to_nat (len s - test_size)) s /\
     train ++ test = s).
Proof.
  unfold train_test_split.
  destruct (Z.leb_spec test_size 0) as [H0|H0].
  { split; [split; [intros _; lia | intros _; eexists; reflexivity] | intros H; lia]. }
  destruct (Z.geb_spec test_size (len s)) as [H1|H1].
  { split; [split; [intros _; lia | intros _; eexists; reflexivity] | intros H; lia]. }
  split.
  - split; [intros [msg Hm]; discriminate | intros H; lia].
  - intros _. unfold Pd.iloc.
    rewrite slice_prefix, slice_suffix by lia.
    do 2 eexists. split; [reflexivity|]. repeat split.
    + rewrite len_skipn. lia.
    + apply firstn_skipn.
Qed.

Lemma train_test_split_spec_witness :
  exists train test,
    train_test_split series10 3 = Return (train, test) /\
    test = skipn (Z.to_nat (len series10 - 3)) series10 /\
    len test = 3 /\
    train = firstn (Z.to_nat (len series10 - 3)) series10 /\
    train ++ test = series10.
Proof.
  apply (proj2 (@train_test_split_spec Z Z series10 3)).
  vm_compute. intros [H|H]; apply H; reflexivity.
Defined.

(** ** The rolling evaluator *)

(** The number of items of [range(start, stop, step)] for a positive step. *)
Lemma range_count_spec (a b step : Z) (k : nat) :
  0 < step ->
  (k < Z.to_nat ((b - a + step - 1) / step))%nat <-> a + Z.of_nat k * step < b.
Proof.
  intros Hstep. set (q := (b - a + step - 1) / step).
  split; intros H.
  - assert (Hq : Z.of_nat k + 1 <= q) by lia.
    destruct (Z_lt_le_dec (a + Z.of_nat k * step) b) as [Hlt|Hge]; [exact Hlt|].
    assert (q < Z.of_nat k + 1); [|lia].
    apply Z.div_lt_upper_bound; [exact Hstep|]. nia.
  - assert (Hq : Z.of_nat k + 1 <= q); [|lia].
    apply Z.div_le_lower_bound; [exact Hstep|]. nia.
Qed.

Lemma range_ascending (a b step : Z) :
  0 < step ->
  range a b step =
    Return (map (fun k => a + Z.of_nat k * step)
                (seq 0 (Z.to_nat ((b - a + step - 1) / step)))).
Proof.
  intros Hstep. unfold range.
  destruct (Z.eqb_spec step 0); [lia|].
  destruct (Z.ltb_spec 0 step); [reflexivity|lia].
Qed.

(** A loop whose body never raises yields one item per iteration. *)
Lemma for_yield_total (X A : Type) (body : X -> result A) (xs : list X) :
  (forall x, In x xs -> exists y, body x = Return y) ->
  stopped_by (for_yield body xs) = None /\
  Forall2 (fun x y => body x = Return y) xs (yielded (for_yield body xs)).
Proof.
  induction xs as [|x xs IH]; intros Hall; simpl.
  - split; [reflexivity|constructor].
  - destruct (Hall x (or_introl eq_refl)) as [y Hy].
    destruct IH as [IH1 IH2]; [intros x' Hx'; apply Hall; right; exact Hx'|].
    destruct (body x) as [e|y'] eqn:E; [discriminate Hy|].
    cbn [stopped_by yielded]. split; [exact IH1|].
    constructor; [exact E|exact IH2].
Qed.

Section RollingFacts.

Context {L V : Type}.
#[local] Abbreviation Series := (@Pd.Series L V).
Implicit Types (s : Series) (cfg : RollingWindowConfig).

(** Inside the range, a trial is the [window_size] rows before [start]
    followed by the [horizon] rows from [start]. *)
Lemma rolling_trial_in_range s (h : Z) cfg (start : Z) :
  0 < window_size cfg -> 1 <= h ->
  window_size cfg <= start -> start <= len s - h ->
  rolling_trial s h cfg start =
    firstn (Z.to_nat (window_size cfg)) (skipn (Z.to_nat (start - window_size cfg)) s) ++
    firstn (Z.to_nat h) (skipn (Z.to_nat start) s) /\
  len (rolling_trial s h cfg start) = window_size cfg + h.
Proof.
  intros Hw Hh H1 H2. unfold rolling_trial, Pd.concat, Pd.iloc. cbn [List.concat].
  rewrite app_nil_r, len_app, !len_slice_between by lia.
  rewrite !slice_between by lia.
  split; [|lia].
  f_equal; f_equal; f_equal; lia.
Qed.

Lemma rolling_forecast_explicit s (h : Z) cfg :
  0 < window_size cfg -> 0 < step_size cfg -> 1 <= h ->
  let starts :=
    map (fun k => window_size cfg + Z.of_nat k * step_size cfg)
        (seq 0 (Z.to_nat ((len s - h + 1 - window_size cfg + step_size cfg - 1)
                          / step_size cfg))) in
  range (window_size cfg) (len s - h + 1) (step_size cfg) = Return starts /\
  stopped_by (rolling_forecast s h cfg) = None /\
  Forall2 (fun start r => naive_forecast (rolling_trial s h cfg start) h = Return r)
          starts (yielded (rolling_forecast s h cfg)).
Proof.
  intros Hw Hstep Hh starts.
  pose proof (range_ascending (window_size cfg) (len s - h + 1) Hstep) as Hrange.
  fold starts in Hrange. split; [exact Hrange|].
  unfold rolling_forecast. rewrite Hrange. unfold Return at 1 3.
  apply for_yield_total. intros start Hin.
  apply in_map_iff in Hin. destruct Hin as [k [<- Hk]].
  apply in_seq in Hk.
  assert (Hlt : (k < Z.to_nat ((len s - h + 1 - window_size cfg + step_size cfg - 1)
                               / step_size cfg))%nat) by lia.
  apply range_count_spec in Hlt; [|exact Hstep].
  set (start := window_size cfg + Z.of_nat k * step_size cfg) in *.
  assert (Hge : window_size cfg <= start) by (unfold start; nia).
  destruct (@rolling_trial_in_range s h cfg start) as [_ Hlen]; try lia.
  destruct (@naive_forecast_ok _ _ (rolling_trial s h cfg start) h) as [v [_ Hr]];
    try lia.
  eexists; exact Hr.
Qed.

End RollingFacts.

(** C7, as the code has it: for positive [window_size] and [step_size] and a
    horizon of at least 1, [rolling_forecast] ends without an exception and
    yields one [ForecastResult] per start position
    [window_size + k * step_size <= len s - horizon], in order, each the naive
    forecast of the rows [start - window_size, start) followed by the rows
    [start, start + horizon); the number of results depends on the series
    only through its length. *)
Theorem rolling_forecast_trials (L V : Type) (s : @Pd.Series L V) (horizon : Z)
    (cfg : RollingWindowConfig) :
  0 < window_size cfg -> 0 < step_size cfg -> 1 <= horizon ->
  spec_rolling_yields_every_trial s horizon cfg /\
  exists n : nat,
    (forall k : nat,
        (k < n)%nat <-> window_size cfg + Z.of_nat k * step_size cfg <= len s - horizon) /\
    stopped_by (rolling_forecast s horizon cfg) = None /\
    Forall2 (fun start r =>
               naive_forecast
                 (firstn (Z.to_nat (window_size cfg))
                         (skipn (Z.to_nat (start - window_size cfg)) s) ++
                  firstn (Z.to_nat horizon) (skipn (Z.to_nat start) s)) horizon = Return r)
            (map (fun k => window_size cfg + Z.of_nat k * step_size cfg) (seq 0 n))
            (yielded (rolling_forecast s horizon cfg)) /\
    (forall s' : @Pd.Series L V,
        len s' = len s -> List.length (yielded (rolling_forecast s' horizon cfg)) = n).
Proof.
  intros Hw Hstep Hh.
  destruct (rolling_forecast_explicit s cfg Hw Hstep Hh) as [Hrange [Hstop Hall]].
  split; [eexists; split; [exact Hrange|split; [exact Hstop|exact Hall]]|].
  set (n := Z.to_nat ((len s - horizon + 1 - window_size cfg + step_size cfg - 1)
                      / step_size cfg)) in *.
  assert (Hn : forall k : nat,
             (k < n)%nat <-> window_size cfg + Z.of_nat k * step_size cfg <= len s - horizon).
  { intros k. unfold n. rewrite range_count_spec by exact Hstep. lia. }
  exists n. split; [exact Hn|]. split; [exact Hstop|]. split.
  - revert Hall. generalize (yielded (rolling_forecast s horizon cfg)).
    assert (Hin : forall k, In k (seq 0 n) -> (k < n)%nat) by (intros k Hk; apply in_seq in Hk; lia).
    revert Hin. generalize (seq 0 n). intros ks. induction ks as [|k ks IH]; intros Hin rs Hall.
    + inversion Hall; subst. constructor.
    + cbn [map] in *. inversion Hall as [|st r sts rs' Hr Hrest]; subst.
      constructor.
      * assert (Hk : (k < n)%nat) by (apply Hin; left; reflexivity).
        apply Hn in Hk.
        destruct (@rolling_trial_in_range _ _ s horizon cfg
                    (window_size cfg + Z.of_nat k * step_size cfg)) as [Heq _];
          try lia; try nia.
        rewrite <- Heq. exact Hr.
      * apply IH; [intros k' Hk'; apply Hin; right; exact Hk'|exact Hrest].
  - intros s' Hlen.
    destruct (rolling_forecast_explicit s' cfg Hw Hstep Hh) as [_ [_ Hall']].
    apply Forall2_length in Hall'. rewrite <- Hall', length_map, length_seq.
    unfold n. rewrite Hlen. reflexivity.
Qed.

Lemma rolling_forecast_trials_witness :
  spec_rolling_yields_every_trial series10 3 (mkRollingWindowConfig 4 2) /\
  exists n : nat,
    (forall k : nat, (k < n)%nat <-> 4 + Z.of_nat k * 2 <= len series10 - 3) /\
    stopped_by (rolling_forecast series10 3 (mkRollingWindowConfig 4 2)) = None /\
    Forall2 (fun start r =>
               naive_forecast
                 (firstn (Z.to_nat 4) (skipn (Z.to_nat (start - 4)) series10) ++
                  firstn (Z.to_nat 3) (skipn (Z.to_nat start) series10)) 3 = Return r)
            (map (fun k => 4 + Z.of_nat k * 2) (seq 0 n))
            (yielded (rolling_forecast series10 3 (mkRollingWindowConfig 4 2))) /\
    (forall s' : @Pd.Series Z Z,
        len s' = len series10 ->
        List.length (yielded (rolling_forecast s' 3 (mkRollingWindowConfig 4 2))) = n).
Proof.
  apply (@rolling_forecast_trials Z Z series10 3 (mkRollingWindowConfig 4 2));
    vm_compute; congruence.
Defined.

(** C7 as stated fails: with [horizon = 0] the range has three start
    positions, and the generator raises at the first one and yields nothing. *)
Lemma rolling_forecast_raises_on_zero_horizon :
  range 1 (len series3 - 0 + 1) 1 = Return [1; 2; 3] /\
  yielded (rolling_forecast series3 0 (mkRollingWindowConfig 1 1)) = [] /\
  stopped_by (rolling_forecast series3 0 (mkRollingWindowConfig 1 1)) =
    Some (ValueError "Series must contain at least 'horizon' values") /\
  ~ spec_rolling_yields_every_trial series3 0 (mkRollingWindowConfig 1 1).
Proof.
  split; [reflexivity|]. split; [reflexivity|]. split; [reflexivity|].
  intros [starts [_ [Hstop _]]]. vm_compute in Hstop. discriminate.
Qed.

(** ** Floats *)

Section FloatFacts.

Local Open Scope float_scope.

(** A float that is neither NaN, nor zero, nor infinite is a finite
    non-zero binary64 number. *)
Lemma finite_nonzero_SF (x : float) :
  PrimFloat.is_nan x = false -> PrimFloat.is_infinity x = false -> (x =? 0) = false ->
  exists s m e, Prim2SF x = S754_finite s m e.
Proof.
  intros Hnan Hinf Hzero.
  unfold PrimFloat.is_nan in Hnan. unfold PrimFloat.is_infinity in Hinf.
  rewrite eqb_spec in Hnan, Hinf, Hzero. rewrite abs_spec in Hinf.
  destruct (Prim2SF x) as [s|s| |s m e].
  - vm_compute in Hzero. destruct s; discriminate.
  - vm_compute in Hinf. destruct s; discriminate.
  - vm_compute in Hnan. discriminate.
  - eauto.
Qed.

(** [(x - x) / x * 100] compares equal to zero for a finite non-zero [x]. *)
Lemma delta_of_itself (x : float) :
  PrimFloat.is_nan x = false -> PrimFloat.is_infinity x = false -> (x =? 0) = false ->
  ((x - x) / x * 100 =? 0) = true.
Proof.
  intros Hnan Hinf Hzero.
  destruct (finite_nonzero_SF Hnan Hinf Hzero) as [s [m [e Hx]]].
  rewrite eqb_spec, mul_spec, div_spec, sub_spec, Hx.
  unfold SF64sub, SFsub. rewrite Z.sub_diag.
  destruct s; vm_compute; reflexivity.
Qed.

End FloatFacts.

(** ** The metrics bundle *)

Section MetricsFacts.

Import Metrics Pipeline.

Lemma select_none (mask : list bool) (s : FSeries) :
  forallb negb mask = true -> select mask s = [].
Proof.
  revert s. induction mask as [|m mask IH]; intros s H; [reflexivity|].
  simpl in H. apply andb_true_iff in H. destruct H as [Hm Hrest].
  destruct m; [discriminate|]. destruct s; simpl; [reflexivity|]. apply IH, Hrest.
Qed.

(** What [_collect_metrics] computes from a result with a prediction. *)
Lemma collect_metrics_ok (r : Result) :
  0 < len (y_pred r) ->
  exists last prev,
    Pd.iloc_at (y_pred r) (-1) = Return last /\
    (if 1 <? len (y_true r) then Pd.iloc_at (y_true r) (-2) else Return last) = Return prev /\
    _collect_metrics r =
      Return (mkMetrics last prev
                (if Fl.truthy prev then (((last - prev) / prev) * 100)%float else 0%float)
                (rmse r) (mae r) (mape r)).
Proof.
  intros Hlen.
  destruct (item_last (y_pred r) Hlen) as [row [Hrow _]].
  assert (Hlast : Pd.iloc_at (y_pred r) (-1) = Return (snd row)).
  { unfold Pd.iloc_at. rewrite Hrow. reflexivity. }
  assert (Hprev : exists prev,
             (if 1 <? len (y_true r) then Pd.iloc_at (y_true r) (-2) else Return (snd row))
             = Return prev).
  { destruct (Z.ltb_spec 1 (len (y_true r))) as [H|H]; [|eexists; reflexivity].
    destruct (@item_from_end _ (y_true r) 2) as [row2 [Hrow2 _]]; try lia.
    exists (snd row2). unfold Pd.iloc_at.
    change (-2) with (- (2)). rewrite Hrow2. reflexivity. }
  destruct Hprev as [prev Hprev].
  exists (snd row), prev. split; [exact Hlast|]. split; [exact Hprev|].
  unfold _collect_metrics. rewrite Hlast, bind_Return. cbv beta.
  rewrite Hprev, bind_Return. reflexivity.
Qed.

End MetricsFacts.

(** C10: on a result whose actuals are all zero the mask keeps no row, and
    [mape] is NaN (the mean of the empty selection, times 100). *)
Theorem mape_all_zero_is_nan (r : Metrics.Result) :
  Pd.index (y_pred r) = Pd.index (y_true r) ->
  y_true r <> [] ->
  forallb (fun x => (x =? 0)%float) (Pd.values (y_true r)) = true ->
  PrimFloat.is_nan (Metrics.mape r) = true.
Proof.
  intros _ _ Hzero. unfold Metrics.mape.
  assert (Hmask : forallb negb
                    (map (fun x => negb (x =? 0)%float) (Pd.values (y_true r))) = true).
  { revert Hzero. induction (Pd.values (y_true r)) as [|x xs IH]; simpl; intros H;
      [reflexivity|].
    apply andb_true_iff in H. destruct H as [Hx Hxs].
    rewrite Hx. simpl. apply IH, Hxs. }
  rewrite (@select_none _ (y_true r) Hmask), (@select_none _ (y_pred r) Hmask).
  vm_compute. reflexivity.
Qed.

Lemma mape_all_zero_is_nan_witness :
  PrimFloat.is_nan (Metrics.mape result_zero_actuals) = true.
Proof.
  apply (@mape_all_zero_is_nan result_zero_actuals).
  - reflexivity.
  - discriminate.
  - vm_compute. reflexivity.
Defined.

(** C4, as the code has it: [latest] is the last predicted value; [previous]
    is the second-to-last actual of the holdout window itself when the window
    has at least two points, and [latest] otherwise (then [delta_pct] compares
    equal to zero for a finite [latest]); [delta_pct] is
    [(latest - previous) / previous * 100], and 0 when [previous == 0]. *)
Theorem collect_metrics_bundle (r : Metrics.Result) :
  0 < len (y_pred r) ->
  exists m,
    Pipeline._collect_metrics r = Return m /\
    Pd.iloc_at (y_pred r) (-1) = Return (Pipeline.latest m) /\
    (1 < len (y_true r) ->
       Pd.iloc_at (y_true r) (-2) = Return (Pipeline.previous m)) /\
    (len (y_true r) <= 1 ->
       Pipeline.previous m = Pipeline.latest m /\
       (PrimFloat.is_nan (Pipeline.latest m) = false ->
        PrimFloat.is_infinity (Pipeline.latest m) = false ->
        (Pipeline.delta_pct m =? 0)%float = true)) /\
    Pipeline.delta_pct m =
      (if (Pipeline.previous m =? 0)%float then 0%float
       else ((Pipeline.latest m - Pipeline.previous m) / Pipeline.previous m * 100)%float).
Proof.
  intros Hlen.
  destruct (collect_metrics_ok r Hlen) as [last [prev [Hlast [Hprev Hm]]]].
  eexists. split; [exact Hm|]. cbn [Pipeline.latest Pipeline.previous Pipeline.delta_pct].
  split; [exact Hlast|]. split; [|split].
  - intros H. destruct (Z.ltb_spec 1 (len (y_true r))); [exact Hprev|lia].
  - intros H. destruct (Z.ltb_spec 1 (len (y_true r))); [lia|].
    assert (prev = last) by (unfold Return in Hprev; congruence). subst prev.
    split; [reflexivity|]. intros Hnan Hinf.
    unfold Fl.truthy. destruct (last =? 0)%float eqn:E; cbn [negb].
    + vm_compute. reflexivity.
    + apply delta_of_itself; assumption.
  - unfold Fl.truthy. destruct (prev =? 0)%float; reflexivity.
Qed.

Lemma collect_metrics_bundle_witness :
  exists m,
    Pipeline._collect_metrics result_zero_actuals = Return m /\
    Pd.iloc_at (y_pred result_zero_actuals) (-1) = Return (Pipeline.latest m) /\
    (1 < len (y_true result_zero_actuals) ->
       Pd.iloc_at (y_true result_zero_actuals) (-2) = Return (Pipeline.previous m)) /\
    (len (y_true result_zero_actuals) <= 1 ->
       Pipeline.previous m = Pipeline.latest m /\
       (PrimFloat.is_nan (Pipeline.latest m) = false ->
        PrimFloat.is_infinity (Pipeline.latest m) = false ->
        (Pipeline.delta_pct m =? 0)%float = true)) /\
    Pipeline.delta_pct m =
      (if (Pipeline.previous m =? 0)%float then 0%float
       else ((Pipeline.latest m - Pipeline.previous m) / Pipeline.previous m * 100)%float).
Proof.
  apply (@collect_metrics_bundle result_zero_actuals). vm_compute. reflexivity.
Defined.

(** C4 as stated fails: forecasting the last 3 of 10, 20, 30, 40, 50, the
    last observation strictly before the horizon is 20, and [previous] is 40,
    the second-to-last actual inside the horizon. And the fallback does not
    always give a zero [delta_pct]: with a NaN prediction it is NaN. *)
Lemma collect_metrics_previous_inside_holdout :
  (exists r m,
     naive_forecast series5f 3 = Return r /\
     Pipeline._collect_metrics r = Return m /\
     Pipeline.spec_previous series5f 3 (Pipeline.latest m) = Return 20%float /\
     Pipeline.previous m = 40%float /\
     (Pipeline.previous m =? 20)%float = false) /\
  (exists m,
     Pipeline._collect_metrics result_nan_prediction = Return m /\
     Pipeline.previous m = Pipeline.latest m /\
     PrimFloat.is_nan (Pipeline.delta_pct m) = true).
Proof.
  split.
  - do 2 eexists. split; [reflexivity|]. split; [vm_compute; reflexivity|].
    split; [vm_compute; reflexivity|]. split; vm_compute; reflexivity.
  - eexists. split; [vm_compute; reflexivity|]. split; vm_compute; reflexivity.
Qed.

(** ** The data source resolver *)

Section ResolverFacts.

Import Metrics Pipeline.

Variable nm : Numerics.

Lemma length_map2 (A B C : Type) (f : A -> B -> C) (xs : list A) (ys : list B) :
  List.length (map2 f xs ys) = Nat.min (List.length xs) (List.length ys).
Proof. unfold map2. rewrite length_map, length_combine. reflexivity. Qed.

Lemma length_linspace (a b : float) (n : nat) : List.length (linspace a b n) = n.
Proof. unfold linspace. rewrite length_map, length_seq. reflexivity. Qed.

Lemma length_normal (g : Generator nm) (loc scale : float) (n : nat) :
  List.length (normal nm g loc scale n) = n.
Proof.
  revert g. induction n as [|n IH]; intros g; simpl; [reflexivity|].
  destruct (standard_normal nm g) as [z g']. simpl. rewrite IH. reflexivity.
Qed.

Lemma length_reset_index (rows : list Row) : List.length (reset_index rows) = List.length rows.
Proof.
  unfold reset_index. rewrite length_combine, length_map, length_seq. apply Nat.min_id.
Qed.

Lemma map_snd_reset_index (rows : list Row) : map snd (reset_index rows) = rows.
Proof.
  unfold reset_index. apply (@values_combine Z Row).
  rewrite length_map, length_seq. reflexivity.
Qed.

(** A column of a table built row by row from two columns of equal length. *)
Lemma map_map2_left (A B C : Type) (f : A -> B -> C) (g : C -> A) (xs : list A) (ys : list B) :
  (forall x y, g (f x y) = x) -> List.length xs = List.length ys ->
  map g (map2 f xs ys) = xs.
Proof.
  intros Hg. revert ys. induction xs as [|x xs IH]; intros [|y ys] H; simpl in *;
    try reflexivity; try discriminate.
  unfold map2 in *. simpl. rewrite Hg. f_equal. apply IH. lia.
Qed.

Lemma map_map2_right (A B C : Type) (f : A -> B -> C) (g : C -> B) (xs : list A) (ys : list B) :
  (forall x y, g (f x y) = y) -> List.length xs = List.length ys ->
  map g (map2 f xs ys) = ys.
Proof.
  intros Hg. revert ys. induction xs as [|x xs IH]; intros [|y ys] H; simpl in *;
    try reflexivity; try discriminate.
  unfold map2 in *. simpl. rewrite Hg. f_equal. apply IH. lia.
Qed.

Lemma length_spec_synthetic_prices (d : Z) (n : nat) : List.length (spec_synthetic_prices nm d n) = n.
Proof.
  unfold spec_synthetic_prices.
  rewrite !length_map2, length_map, length_seq, length_linspace, length_normal. lia.
Qed.

Lemma synthetic_frame_columns (d h : Z) :
  let hours := Z.max (h + 48) 72 in
  len (_generate_synthetic_frame nm d h) = hours /\
  map (fun lr => DateTime (snd lr)) (_generate_synthetic_frame nm d h) =
    map (fun i => midnight d - timedelta_hours (hours - 1 - Z.of_nat i))
        (seq 0 (Z.to_nat hours)) /\
  map (fun lr => SpotPrice (snd lr)) (_generate_synthetic_frame nm d h) =
    spec_synthetic_prices nm d (Z.to_nat hours).
Proof.
  intros hours. unfold _generate_synthetic_frame. fold hours.
  fold (spec_synthetic_prices nm d (Z.to_nat hours)).
  set (ts := map _ (seq 0 (Z.to_nat hours))).
  assert (Hts : List.length ts = List.length (spec_synthetic_prices nm d (Z.to_nat hours))).
  { unfold ts. rewrite length_map, length_seq, length_spec_synthetic_prices. reflexivity. }
  split; [|split].
  - unfold len. rewrite length_reset_index, length_map2, <- Hts, Nat.min_id.
    unfold ts. rewrite length_map, length_seq. lia.
  - rewrite <- (map_map snd DateTime), map_snd_reset_index.
    rewrite map_map2_left by (reflexivity || exact Hts).
    unfold ts. apply map_ext. intros i. unfold timedelta_hours. lia.
  - rewrite <- (map_map snd SpotPrice), map_snd_reset_index.
    apply map_map2_right; [reflexivity|exact Hts].
Qed.

Variable w : World.

Ltac returns_synthetic :=
  do 3 eexists; split; [reflexivity|]; left; split; reflexivity.

(** The resolver raises only what the cleaning of a live response raises,
    after the one call of the feed; what it returns is the synthetic frame of
    today's date tagged "synthetic", or a cleaned live frame longer than the
    horizon tagged "api". *)
Lemma load_price_frame_cases (h : Z) (tr : list Event) :
  (exists e,
     truthy (nordpool_api_key (settings w)) = true /\
     fetch_spot_prices w = Return (Uncleanable e) /\
     _load_price_frame nm w h tr = (Raise e, tr ++ [FetchSpotPrices (today w)])) \/
  exists frame tag tr',
    _load_price_frame nm w h tr = (Return (frame, tag), tr') /\
    ((tag = "synthetic" /\ frame = _generate_synthetic_frame nm (today w) h) \/
     (tag = "api" /\ h < len frame /\
      exists raw,
        fetch_spot_prices w = Return (Records raw) /\ clean_api_frame raw = Some frame)).
Proof.
  unfold _load_price_frame.
  destruct (truthy (nordpool_api_key (settings w))); cbn [negb].
  2: right; returns_synthetic.
  unfold bindR, try_except, call, ret, lift.
  destruct (fetch_spot_prices w) as [e|[raw|e]] eqn:Hfetch.
  { right. returns_synthetic. }
  2: { left. exists e. split; [reflexivity|]. split; reflexivity. }
  right. unfold Return. cbv beta iota zeta. cbn [clean_payload]. unfold Return.
  destruct (clean_api_frame raw) as [frame|] eqn:Hclean.
  2: returns_synthetic.
  destruct (Z.ltb_spec h (len frame)).
  - do 3 eexists. split; [reflexivity|]. right. split; [reflexivity|]. split; [assumption|].
    exists raw. split; [reflexivity|exact Hclean].
  - returns_synthetic.
Qed.

End ResolverFacts.

(** C6: without a live-feed credential the resolver returns, tagged
    "synthetic", the synthetic frame of today's date; it has exactly
    [max(horizon + 48, 72)] rows, at least [horizon]; its timestamps are one
    hour apart and the last one is the start of the target day. *)
Theorem resolver_falls_back_to_synthetic (nm : Pipeline.Numerics) (w : Pipeline.World)
    (horizon : Z) (tr : list Pipeline.Event) :
  truthy (Pipeline.nordpool_api_key (Pipeline.settings w)) = false ->
  let hours := Z.max (horizon + 48) 72 in
  exists frame,
    Pipeline._load_price_frame nm w horizon tr = (Return (frame, "synthetic"), tr) /\
    frame = Pipeline._generate_synthetic_frame nm (Pipeline.today w) horizon /\
    len frame = hours /\
    horizon <= len frame /\
    map (fun lr => Pipeline.DateTime (snd lr)) frame =
      map (fun i => Pipeline.midnight (Pipeline.today w)
                    - Pipeline.timedelta_hours (hours - 1 - Z.of_nat i))
          (seq 0 (Z.to_nat hours)) /\
    last (map (fun lr => Pipeline.DateTime (snd lr)) frame) 0
      = Pipeline.midnight (Pipeline.today w).
Proof.
  intros Hkey hours.
  destruct (synthetic_frame_columns nm (Pipeline.today w) horizon) as [Hlen [Hts _]].
  fold hours in Hlen, Hts.
  eexists. split; [|split; [reflexivity|]].
  - unfold Pipeline._load_price_frame. rewrite Hkey. reflexivity.
  - split; [exact Hlen|]. split; [rewrite Hlen; unfold hours; lia|].
    split; [exact Hts|]. rewrite Hts.
    assert (Hn : exists n', Z.to_nat hours = S n') by (exists (Z.to_nat hours - 1)%nat; lia).
    destruct Hn as [n' Hn]. rewrite Hn, seq_S, map_app. cbn [map Nat.add].
    rewrite last_last. unfold Pipeline.timedelta_hours. lia.
Qed.

Lemma resolver_falls_back_to_synthetic_witness :
  exists frame,
    Pipeline._load_price_frame numerics0 world_quiet 24 [] = (Return (frame, "synthetic"), []) /\
    frame = Pipeline._generate_synthetic_frame numerics0 (Pipeline.today world_quiet) 24 /\
    len frame = Z.max (24 + 48) 72 /\
    24 <= len frame /\
    map (fun lr => Pipeline.DateTime (snd lr)) frame =
      map (fun i => Pipeline.midnight (Pipeline.today world_quiet)
                    - Pipeline.timedelta_hours (Z.max (24 + 48) 72 - 1 - Z.of_nat i))
          (seq 0 (Z.to_nat (Z.max (24 + 48) 72))) /\
    last (map (fun lr => Pipeline.DateTime (snd lr)) frame) 0
      = Pipeline.midnight (Pipeline.today world_quiet).
Proof.
  apply (@resolver_falls_back_to_synthetic numerics0 world_quiet 24 []). reflexivity.
Defined.

(** C8: synthetic generation is deterministic. Whatever the world and the
    trace so far, two resolutions that fall back to synthetic data for the
    same date and horizon return the same frame; its timestamps and prices
    are functions of the date's ordinal and the horizon alone, the noise being
    drawn from a generator seeded with the ordinal. *)
Theorem synthetic_generation_deterministic (nm : Pipeline.Numerics)
    (w1 w2 : Pipeline.World) (horizon : Z) (tr1 tr2 : list Pipeline.Event)
    (f1 f2 : Pipeline.Frame) :
  Pipeline.today w1 = Pipeline.today w2 ->
  fst (Pipeline._load_price_frame nm w1 horizon tr1) = Return (f1, "synthetic") ->
  fst (Pipeline._load_price_frame nm w2 horizon tr2) = Return (f2, "synthetic") ->
  let hours := Z.max (horizon + 48) 72 in
  f1 = f2 /\
  f1 = Pipeline._generate_synthetic_frame nm (Pipeline.today w1) horizon /\
  map (fun lr => Pipeline.DateTime (snd lr)) f1 =
    map (fun i => Pipeline.midnight (Pipeline.today w1)
                  - Pipeline.timedelta_hours (hours - 1 - Z.of_nat i))
        (seq 0 (Z.to_nat hours)) /\
  map (fun lr => Pipeline.SpotPrice (snd lr)) f1 =
    Pipeline.spec_synthetic_prices nm (Pipeline.today w1) (Z.to_nat hours).
Proof.
  intros Hday H1 H2 hours.
  assert (Hsyn : forall w tr f,
             fst (Pipeline._load_price_frame nm w horizon tr) = Return (f, "synthetic") ->
             f = Pipeline._generate_synthetic_frame nm (Pipeline.today w) horizon).
  { intros w tr f H.
    destruct (load_price_frame_cases nm w horizon tr)
      as [[e [_ [_ Hload]]]|[frame [tag [tr' [Hload Hcase]]]]];
      [rewrite Hload in H; discriminate|].
    rewrite Hload in H. cbn [fst] in H. unfold Return in H.
    injection H as Hf Htag. subst.
    destruct Hcase as [[_ Hframe]|[Htag _]]; [exact Hframe|discriminate]. }
  apply Hsyn in H1. apply Hsyn in H2.
  destruct (synthetic_frame_columns nm (Pipeline.today w1) horizon) as [_ [Hts Hps]].
  fold hours in Hts, Hps.
  split; [rewrite H1, H2, Hday; reflexivity|]. split; [exact H1|].
  rewrite H1. split; [exact Hts|exact Hps].
Qed.

Lemma synthetic_generation_deterministic_witness :
  fst (Pipeline._load_price_frame numerics0 world_quiet 24 [])
    = Return (synthetic_24, "synthetic") /\
  fst (Pipeline._load_price_frame numerics0 world_feed_down 24
         [Pipeline.Print "earlier output"])
    = Return (synthetic_24, "synthetic") /\
  synthetic_24 = synthetic_24 /\
  synthetic_24 =
    Pipeline._generate_synthetic_frame numerics0 (Pipeline.today world_quiet) 24 /\
  map (fun lr => Pipeline.DateTime (snd lr)) synthetic_24 =
    map (fun i => Pipeline.midnight (Pipeline.today world_quiet)
                  - Pipeline.timedelta_hours (Z.max (24 + 48) 72 - 1 - Z.of_nat i))
        (seq 0 (Z.to_nat (Z.max (24 + 48) 72))) /\
  map (fun lr => Pipeline.SpotPrice (snd lr)) synthetic_24 =
    Pipeline.spec_synthetic_prices numerics0 (Pipeline.today world_quiet)
                                   (Z.to_nat (Z.max (24 + 48) 72)).
Proof.
  split; [reflexivity|]. split; [reflexivity|].
  apply (@synthetic_generation_deterministic numerics0 world_quiet world_feed_down 24
           [] [Pipeline.Print "earlier output"] synthetic_24 synthetic_24);
    reflexivity.
Defined.

(** ** The orchestrator *)

Section OrchestratorFacts.

Import Metrics Pipeline.

Variable nm : Numerics.

Section OneWorld.

Variable w : World.

(** A best-effort step that is skipped returns without an event; one that is
    attempted returns whatever its collaborator does, after the event. *)
Ltac step_skipped :=
  exists []; rewrite app_nil_r; split; [reflexivity|]; intros; discriminate.

Ltac step_attempted :=
  eexists; rewrite <- ?app_assoc; split; [reflexivity|]; intros; left; reflexivity.

Lemma maybe_upload_chart_returns (p : Path) (tr : list Event) :
  exists suffix,
    _maybe_upload_chart w p tr = (Return tt, tr ++ suffix) /\
    (forall o, upload_file w = Some o -> truthy (slack_token (settings w)) = true ->
               In (UploadFile "#energy-forecast" p) suffix).
Proof.
  unfold _maybe_upload_chart.
  destruct (upload_file w) as [o|].
  2: step_skipped.
  destruct (truthy (slack_token (settings w))).
  2: step_skipped.
  unfold try_except, call, print.
  destruct o as [e|[]].
  - step_attempted.
  - step_attempted.
Qed.

Lemma sync_to_notion_returns (p : Path) (tr : list Event) :
  exists suffix,
    sync_to_notion w p tr = (Return tt, tr ++ suffix) /\
    (truthy (notion_token (settings w)) = true ->
     truthy (notion_database_id (settings w)) = true ->
     In (LogForecast ("file://" ++ p)) suffix).
Proof.
  unfold sync_to_notion.
  destruct (truthy (notion_token (settings w))); cbn [negb orb].
  2: step_skipped.
  destruct (truthy (notion_database_id (settings w))); cbn [negb].
  2: step_skipped.
  unfold try_except, call, print.
  destruct (log_forecast w) as [e|[]].
  - step_attempted.
  - step_attempted.
Qed.

Lemma persist_run_returns (tag : string) (p : Path) (tr : list Event) :
  exists suffix,
    _persist_run w tag p tr = (Return tt, tr ++ suffix) /\
    In (RecordForecastRun tag p) suffix /\
    (truthy (notion_token (settings w)) = true ->
     truthy (notion_database_id (settings w)) = true ->
     In (LogForecast ("file://" ++ p)) suffix).
Proof.
  unfold _persist_run, bindR, try_except, call, print.
  destruct (record_forecast_run w) as [e|[]].
  - destruct (sync_to_notion_returns p
                ((tr ++ [RecordForecastRun tag p]) ++ [Print ("Database logging skipped: " ++ str e)]))
      as [sfx [Hs Hin]].
    rewrite Hs. eexists. rewrite <- !app_assoc. split; [reflexivity|].
    split; [left; reflexivity|]. intros H1 H2. right. right. apply Hin; assumption.
  - destruct (sync_to_notion_returns p (tr ++ [RecordForecastRun tag p])) as [sfx [Hs Hin]].
    rewrite Hs. eexists. rewrite <- !app_assoc. split; [reflexivity|].
    split; [left; reflexivity|]. intros H1 H2. right. apply Hin; assumption.
Qed.

Lemma maybe_commit_to_github_returns (p : Path) (tr : list Event) :
  exists suffix,
    _maybe_commit_to_github w p tr = (Return tt, tr ++ suffix) /\
    (truthy (github_token (settings w)) = true ->
     truthy (github_repo (settings w)) = true ->
     In (CommitFile p) suffix).
Proof.
  unfold _maybe_commit_to_github.
  destruct (truthy (github_token (settings w))); cbn [negb orb].
  2: step_skipped.
  destruct (truthy (github_repo (settings w))); cbn [negb].
  2: step_skipped.
  unfold try_except, bindR, call, print.
  destruct (commit_file w) as [e|[]].
  - step_attempted.
  - destruct (commit_text w) as [e|[]].
    + step_attempted.
    + step_attempted.
Qed.

Lemma forecast_core (col : FSeries) (h : Z) :
  0 < h -> h < len col ->
  exists train test r m,
    train_test_split col h = Return (train, test) /\
    naive_forecast (Pd.concat [train; test]) h = Return r /\
    len (y_true r) = h /\ len (y_pred r) = h /\
    _collect_metrics r = Return m.
Proof.
  intros H0 H1.
  do 2 eexists. 
  destruct (@naive_forecast_ok _ _ col h) as [v [_ Hr]]; try lia.
  assert (Hlen : List.length (Pd.index (skipn (Z.to_nat (len col - h)) col)) =
                 List.length (repeat v (Z.to_nat h))).
  { rewrite repeat_length. unfold Pd.index. rewrite length_map, length_skipn.
    unfold len in *. lia. }
  assert (Hpred : len (combine (Pd.index (skipn (Z.to_nat (len col - h)) col))
                               (repeat v (Z.to_nat h))) = h).
  { unfold len in *. rewrite length_combine. rewrite repeat_length in *. lia. }
  destruct (@collect_metrics_ok
              (mkForecastResult (skipn (Z.to_nat (len col - h)) col)
                 (combine (Pd.index (skipn (Z.to_nat (len col - h)) col))
                          (repeat v (Z.to_nat h))))) as [last [prev [_ [_ Hm]]]].
  { cbn [y_pred]. lia. }
  do 2 eexists. split; [apply train_test_split_ok; lia|].
  unfold Pd.concat. cbn [List.concat]. rewrite app_nil_r, firstn_skipn.
  split; [exact Hr|]. cbn [y_true y_pred].
  split; [rewrite len_skipn; lia|]. split; [exact Hpred|exact Hm].
Qed.


End OneWorld.


End OrchestratorFacts.



(** * Further properties of the forecasting primitives *)

Section ForecasterExtras.

Context {L V : Type}.
#[local] Abbreviation Series := (@Pd.Series L V).
Implicit Types s : Series.

(** Reading from the end of a suffix is reading from the end of the list. *)
Lemma item_from_end_skipn (A : Type) (l : list A) (k : nat) (j : Z) :
  0 < j -> j <= len l - Z.of_nat k ->
  item (skipn k l) (- j) = item l (- j).
Proof.
  intros Hj Hle.
  destruct (@item_from_end _ (skipn k l) j) as [x [Hx Hnx]]; [lia|rewrite len_skipn; lia|].
  destruct (@item_from_end _ l j) as [y [Hy Hny]]; [lia|lia|].
  rewrite Hx, Hy. f_equal.
  rewrite nth_error_skipn, len_skipn in Hnx.
  replace (k + Z.to_nat (Z.max 0 (len l - Z.of_nat k) - j))%nat
    with (Z.to_nat (len l - j)) in Hnx by lia.
  congruence.
Qed.

Lemma iloc_at_skipn s (k : nat) (j : Z) :
  0 < j -> j <= len s - Z.of_nat k ->
  Pd.iloc_at (skipn k s) (- j) = Pd.iloc_at s (- j).
Proof.
  intros Hj Hle. unfold Pd.iloc_at. rewrite item_from_end_skipn by assumption. reflexivity.
Qed.

(** Splitting off a test segment and forecasting over train followed by test
    (lines 54-55 of [run]): the holdout of the forecast is the test segment,
    and the prediction repeats the last value of the test segment on its
    index. *)
Theorem split_then_forecast s (test_size : Z) :
  0 < test_size -> test_size < len s ->
  exists train test r v,
    train_test_split s test_size = Return (train, test) /\
    naive_forecast (Pd.concat [train; test]) test_size = Return r /\
    y_true r = test /\
    Pd.iloc_at test (-1) = Return v /\
    Pd.values (y_pred r) = repeat v (Z.to_nat test_size) /\
    Pd.index (y_pred r) = Pd.index test.
Proof.
  intros H0 H1.
  destruct (@naive_forecast_ok _ _ s test_size) as [v [Hv Hr]]; try lia.
  set (test := skipn (Z.to_nat (len s - test_size)) s) in *.
  assert (Hlen : List.length (Pd.index test) = List.length (repeat v (Z.to_nat test_size))).
  { rewrite repeat_length. unfold Pd.index, test. rewrite length_map, length_skipn.
    unfold len in *. lia. }
  exists (firstn (Z.to_nat (len s - test_size)) s), test. eexists. exists v.
  split; [apply train_test_split_ok; lia|].
  unfold Pd.concat. cbn [List.concat]. rewrite app_nil_r. unfold test at 1.
  rewrite firstn_skipn. split; [exact Hr|]. cbn [y_true y_pred].
  split; [reflexivity|]. split; [|split].
  - unfold test. change (-1) with (- (1)). rewrite iloc_at_skipn by lia.
    destruct (@item_last _ s) as [row [Hitem Hnth]]; [lia|].
    unfold Pd.iloc_at. change (- (1)) with (-1). rewrite Hitem. cbn [bind Return].
    unfold Pd.values in Hv. rewrite nth_error_map, Hnth in Hv. simpl in Hv.
    unfold Return. congruence.
  - apply values_combine. exact Hlen.
  - apply index_combine. exact Hlen.
Qed.

End ForecasterExtras.

Lemma split_then_forecast_witness :
  exists train test r v,
    train_test_split series10 3 = Return (train, test) /\
    naive_forecast (Pd.concat [train; test]) 3 = Return r /\
    y_true r = test /\
    Pd.iloc_at test (-1) = Return v /\
    Pd.values (y_pred r) = repeat v (Z.to_nat 3) /\
    Pd.index (y_pred r) = Pd.index test.
Proof.
  apply (@split_then_forecast Z Z series10 3); vm_compute; congruence.
Defined.


(** ** The rolling evaluator: how many trials, and what each one holds *)

Lemma Forall2_nth_error_right (A B : Type) (P : A -> B -> Prop) (xs : list A) (ys : list B)
    (k : nat) (y : B) :
  Forall2 P xs ys -> nth_error ys k = Some y ->
  exists x, nth_error xs k = Some x /\ P x y.
Proof.
  intros H. revert k. induction H as [|x0 y0 xs ys Hxy _ IH]; intros k Hk.
  - destruct k; discriminate.
  - destruct k as [|k]; simpl in *.
    + injection Hk as <-. exists x0. split; [reflexivity|exact Hxy].
    + apply IH. exact Hk.
Qed.

Section RollingExtras.

Context {L V : Type}.
#[local] Abbreviation Series := (@Pd.Series L V).
Implicit Types (s : Series) (cfg : RollingWindowConfig).

(** The number of trials: none when the series is shorter than a window
    plus a horizon, otherwise [(len s - horizon - window_size) // step_size + 1]. *)
Theorem rolling_forecast_count s (horizon : Z) cfg :
  0 < window_size cfg -> 0 < step_size cfg -> 1 <= horizon ->
  stopped_by (rolling_forecast s horizon cfg) = None /\
  len (yielded (rolling_forecast s horizon cfg)) =
    if len s - horizon <? window_size cfg then 0
    else (len s - horizon - window_size cfg) / step_size cfg + 1.
Proof.
  intros Hw Hstep Hh.
  destruct (rolling_forecast_explicit s cfg Hw Hstep Hh) as [_ [Hstop Hall]].
  split; [exact Hstop|].
  apply Forall2_length in Hall. unfold len at 1. rewrite <- Hall, length_map, length_seq.
  replace (len s - horizon + 1 - window_size cfg + step_size cfg - 1)
    with ((len s - horizon - window_size cfg) + 1 * step_size cfg) by lia.
  rewrite Z.div_add by lia.
  destruct (Z.ltb_spec (len s - horizon) (window_size cfg)) as [Hlt|Hge].
  - assert ((len s - horizon - window_size cfg) / step_size cfg < 0)
      by (apply Z.div_lt_upper_bound; lia).
    lia.
  - assert (0 <= (len s - horizon - window_size cfg) / step_size cfg)
      by (apply Z.div_pos; lia).
    lia.
Qed.

(** The [k]-th trial starts at [window_size + k * step_size]; its actuals
    are the [horizon] rows from there, and its prediction repeats, on their
    index, the last of these actuals (the value at [start + horizon - 1]). *)
Theorem rolling_forecast_result s (horizon : Z) cfg (k : nat) (r : ForecastResult L V) :
  0 < window_size cfg -> 0 < step_size cfg -> 1 <= horizon ->
  nth_error (yielded (rolling_forecast s horizon cfg)) k = Some r ->
  let start := window_size cfg + Z.of_nat k * step_size cfg in
  start + horizon <= len s /\
  y_true r = firstn (Z.to_nat horizon) (skipn (Z.to_nat start) s) /\
  Pd.index (y_pred r) = Pd.index (y_true r) /\
  exists v,
    nth_error (Pd.values s) (Z.to_nat (start + horizon - 1)) = Some v /\
    Pd.values (y_pred r) = repeat v (Z.to_nat horizon).
Proof.
  intros Hw Hstep Hh Hk start.
  destruct (rolling_forecast_explicit s cfg Hw Hstep Hh) as [_ [_ Hall]].
  destruct (Forall2_nth_error_right _ Hall Hk) as [st [Hst Hr]].
  rewrite nth_error_map in Hst.
  destruct (nth_error (seq 0 _) k) as [k'|] eqn:Hseq; [|discriminate].
  set (n := Z.to_nat ((len s - horizon + 1 - window_size cfg + step_size cfg - 1)
                      / step_size cfg)) in *.
  assert (Hklt : (k < n)%nat)
    by (rewrite <- (length_seq n 0); apply nth_error_Some; congruence).
  assert (k' = k).
  { apply nth_error_nth with (d := 0%nat) in Hseq. rewrite seq_nth in Hseq by exact Hklt.
    lia. }
  subst k'. simpl in Hst. injection Hst as <-. fold start in Hr.
  unfold n in Hklt. apply range_count_spec in Hklt; [|exact Hstep]. fold start in Hklt.
  assert (Hge : window_size cfg <= start) by (unfold start; nia).
  destruct (@rolling_trial_in_range _ _ s horizon cfg start) as [Htrial Hlen]; try lia.
  destruct (@naive_forecast_ok _ _ (rolling_trial s horizon cfg start) horizon)
    as [v [Hv Hok]]; try lia.
  rewrite Hok in Hr. unfold Return in Hr. injection Hr as <-. cbn [y_true y_pred].
  set (window := firstn (Z.to_nat (window_size cfg))
                        (skipn (Z.to_nat (start - window_size cfg)) s)) in *.
  set (actual := firstn (Z.to_nat horizon) (skipn (Z.to_nat start) s)) in *.
  assert (Hwlen : List.length window = Z.to_nat (window_size cfg)).
  { unfold window. rewrite length_firstn, length_skipn. unfold len in *. lia. }
  assert (Halen : List.length actual = Z.to_nat horizon).
  { unfold actual. rewrite length_firstn, length_skipn. unfold len in *. lia. }
  assert (Hholdout : skipn (Z.to_nat (len (rolling_trial s horizon cfg start) - horizon))
                           (rolling_trial s horizon cfg start) = actual).
  { rewrite Hlen, Htrial.
    replace (Z.to_nat (window_size cfg + horizon - horizon)) with (List.length window) by lia.
    rewrite skipn_app, skipn_all, Nat.sub_diag. reflexivity. }
  rewrite Hholdout.
  assert (Hidx : List.length (Pd.index actual) = List.length (repeat v (Z.to_nat horizon))).
  { rewrite repeat_length. unfold Pd.index. rewrite length_map. exact Halen. }
  split; [lia|]. split; [reflexivity|]. split; [apply index_combine; exact Hidx|].
  exists v. split; [|apply values_combine; exact Hidx].
  rewrite Hlen, Htrial in Hv. unfold Pd.values in Hv |- *.
  rewrite map_app, nth_error_app2 in Hv by (rewrite length_map; lia).
  rewrite length_map, Hwlen in Hv.
  replace (Z.to_nat (window_size cfg + horizon - 1) - Z.to_nat (window_size cfg))%nat
    with (Z.to_nat horizon - 1)%nat in Hv by lia.
  unfold actual in Hv. rewrite <- firstn_map, nth_error_firstn in Hv.
  destruct (Nat.ltb_spec (Z.to_nat horizon - 1) (Z.to_nat horizon)); [|lia].
  rewrite <- skipn_map, nth_error_skipn in Hv. rewrite <- Hv. f_equal. lia.
Qed.

End RollingExtras.

Lemma rolling_forecast_count_witness :
  stopped_by (rolling_forecast series10 3 (mkRollingWindowConfig 4 2)) = None /\
  len (yielded (rolling_forecast series10 3 (mkRollingWindowConfig 4 2))) =
    if len series10 - 3 <? 4 then 0 else (len series10 - 3 - 4) / 2 + 1.
Proof.
  apply (@rolling_forecast_count Z Z series10 3 (mkRollingWindowConfig 4 2));
    vm_compute; congruence.
Defined.

Lemma rolling_forecast_result_witness :
  6 + 3 <= len series10 /\
  y_true trial_at_6 = firstn (Z.to_nat 3) (skipn (Z.to_nat 6) series10) /\
  Pd.index (y_pred trial_at_6) = Pd.index (y_true trial_at_6) /\
  exists v,
    nth_error (Pd.values series10) (Z.to_nat (6 + 3 - 1)) = Some v /\
    Pd.values (y_pred trial_at_6) = repeat v (Z.to_nat 3).
Proof.
  apply (@rolling_forecast_result Z Z series10 3 (mkRollingWindowConfig 4 2) 1 trial_at_6);
    vm_compute; congruence.
Defined.

(** * Further properties of the metrics bundle *)

Section MetricsExtras.

Import Metrics Pipeline.

(** On a result whose two series carry the same index, [_collect_metrics]
    needs only a row: it returns a bundle exactly when the result is not
    empty, whatever the values (zero and NaN included), and raises the
    [IndexError] of [y_pred.iloc[-1]] when it is empty. *)
Theorem collect_metrics_needs_prediction (r : Result) :
  Pd.index (y_pred r) = Pd.index (y_true r) ->
  ((exists m, _collect_metrics r = Return m) <-> y_pred r <> []) /\
  (y_pred r = [] ->
   _collect_metrics r = Raise (IndexError "single positional indexer is out-of-bounds")).
Proof.
  intros _. split; [split|].
  - intros [m Hm] Hnil. unfold _collect_metrics in Hm. rewrite Hnil in Hm. discriminate.
  - intros Hne.
    assert (Hlen : 0 < len (y_pred r)).
    { pose proof (len_nonneg (y_pred r)).
      destruct (Z.eq_dec (len (y_pred r)) 0) as [E|E]; [|lia].
      apply len_nil_iff in E. contradiction. }
    destruct (collect_metrics_ok r Hlen) as [last [prev [_ [_ Hm]]]].
    eexists. exact Hm.
  - intros Hnil. unfold _collect_metrics. rewrite Hnil. reflexivity.
Qed.

Lemma repeat_nth_error (A : Type) (a x : A) (n k : nat) :
  nth_error (repeat a n) k = Some x -> x = a.
Proof.
  revert k. induction n as [|n IH]; intros [|k] H; simpl in H; try discriminate.
  - congruence.
  - eapply IH; exact H.
Qed.

(** The metrics of a naive forecast: [latest] is the last observation of the
    series, which is also the last actual of the holdout; for a horizon of at
    least 2, [previous] is the observation before it, so that [delta_pct] is
    the change between the last two observations; for a horizon of 1,
    [previous] is [latest]. *)
Theorem metrics_of_naive_forecast (s : FSeries) (horizon : Z) :
  1 <= horizon -> horizon <= len s ->
  exists r m,
    naive_forecast s horizon = Return r /\
    _collect_metrics r = Return m /\
    Pd.iloc_at s (-1) = Return (latest m) /\
    Pd.iloc_at (y_true r) (-1) = Return (latest m) /\
    (2 <= horizon -> Pd.iloc_at s (-2) = Return (previous m)) /\
    (horizon = 1 -> previous m = latest m).
Proof.
  intros H1 H2.
  destruct (naive_forecast_ok s H1 H2) as [v [Hv Hr]].
  set (holdout := skipn (Z.to_nat (len s - horizon)) s) in *.
  set (r := mkForecastResult holdout (combine (Pd.index holdout) (repeat v (Z.to_nat horizon)))) in *.
  assert (Hhold : len holdout = horizon) by (unfold holdout; rewrite len_skipn; lia).
  assert (Hidx : List.length (Pd.index holdout) = List.length (repeat v (Z.to_nat horizon))).
  { rewrite repeat_length. unfold Pd.index. rewrite length_map. unfold len in Hhold. lia. }
  assert (Hplen : len (y_pred r) = horizon).
  { cbn [y_pred r]. unfold len in *. rewrite length_combine, <- Hidx, Nat.min_id.
    unfold Pd.index. rewrite length_map. exact Hhold. }
  destruct (@collect_metrics_ok r) as [last [prev [Hlast [Hprev Hm]]]]; [lia|].
  assert (Hlastv : last = v).
  { destruct (@item_last _ (y_pred r)) as [row [Hitem Hnth]]; [lia|].
    unfold Pd.iloc_at in Hlast. rewrite Hitem in Hlast. cbn [bind Return] in Hlast.
    unfold Return in Hlast. injection Hlast as <-.
    apply (f_equal (option_map snd)) in Hnth. rewrite <- nth_error_map in Hnth.
    cbn [y_pred r] in Hnth. fold (Pd.values (combine (Pd.index holdout) (repeat v (Z.to_nat horizon)))) in Hnth.
    rewrite values_combine in Hnth by exact Hidx.
    eapply repeat_nth_error. exact Hnth. }
  subst last.
  assert (Hs1 : Pd.iloc_at s (-1) = Return v).
  { destruct (@item_last _ s) as [row [Hitem Hnth]]; [lia|].
    unfold Pd.iloc_at. rewrite Hitem. cbn [bind Return].
    unfold Pd.values in Hv. rewrite nth_error_map, Hnth in Hv. simpl in Hv.
    unfold Return. congruence. }
  exists r, (mkMetrics v prev
               (if Fl.truthy prev then (((v - prev) / prev) * 100)%float else 0%float)
               (rmse r) (mae r) (mape r)).
  cbn [latest previous]. split; [exact Hr|]. split; [exact Hm|]. split; [exact Hs1|].
  cbn [y_true r] in *. split; [|split].
  - unfold holdout. change (-1) with (- (1)). rewrite iloc_at_skipn by lia. exact Hs1.
  - intros Hh. destruct (Z.ltb_spec 1 (len holdout)); [|lia].
    rewrite <- Hprev. unfold holdout. change (-2) with (- (2)).
    symmetry. apply iloc_at_skipn; lia.
  - intros Hh. destruct (Z.ltb_spec 1 (len holdout)); [lia|].
    unfold Return in Hprev. congruence.
Qed.

End MetricsExtras.

Lemma collect_metrics_needs_prediction_witness :
  ((exists m, Pipeline._collect_metrics result_zero_actuals = Return m)
   <-> y_pred result_zero_actuals <> []) /\
  (y_pred result_zero_actuals = [] ->
   Pipeline._collect_metrics result_zero_actuals
   = Raise (IndexError "single positional indexer is out-of-bounds")).
Proof. apply (@collect_metrics_needs_prediction result_zero_actuals). reflexivity. Defined.

Lemma metrics_of_naive_forecast_witness :
  exists r m,
    naive_forecast series5f 3 = Return r /\
    Pipeline._collect_metrics r = Return m /\
    Pd.iloc_at series5f (-1) = Return (Pipeline.latest m) /\
    Pd.iloc_at (y_true r) (-1) = Return (Pipeline.latest m) /\
    (2 <= 3 -> Pd.iloc_at series5f (-2) = Return (Pipeline.previous m)) /\
    (3 = 1 -> Pipeline.previous m = Pipeline.latest m).
Proof.
  apply (@metrics_of_naive_forecast series5f 3); vm_compute; congruence.
Defined.

(** * The accuracy metrics are never negative *)

Section SignFacts.

Import FlSign.
Local Open Scope float_scope.

Lemma binary_round_aux_sign_clear (m e : Z) (l : location) :
  sign_clear (binary_round_aux prec emax false m e l) = true.
Proof.
  unfold binary_round_aux.
  destruct (shr_fexp prec emax m e l) as [mrs' e'].
  destruct (shr_fexp prec emax _ e' loc_Exact) as [mrs'' e''].
  destruct (shr_m mrs''); [reflexivity| |reflexivity].
  destruct (e'' <=? emax - prec)%Z; reflexivity.
Qed.

Lemma binary_round_sign_clear (m : positive) (e : Z) :
  sign_clear (binary_round prec emax false m e) = true.
Proof.
  unfold binary_round. destruct (shl_align m e _) as [mz ez].
  apply binary_round_aux_sign_clear.
Qed.

Lemma sign_clear_not_below_zero (x : spec_float) :
  sign_clear x = true -> not_below_zero x = true.
Proof. destruct x as [s|s| |s m e]; simpl; intros H; try exact H; reflexivity. Qed.

Lemma SFadd_not_below_zero (x y : spec_float) :
  not_below_zero x = true -> not_below_zero y = true ->
  not_below_zero (SF64add x y) = true.
Proof.
  destruct x as [sx|sx| |sx mx ex]; destruct y as [sy|sy| |sy my ey]; simpl;
    intros Hx Hy; try reflexivity; try assumption;
    try (destruct sx; [discriminate|]); try (destruct sy; [discriminate|]);
    try reflexivity.
  - destruct sx, sy; reflexivity.
  - unfold SF64add, SFadd. cbn [cond_Zopp Z.add].
    apply sign_clear_not_below_zero, binary_round_sign_clear.
Qed.

Lemma SFmul_not_below_zero (x y : spec_float) :
  not_below_zero x = true -> sign_clear y = true ->
  not_below_zero (SF64mul x y) = true.
Proof.
  destruct x as [sx|sx| |sx mx ex]; destruct y as [sy|sy| |sy my ey]; simpl;
    intros Hx Hy; try reflexivity;
    try (destruct sx; [discriminate|]); try (destruct sy; [discriminate|]);
    try reflexivity.
  unfold SF64mul, SFmul. cbn [xorb].
  apply sign_clear_not_below_zero, binary_round_aux_sign_clear.
Qed.

Lemma SFsquare_not_below_zero (x : spec_float) : not_below_zero (SF64mul x x) = true.
Proof.
  destruct x as [s|s| |s m e]; simpl; try reflexivity; try (destruct s; reflexivity).
  unfold SF64mul, SFmul. replace (xorb s s) with false by (destruct s; reflexivity).
  apply sign_clear_not_below_zero, binary_round_aux_sign_clear.
Qed.

Lemma SFdiv_not_below_zero (x y : spec_float) :
  not_below_zero x = true -> sign_clear y = true ->
  not_below_zero (SF64div x y) = true.
Proof.
  destruct x as [sx|sx| |sx mx ex]; destruct y as [sy|sy| |sy my ey]; simpl;
    intros Hx Hy; try reflexivity;
    try (destruct sx; [discriminate|]); try (destruct sy; [discriminate|]);
    try reflexivity.
  unfold SF64div, SFdiv. cbn [xorb].
  destruct (SFdiv_core_binary prec emax (Z.pos mx) ex (Z.pos my) ey) as [[mz ez] lz].
  apply sign_clear_not_below_zero, binary_round_aux_sign_clear.
Qed.

Lemma SFsqrt_not_below_zero (x : spec_float) : not_below_zero (SF64sqrt x) = true.
Proof.
  destruct x as [s|s| |s m e]; simpl; try reflexivity; try (destruct s; reflexivity).
  destruct s; [reflexivity|]. unfold SF64sqrt, SFsqrt.
  destruct (SFsqrt_core_binary prec emax (Z.pos m) e) as [[mz ez] lz].
  apply sign_clear_not_below_zero, binary_round_aux_sign_clear.
Qed.

(** A count converted to a float has a clear sign bit. *)
Lemma of_nat_sign_clear (n : nat) : sign_clear (Prim2SF (Fl.of_nat n)) = true.
Proof.
  unfold Fl.of_nat. rewrite of_uint63_spec.
  pose proof (Uint63.to_Z_bounded (Uint63.of_Z (Z.of_nat n))) as [Hlo _].
  unfold binary_normalize.
  destruct (Uint63.to_Z (Uint63.of_Z (Z.of_nat n))) as [|p|p]; [reflexivity| |lia].
  apply binary_round_sign_clear.
Qed.

(** On the float side: NaN, or not less than zero. *)
Lemma not_below_zero_float (x : float) :
  not_below_zero (Prim2SF x) = true ->
  PrimFloat.is_nan x = true \/ (0 <=? x) = true.
Proof.
  intros H. unfold PrimFloat.is_nan. rewrite leb_spec, eqb_spec.
  change (Prim2SF 0) with (S754_zero false).
  destruct (Prim2SF x) as [s|s| |s m e]; simpl in H |- *.
  - right. reflexivity.
  - destruct s; [discriminate|]. right. reflexivity.
  - left. reflexivity.
  - destruct s; [discriminate|]. right. reflexivity.
Qed.

Lemma sum_not_below_zero (xs : list float) (acc : float) :
  not_below_zero (Prim2SF acc) = true ->
  Forall (fun x => not_below_zero (Prim2SF x) = true) xs ->
  not_below_zero (Prim2SF (fold_left PrimFloat.add xs acc)) = true.
Proof.
  revert acc. induction xs as [|x xs IH]; intros acc Hacc Hall; simpl; [exact Hacc|].
  inversion Hall as [|x' xs' Hx Hxs]; subst.
  apply IH; [|exact Hxs]. rewrite add_spec. apply SFadd_not_below_zero; assumption.
Qed.

Lemma mean_not_below_zero (xs : list float) :
  Forall (fun x => not_below_zero (Prim2SF x) = true) xs ->
  not_below_zero (Prim2SF (Fl.mean xs)) = true.
Proof.
  intros Hall. unfold Fl.mean.
  set (kept := filter (fun x => negb (PrimFloat.is_nan x)) xs).
  assert (Hkept : Forall (fun x => not_below_zero (Prim2SF x) = true) kept).
  { apply Forall_forall. intros x Hx. apply filter_In in Hx.
    rewrite Forall_forall in Hall. apply Hall, Hx. }
  destruct kept as [|k kept'] eqn:E; [vm_compute; reflexivity|].
  rewrite <- E in *. rewrite FloatAxioms.div_spec.
  apply SFdiv_not_below_zero; [|apply of_nat_sign_clear].
  unfold Fl.sum. apply sum_not_below_zero; [vm_compute; reflexivity|exact Hkept].
Qed.

End SignFacts.

Section MetricSigns.

Import Metrics FlSign.
Local Open Scope float_scope.

Lemma values_map_values_abs (a : FSeries) :
  Forall (fun x => not_below_zero (Prim2SF x) = true)
         (Pd.values (map_values PrimFloat.abs a)).
Proof.
  apply Forall_forall. intros x Hx. unfold Pd.values, map_values in Hx.
  rewrite map_map in Hx. apply in_map_iff in Hx. destruct Hx as [row [<- _]].
  cbn [snd]. rewrite abs_spec. destruct (Prim2SF (snd row)); reflexivity.
Qed.

(** On an index-aligned result, [rmse], [mae] and [mape] never return a
    negative number: each is NaN or compares greater than or equal to zero. *)
Theorem metrics_never_negative (r : Result) :
  Pd.index (y_pred r) = Pd.index (y_true r) ->
  (PrimFloat.is_nan (rmse r) = true \/ (0 <=? rmse r) = true) /\
  (PrimFloat.is_nan (mae r) = true \/ (0 <=? mae r) = true) /\
  (PrimFloat.is_nan (mape r) = true \/ (0 <=? mape r) = true).
Proof.
  intros _. split; [|split]; apply not_below_zero_float.
  - unfold rmse. rewrite sqrt_spec. apply SFsqrt_not_below_zero.
  - unfold mae. apply mean_not_below_zero, values_map_values_abs.
  - unfold mape. rewrite FloatAxioms.mul_spec.
    apply SFmul_not_below_zero; [|vm_compute; reflexivity].
    apply mean_not_below_zero, values_map_values_abs.
Qed.

Lemma select_app (m1 m2 : list bool) (s1 s2 : FSeries) :
  List.length m1 = List.length s1 ->
  select (m1 ++ m2) (s1 ++ s2) = select m1 s1 ++ select m2 s2.
Proof.
  revert s1. induction m1 as [|m m1 IH]; intros [|row s1] H; simpl in *;
    try discriminate; [reflexivity|].
  rewrite IH by lia. destruct m; reflexivity.
Qed.

(** Rows whose actual is zero do not count in [mape]: inserting such a row
    at the same position of both series leaves [mape] unchanged. *)
Theorem mape_skips_zero_actuals (a1 a2 p1 p2 : FSeries) (label : Z) (zero predicted : float) :
  (zero =? 0) = true ->
  List.length a1 = List.length p1 ->
  mape (mkForecastResult (a1 ++ (label, zero) :: a2) (p1 ++ (label, predicted) :: p2))
  = mape (mkForecastResult (a1 ++ a2) (p1 ++ p2)).
Proof.
  intros Hzero Hlen. unfold mape. cbn [y_true y_pred].
  unfold Pd.values. rewrite !map_app. cbn [map snd]. rewrite Hzero. cbn [negb].
  set (mask := fun x : float => negb (x =? 0)).
  assert (Hm1 : List.length (map mask (map snd a1)) = List.length a1)
    by (rewrite !length_map; reflexivity).
  assert (Hm1' : List.length (map mask (map snd a1)) = List.length p1)
    by (rewrite !length_map; exact Hlen).
  rewrite !(@select_app _ _ _ _ Hm1), !(@select_app _ _ _ _ Hm1').
  reflexivity.
Qed.

End MetricSigns.

Lemma metrics_never_negative_witness :
  (PrimFloat.is_nan (Metrics.rmse result_zero_actuals) = true
   \/ (0 <=? Metrics.rmse result_zero_actuals)%float = true) /\
  (PrimFloat.is_nan (Metrics.mae result_zero_actuals) = true
   \/ (0 <=? Metrics.mae result_zero_actuals)%float = true) /\
  (PrimFloat.is_nan (Metrics.mape result_zero_actuals) = true
   \/ (0 <=? Metrics.mape result_zero_actuals)%float = true).
Proof. apply (@metrics_never_negative result_zero_actuals). reflexivity. Defined.

Lemma mape_skips_zero_actuals_witness :
  Metrics.mape (mkForecastResult ([(0, 10%float)] ++ (1, (-0)%float) :: [(2, 30%float)])
                                 ([(0, 30%float)] ++ (1, 30%float) :: [(2, 30%float)]))
  = Metrics.mape (mkForecastResult ([(0, 10%float)] ++ [(2, 30%float)])
                                   ([(0, 30%float)] ++ [(2, 30%float)])).
Proof.
  apply (@mape_skips_zero_actuals [(0, 10%float)] [(2, 30%float)]
           [(0, 30%float)] [(2, 30%float)] 1 (-0)%float 30%float); reflexivity.
Defined.

(** * Further properties of the data source resolver *)

Section CleaningFacts.

Import Metrics Pipeline.

Lemma In_insert_by_DateTime (r x : Row) (rows : list Row) :
  In x (insert_by_DateTime r rows) <-> x = r \/ In x rows.
Proof.
  induction rows as [|r' rows IH]; simpl.
  - split; intros [H|H]; auto.
  - destruct (DateTime r <=? DateTime r'); simpl; [|rewrite IH]; intuition auto.
Qed.

Lemma insert_by_DateTime_sorted (r : Row) (rows : list Row) :
  StronglySorted by_DateTime rows -> StronglySorted by_DateTime (insert_by_DateTime r rows).
Proof.
  induction 1 as [|r' rows Hsorted IH Hall]; simpl.
  - constructor; constructor.
  - destruct (Z.leb_spec (DateTime r) (DateTime r')) as [Hle|Hgt].
    + constructor; [constructor; assumption|].
      constructor; [unfold by_DateTime; lia|].
      eapply Forall_impl; [|exact Hall]. unfold by_DateTime. intros a Ha. lia.
    + constructor; [exact IH|].
      apply Forall_forall. intros x Hx. apply In_insert_by_DateTime in Hx.
      destruct Hx as [->|Hx]; [unfold by_DateTime; lia|].
      rewrite Forall_forall in Hall. apply Hall, Hx.
Qed.

Lemma sort_values_DateTime_sorted (rows : list Row) :
  StronglySorted by_DateTime (sort_values_DateTime rows).
Proof.
  induction rows as [|r rows IH]; simpl; [constructor|].
  apply insert_by_DateTime_sorted, IH.
Qed.

Lemma In_sort_values_DateTime (x : Row) (rows : list Row) :
  In x (sort_values_DateTime rows) <-> In x rows.
Proof.
  induction rows as [|r rows IH]; simpl; [reflexivity|].
  rewrite In_insert_by_DateTime, IH. intuition auto.
Qed.

Lemma map_fst_reset_index (rows : list Row) :
  map fst (reset_index rows) = map Z.of_nat (seq 0 (List.length rows)).
Proof.
  unfold reset_index. apply (@index_combine Z Row).
  rewrite length_map, length_seq. reflexivity.
Qed.

Lemma clean_api_frame_facts (raw : list RawPrice) (frame : Frame) :
  clean_api_frame raw = Some frame ->
  map fst frame = map Z.of_nat (seq 0 (List.length frame)) /\
  StronglySorted by_DateTime (map snd frame) /\
  (forall row, In row (map snd frame) ->
     PrimFloat.is_nan (SpotPrice row) = false /\
     lags row = [] /\ Source row = None /\
     In (mkRawPrice (Some (Some (DateTime row))) (Some (SpotPrice row))) raw) /\
  (forall t p, In (mkRawPrice (Some (Some t)) (Some p)) raw ->
     PrimFloat.is_nan p = false -> In (mkRow t p [] None) (map snd frame)).
Proof.
  unfold clean_api_frame. intros H.
  destruct (existsb _ raw && existsb _ raw); [|discriminate].
  injection H as <-.
  set (rows := flat_map _ raw).
  rewrite map_snd_reset_index, map_fst_reset_index, length_reset_index.
  split; [reflexivity|]. split; [apply sort_values_DateTime_sorted|].
  split.
  - intros row Hin. apply (proj1 (In_sort_values_DateTime _ _)) in Hin.
    unfold rows in Hin. apply (proj1 (in_flat_map _ _ _)) in Hin. destruct Hin as [r [Hr Hrow]].
    destruct r as [[[t|]|] [p|]]; cbn [raw_DateTime raw_SpotPrice] in Hrow;
      try contradiction.
    destruct (PrimFloat.is_nan p) eqn:Hnan; [contradiction|].
    destruct Hrow as [<-|[]]. cbn [SpotPrice lags Source DateTime].
    repeat split; auto.
  - intros t p Hin Hnan. apply (proj2 (In_sort_values_DateTime _ _)).
    unfold rows. apply (proj2 (in_flat_map _ _ _)). eexists. split; [exact Hin|].
    cbn [raw_DateTime raw_SpotPrice]. rewrite Hnan. left. reflexivity.
Qed.


(** What the cleaning of a live response keeps (lines 108-115 of
    [_load_price_frame]): the frame is indexed 0, 1, ...; its rows are ordered
    by timestamp; every row comes from a record of the response with a parsed
    timestamp and a price that is not NaN; and every such record is in it. *)
Theorem clean_api_frame_spec (raw : list RawPrice) (frame : Frame) :
  clean_api_frame raw = Some frame ->
  map fst frame = map Z.of_nat (seq 0 (List.length frame)) /\
  StronglySorted by_DateTime (map snd frame) /\
  (forall row, In row (map snd frame) ->
     PrimFloat.is_nan (SpotPrice row) = false /\
     lags row = [] /\ Source row = None /\
     In (mkRawPrice (Some (Some (DateTime row))) (Some (SpotPrice row))) raw) /\
  (forall t p, In (mkRawPrice (Some (Some t)) (Some p)) raw ->
     PrimFloat.is_nan p = false -> In (mkRow t p [] None) (map snd frame)).
Proof. apply clean_api_frame_facts. Qed.

End CleaningFacts.

Lemma clean_api_frame_spec_witness :
  map fst raw_feed_cleaned = map Z.of_nat (seq 0 (List.length raw_feed_cleaned)) /\
  StronglySorted by_DateTime (map snd raw_feed_cleaned) /\
  (forall row, In row (map snd raw_feed_cleaned) ->
     PrimFloat.is_nan (Pipeline.SpotPrice row) = false /\
     Pipeline.lags row = [] /\ Pipeline.Source row = None /\
     In (Pipeline.mkRawPrice (Some (Some (Pipeline.DateTime row)))
                             (Some (Pipeline.SpotPrice row))) raw_feed) /\
  (forall t p, In (Pipeline.mkRawPrice (Some (Some t)) (Some p)) raw_feed ->
     PrimFloat.is_nan p = false ->
     In (Pipeline.mkRow t p [] None) (map snd raw_feed_cleaned)).
Proof. apply (@clean_api_frame_spec raw_feed raw_feed_cleaned). reflexivity. Defined.

Section ResolverExtras.

Import Metrics Pipeline.

Variable nm : Numerics.

Lemma StronglySorted_map_seq (f : nat -> Z) (a n : nat) :
  (forall i j : nat, (i <= j)%nat -> f i <= f j) ->
  StronglySorted Z.le (map f (seq a n)).
Proof.
  intros Hmono. revert a. induction n as [|n IH]; intros a; simpl; constructor.
  - apply IH.
  - apply Forall_forall. intros x Hx. apply in_map_iff in Hx.
    destruct Hx as [j [<- Hj]]. apply in_seq in Hj. apply Hmono. lia.
Qed.

Lemma StronglySorted_by_DateTime (rows : list Row) :
  StronglySorted Z.le (map DateTime rows) -> StronglySorted by_DateTime rows.
Proof.
  induction rows as [|r rows IH]; simpl; intros H; [constructor|].
  inversion H as [|x xs Hs Hall]; subst. constructor; [apply IH, Hs|].
  rewrite Forall_map in Hall. exact Hall.
Qed.

(** The synthetic frame is longer than the horizon, indexed 0, 1, ..., and
    ordered by timestamp. *)
Lemma synthetic_frame_wf (d h : Z) :
  h < len (_generate_synthetic_frame nm d h) /\
  map fst (_generate_synthetic_frame nm d h)
    = map Z.of_nat (seq 0 (List.length (_generate_synthetic_frame nm d h))) /\
  StronglySorted by_DateTime (map snd (_generate_synthetic_frame nm d h)).
Proof.
  destruct (synthetic_frame_columns nm d h) as [Hlen [Hts _]]. cbv zeta in Hlen, Hts.
  split; [lia|]. split.
  - unfold _generate_synthetic_frame. rewrite map_fst_reset_index, length_reset_index.
    reflexivity.
  - apply StronglySorted_by_DateTime. rewrite map_map, Hts.
    apply StronglySorted_map_seq. intros i j Hij. unfold timedelta_hours, microseconds_per_hour.
    lia.
Qed.

Variable w : World.

Lemma load_price_frame_post (h : Z) (tr : list Event) :
  (exists e,
     truthy (nordpool_api_key (settings w)) = true /\
     fetch_spot_prices w = Return (Uncleanable e) /\
     _load_price_frame nm w h tr = (Raise e, tr ++ [FetchSpotPrices (today w)])) \/
  (exists frame tag tr',
     _load_price_frame nm w h tr = (Return (frame, tag), tr') /\
     (tag = "api" \/ tag = "synthetic") /\
     h < len frame /\
     map fst frame = map Z.of_nat (seq 0 (List.length frame)) /\
     StronglySorted by_DateTime (map snd frame) /\
     (tr' = tr \/
      (truthy (nordpool_api_key (settings w)) = true /\
       tr' = tr ++ [FetchSpotPrices (today w)]))).
Proof.
  pose proof (synthetic_frame_wf (today w) h) as [Hs1 [Hs2 Hs3]].
  unfold _load_price_frame.
  destruct (truthy (nordpool_api_key (settings w))) eqn:Hkey; cbn [negb].
  2: { right. do 3 eexists. split; [reflexivity|]. repeat split; auto. }
  unfold bindR, try_except, call, ret, lift.
  destruct (fetch_spot_prices w) as [e|[raw|e]] eqn:Hfetch.
  { right. do 3 eexists. split; [reflexivity|]. repeat split; auto. }
  2: { left. exists e. repeat split; reflexivity. }
  right. unfold Return. cbv beta iota zeta. cbn [clean_payload]. unfold Return.
  destruct (clean_api_frame raw) as [frame|] eqn:Hclean.
  2: { do 3 eexists. split; [reflexivity|]. repeat split; auto. }
  destruct (Z.ltb_spec h (len frame)).
  - destruct (clean_api_frame_facts _ Hclean) as [Hl [Hsorted _]].
    do 3 eexists. split; [reflexivity|]. repeat split; auto.
  - do 3 eexists. split; [reflexivity|]. repeat split; auto.
Qed.

(** What the resolver guarantees in every world. It raises only what the
    cleaning of a live response raises (lines 108-115, outside the [try]),
    after the one call of the feed; a failure of the feed call itself never
    escapes. Otherwise the frame it returns is tagged "api" or "synthetic", has
    more rows than the horizon, is indexed 0, 1, ... and ordered by timestamp;
    and the live feed is called at most once, and only when a credential is
    configured. *)
Theorem resolver_postcondition (h : Z) (tr : list Event) :
  (exists e,
     truthy (nordpool_api_key (settings w)) = true /\
     fetch_spot_prices w = Return (Uncleanable e) /\
     _load_price_frame nm w h tr = (Raise e, tr ++ [FetchSpotPrices (today w)])) \/
  (exists frame tag tr',
     _load_price_frame nm w h tr = (Return (frame, tag), tr') /\
     (tag = "api" \/ tag = "synthetic") /\
     h < len frame /\
     map fst frame = map Z.of_nat (seq 0 (List.length frame)) /\
     StronglySorted by_DateTime (map snd frame) /\
     (tr' = tr \/
      (truthy (nordpool_api_key (settings w)) = true /\
       tr' = tr ++ [FetchSpotPrices (today w)]))).
Proof. apply load_price_frame_post. Qed.

End ResolverExtras.

(** * Feature shaping: lag columns and the rows [dropna] removes *)

Section ListFacts.

Context {A : Type}.

Lemma filter_drop_prefix (p : A -> bool) (xs : list A) (k : nat) :
  (forall i x, nth_error xs i = Some x -> (i < k)%nat -> p x = false) ->
  filter p xs = filter p (skipn k xs).
Proof.
  revert xs. induction k as [|k IH]; intros xs H; [reflexivity|].
  destruct xs as [|x xs]; [reflexivity|]. simpl.
  rewrite (H 0%nat x eq_refl) by lia.
  apply IH. intros i y Hy Hi. apply (H (S i) y Hy). lia.
Qed.

Lemma filter_keep_all (p : A -> bool) (xs : list A) :
  (forall x, In x xs -> p x = true) -> filter p xs = xs.
Proof.
  induction xs as [|x xs IH]; intros H; simpl; [reflexivity|].
  rewrite (H x (or_introl eq_refl)). f_equal. apply IH. intros y Hy. apply H. right. exact Hy.
Qed.

Lemma In_skipn_nth_error (xs : list A) (k : nat) (x : A) :
  In x (skipn k xs) -> exists i, (k <= i)%nat /\ nth_error xs i = Some x.
Proof.
  intros H. apply In_nth_error in H. destruct H as [j Hj].
  rewrite nth_error_skipn in Hj. exists (k + j)%nat. split; [lia|exact Hj].
Qed.

Lemma nth_error_map2 (B C : Type) (f : A -> B -> C) (xs : list A) (ys : list B) (i : nat) :
  List.length xs = List.length ys ->
  nth_error (Pipeline.map2 f xs ys) i =
    match nth_error xs i, nth_error ys i with
    | Some x, Some y => Some (f x y)
    | _, _ => None
    end.
Proof.
  revert ys i. induction xs as [|x xs IH]; intros [|y ys] i H; simpl in H; try discriminate.
  - destruct i; reflexivity.
  - destruct i as [|i]; [reflexivity|]. simpl. unfold Pipeline.map2 in *. simpl.
    apply IH. lia.
Qed.

End ListFacts.

Section ShapingFacts.

Import Metrics Pipeline.

Lemma length_shift (lag : Z) (col : list float) :
  List.length (shift lag col) = List.length col.
Proof.
  unfold shift. destruct (0 <=? lag).
  - rewrite length_firstn, length_app, repeat_length. lia.
  - rewrite length_app, length_skipn, repeat_length. lia.
Qed.

Lemma nth_error_shift (lag : Z) (col : list float) (i : nat) :
  (i < List.length col)%nat ->
  nth_error (shift lag col) i =
    Some (if Z.of_nat i - lag <? 0 then Fl.nan
          else nth (Z.to_nat (Z.of_nat i - lag)) col Fl.nan).
Proof.
  intros Hi. unfold shift. destruct (Z.leb_spec 0 lag) as [Hpos|Hneg].
  - rewrite nth_error_firstn. destruct (Nat.ltb_spec i (List.length col)); [|lia].
    destruct (Z.ltb_spec (Z.of_nat i - lag) 0) as [Hlt|Hge].
    + rewrite nth_error_app1 by (rewrite repeat_length; lia).
      apply nth_error_repeat. lia.
    + rewrite nth_error_app2 by (rewrite repeat_length; lia).
      rewrite repeat_length.
      replace (i - Z.to_nat lag)%nat with (Z.to_nat (Z.of_nat i - lag)) by lia.
      apply nth_error_nth'. lia.
  - destruct (Z.ltb_spec (Z.of_nat i - lag) 0); [lia|].
    replace (Z.to_nat (Z.of_nat i - lag)) with (Z.to_nat (- lag) + i)%nat by lia.
    destruct (Nat.ltb_spec (Z.to_nat (- lag) + i) (List.length col)).
    + rewrite nth_error_app1 by (rewrite length_skipn; lia).
      rewrite nth_error_skipn. apply nth_error_nth'. lia.
    + rewrite nth_error_app2 by (rewrite length_skipn; lia).
      rewrite nth_overflow by lia. apply nth_error_repeat. rewrite length_skipn. lia.
Qed.

Lemma add_lag_features_passes (frame : Frame) (lag_list : list Z) :
  add_lag_features frame lag_list = fold_left lag_pass lag_list frame.
Proof. reflexivity. Qed.

Lemma nth_error_lag_pass (fr : Frame) (lag : Z) (i : nat) :
  nth_error (lag_pass fr lag) i =
    match nth_error fr i with
    | Some lr =>
        Some (fst lr,
              mkRow (DateTime (snd lr)) (SpotPrice (snd lr))
                    (set_lag lag (price_at_lag fr i lag) (lags (snd lr)))
                    (Source (snd lr)))
    | None => None
    end.
Proof.
  unfold lag_pass. rewrite nth_error_map2 by (rewrite length_shift, length_map; reflexivity).
  destruct (nth_error fr i) as [lr|] eqn:Hi; [|reflexivity].
  assert (Hlt : (i < List.length fr)%nat) by (apply nth_error_Some; congruence).
  rewrite nth_error_shift by (rewrite length_map; exact Hlt).
  unfold price_at_lag. destruct (Z.of_nat i - lag <? 0); [reflexivity|].
  destruct (nth_error fr (Z.to_nat (Z.of_nat i - lag))) as [lr'|] eqn:E.
  - erewrite nth_error_nth; [reflexivity|]. rewrite nth_error_map, E. reflexivity.
  - rewrite nth_overflow; [reflexivity|].
    rewrite length_map. apply nth_error_None. exact E.
Qed.

Lemma price_at_lag_lag_pass (fr : Frame) (lag : Z) (i : nat) (k : Z) :
  price_at_lag (lag_pass fr lag) i k = price_at_lag fr i k.
Proof.
  unfold price_at_lag. rewrite nth_error_lag_pass.
  destruct (Z.of_nat i - k <? 0); [reflexivity|].
  destruct (nth_error fr (Z.to_nat (Z.of_nat i - k))); reflexivity.
Qed.

Lemma fold_left_set_lag_ext (f g : Z -> float) (lag_list : list Z)
    (columns : list (Z * float)) :
  (forall k, f k = g k) ->
  fold_left (fun cols lag => set_lag lag (f lag) cols) lag_list columns =
  fold_left (fun cols lag => set_lag lag (g lag) cols) lag_list columns.
Proof.
  intros H. revert columns. induction lag_list as [|lag rest IH]; intros columns; simpl.
  - reflexivity.
  - rewrite H. apply IH.
Qed.

(** Row [i] after all the passes: its lag columns are assigned one by one. *)
Lemma nth_error_add_lag_features (frame : Frame) (lag_list : list Z) (i : nat) :
  nth_error (add_lag_features frame lag_list) i =
    match nth_error frame i with
    | Some lr =>
        Some (fst lr,
              mkRow (DateTime (snd lr)) (SpotPrice (snd lr))
                    (fold_left (fun cols lag => set_lag lag (price_at_lag frame i lag) cols)
                               lag_list (lags (snd lr)))
                    (Source (snd lr)))
    | None => None
    end.
Proof.
  rewrite add_lag_features_passes. revert frame.
  induction lag_list as [|lag rest IH]; intros frame; simpl.
  - destruct (nth_error frame i) as [[l row]|]; [|reflexivity].
    destruct row; reflexivity.
  - rewrite IH, nth_error_lag_pass.
    destruct (nth_error frame i) as [lr|]; [|reflexivity].
    cbn [fst snd DateTime SpotPrice lags Source].
    rewrite (@fold_left_set_lag_ext (price_at_lag (lag_pass frame lag) i)
               (price_at_lag frame i))
      by (intros k; apply price_at_lag_lag_pass).
    reflexivity.
Qed.

Lemma length_add_lag_features (frame : Frame) (lag_list : list Z) :
  List.length (add_lag_features frame lag_list) = List.length frame.
Proof.
  destruct (Nat.lt_trichotomy (List.length (add_lag_features frame lag_list))
                              (List.length frame)) as [H|[H|H]]; [|exact H|].
  - assert (Hn : nth_error (add_lag_features frame lag_list)
                           (List.length (add_lag_features frame lag_list)) = None)
      by (apply nth_error_None; lia).
    rewrite nth_error_add_lag_features in Hn.
    destruct (nth_error frame _) eqn:E; [discriminate|].
    apply nth_error_None in E. lia.
  - assert (Hn : nth_error frame (List.length frame) = None) by (apply nth_error_None; lia).
    assert (Hs : nth_error (add_lag_features frame lag_list) (List.length frame) <> None)
      by (apply nth_error_Some; exact H).
    rewrite nth_error_add_lag_features, Hn in Hs. contradiction.
Qed.

Lemma get_lag_set_lag (k lag : Z) (v : float) (columns : list (Z * float)) :
  get_lag k (set_lag lag v columns) = if k =? lag then Some v else get_lag k columns.
Proof.
  induction columns as [|[k' x] rest IH]; simpl.
  - rewrite (Z.eqb_sym lag k). reflexivity.
  - destruct (Z.eqb_spec k' lag) as [->|Hne]; simpl.
    + destruct (Z.eqb_spec lag k) as [->|Hne'].
      * rewrite Z.eqb_refl. reflexivity.
      * destruct (Z.eqb_spec k lag); [congruence|reflexivity].
    + destruct (Z.eqb_spec k' k) as [->|Hne'].
      * destruct (Z.eqb_spec k lag); [congruence|reflexivity].
      * exact IH.
Qed.

Lemma set_lag_new (lag : Z) (v : float) (columns : list (Z * float)) :
  get_lag lag columns = None -> set_lag lag v columns = columns ++ [(lag, v)].
Proof.
  induction columns as [|[k x] rest IH]; simpl; intros H; [reflexivity|].
  destruct (k =? lag); [discriminate|]. rewrite IH by exact H. reflexivity.
Qed.

Lemma get_lag_app_new (k lag : Z) (v : float) (columns : list (Z * float)) :
  k <> lag -> get_lag k (columns ++ [(lag, v)]) = get_lag k columns.
Proof.
  intros Hne. induction columns as [|[k' x] rest IH]; simpl.
  - destruct (Z.eqb_spec lag k); [congruence|reflexivity].
  - destruct (k' =? k); [reflexivity|exact IH].
Qed.

Lemma get_lag_In (k : Z) (v : float) (columns : list (Z * float)) :
  get_lag k columns = Some v -> In (k, v) columns.
Proof.
  induction columns as [|[k' x] rest IH]; simpl; intros H; [discriminate|].
  destruct (Z.eqb_spec k' k) as [->|Hne].
  - injection H as ->. left. reflexivity.
  - right. apply IH, H.
Qed.

(** The lag columns after all the assignments, value by value. *)
Lemma get_lag_fold_set_lag (f : Z -> float) (lag_list : list Z)
    (columns : list (Z * float)) (k : Z) :
  (In k lag_list ->
   get_lag k (fold_left (fun cols lag => set_lag lag (f lag) cols) lag_list columns)
   = Some (f k)) /\
  (~ In k lag_list ->
   get_lag k (fold_left (fun cols lag => set_lag lag (f lag) cols) lag_list columns)
   = get_lag k columns).
Proof.
  revert columns. induction lag_list as [|lag rest IH]; intros columns; simpl.
  - split; [contradiction|reflexivity].
  - destruct (IH (set_lag lag (f lag) columns)) as [IHin IHout].
    destruct (in_dec Z.eq_dec k rest) as [Hin|Hout].
    + split; [intros _; exact (IHin Hin)|]. intros Hno. exfalso. apply Hno. right. exact Hin.
    + rewrite (IHout Hout), get_lag_set_lag.
      destruct (Z.eqb_spec k lag) as [->|Hne].
      * split; [reflexivity|]. intros Hno. exfalso. apply Hno. left. reflexivity.
      * split; [intros [Heq|Hin]; [congruence|contradiction]|reflexivity].
Qed.

(** New columns come last, in the order of the lags. *)
Lemma fold_set_lag_fresh (f : Z -> float) (lag_list : list Z) (columns : list (Z * float)) :
  NoDup lag_list ->
  (forall k, In k lag_list -> get_lag k columns = None) ->
  fold_left (fun cols lag => set_lag lag (f lag) cols) lag_list columns
  = columns ++ map (fun lag => (lag, f lag)) lag_list.
Proof.
  revert columns. induction lag_list as [|lag rest IH]; intros columns Hnd Hnew; simpl.
  - rewrite app_nil_r. reflexivity.
  - inversion Hnd as [|x xs Hnotin Hnd']; subst.
    rewrite set_lag_new by (apply Hnew; left; reflexivity).
    rewrite IH; [rewrite <- app_assoc; reflexivity|exact Hnd'|].
    intros k Hk. rewrite get_lag_app_new by (intros ->; contradiction).
    apply Hnew. right. exact Hk.
Qed.

(** [add_lag_features] keeps the rows with their labels, timestamps, prices
    and provenance. After it row [i] holds, in the column of every lag of the
    list, the price [lag] rows earlier (NaN where there is no such row),
    also when a lag is repeated or its column existed; the other lag columns
    keep their values; and on a frame without lag columns, for lags without
    repetition, the new columns are those of the list, in its order. *)
Theorem add_lag_features_rows (frame : Frame) (lag_list : list Z) :
  List.length (add_lag_features frame lag_list) = List.length frame /\
  forall i label row,
    nth_error frame i = Some (label, row) ->
    exists columns,
      nth_error (add_lag_features frame lag_list) i =
        Some (label, mkRow (DateTime row) (SpotPrice row) columns (Source row)) /\
      (forall lag, In lag lag_list ->
                   get_lag lag columns = Some (price_at_lag frame i lag)) /\
      (forall lag, ~ In lag lag_list -> get_lag lag columns = get_lag lag (lags row)) /\
      (lags row = [] -> NoDup lag_list ->
       columns = map (fun lag => (lag, price_at_lag frame i lag)) lag_list).
Proof.
  split; [apply length_add_lag_features|].
  intros i label row Hi. rewrite nth_error_add_lag_features, Hi.
  cbn [fst snd]. eexists. split; [reflexivity|].
  split; [|split].
  - intros lag Hin. apply get_lag_fold_set_lag, Hin.
  - intros lag Hout. apply get_lag_fold_set_lag, Hout.
  - intros Hfresh Hnd. rewrite Hfresh. rewrite fold_set_lag_fresh.
    + reflexivity.
    + exact Hnd.
    + reflexivity.
Qed.

(** The rows of the first 24 positions have no 24-hour lag and are dropped. *)
Lemma shaped_skips_first_day (frame : Frame) :
  shaped frame =
    dropna (skipn 24 (add_lag_features (add_calendar_features frame) [1; 24])).
Proof.
  unfold shaped, dropna, add_calendar_features. apply filter_drop_prefix.
  intros i x Hx Hi. rewrite nth_error_add_lag_features in Hx.
  destruct (nth_error frame i) as [lr|]; [|discriminate]. injection Hx as <-.
  cbn [snd SpotPrice lags].
  match goal with |- _ && forallb ?p ?cols = false =>
    assert (Hin : In (24, Fl.nan) cols); [|set (columns := cols) in *]
  end.
  { apply get_lag_In. rewrite get_lag_set_lag, Z.eqb_refl.
    unfold price_at_lag. destruct (Z.ltb_spec (Z.of_nat i - 24) 0); [reflexivity|lia]. }
  destruct (forallb _ columns) eqn:Hall; [|apply andb_false_r].
  rewrite forallb_forall in Hall. specialize (Hall _ Hin). discriminate.
Qed.

Lemma shaped_at_most (frame : Frame) : len (shaped frame) <= Z.max 0 (len frame - 24).
Proof.
  rewrite shaped_skips_first_day. unfold dropna, len.
  pose proof (filter_length_le
                (fun lr => negb (PrimFloat.is_nan (SpotPrice (snd lr)))
                           && forallb (fun kv => negb (PrimFloat.is_nan (snd kv)))
                                      (lags (snd lr)))
                (skipn 24 (add_lag_features (add_calendar_features frame) [1; 24])))
    as Hle.
  rewrite length_skipn, length_add_lag_features in Hle.
  unfold add_calendar_features in *. lia.
Qed.

(** Shaping costs at least the first day: whatever the frame, at most
    [len frame - 24] rows are left for the forecast. *)
Theorem shaped_loses_first_day (frame : Frame) :
  len (shaped frame) <= Z.max 0 (len frame - 24).
Proof. apply shaped_at_most. Qed.

Lemma fresh_and_complete_nth (frame : Frame) (i : nat) (lr : Z * Row) :
  fresh_and_complete frame = true -> nth_error frame i = Some lr ->
  PrimFloat.is_nan (SpotPrice (snd lr)) = false /\ lags (snd lr) = [].
Proof.
  intros H Hi. unfold fresh_and_complete in H. rewrite forallb_forall in H.
  apply nth_error_In in Hi. apply H in Hi. apply andb_true_iff in Hi.
  destruct Hi as [Hp Hl]. split.
  - destruct (PrimFloat.is_nan (SpotPrice (snd lr))); [discriminate|reflexivity].
  - destruct (lags (snd lr)); [reflexivity|discriminate].
Qed.

Lemma SpotPrice_column_add_lag_features (frame : Frame) (lag_list : list Z) :
  SpotPrice_column (add_lag_features frame lag_list) = SpotPrice_column frame.
Proof.
  apply nth_error_ext. intros i. unfold SpotPrice_column.
  rewrite !nth_error_map, nth_error_add_lag_features.
  destruct (nth_error frame i); reflexivity.
Qed.

Lemma shaped_complete_column (frame : Frame) :
  fresh_and_complete frame = true ->
  SpotPrice_column (shaped frame) = skipn 24 (SpotPrice_column frame).
Proof.
  intros Hfc. rewrite shaped_skips_first_day. unfold dropna, add_calendar_features.
  rewrite filter_keep_all.
  - unfold SpotPrice_column at 1. rewrite <- skipn_map.
    fold (SpotPrice_column (add_lag_features frame [1; 24])).
    rewrite SpotPrice_column_add_lag_features. reflexivity.
  - intros x Hx. apply In_skipn_nth_error in Hx. destruct Hx as [i [Hi Hx]].
    rewrite nth_error_add_lag_features in Hx.
    destruct (nth_error frame i) as [lr|] eqn:Hlr; [|discriminate]. injection Hx as <-.
    destruct (@fresh_and_complete_nth frame i lr Hfc Hlr) as [Hp Hl].
    cbn [snd SpotPrice lags]. rewrite Hp, Hl.
    cbn [fold_left set_lag]. change (1 =? 24) with false. cbv iota.
    cbn [set_lag negb forallb andb snd].
    assert (Hlag : forall k, 1 <= k <= 24 ->
                     PrimFloat.is_nan (price_at_lag frame i k) = false).
    { intros k Hk. unfold price_at_lag. destruct (Z.ltb_spec (Z.of_nat i - k) 0); [lia|].
      destruct (nth_error frame (Z.to_nat (Z.of_nat i - k))) as [lr'|] eqn:E.
      - apply (@fresh_and_complete_nth frame _ lr' Hfc E).
      - apply nth_error_None in E.
        assert (i < List.length frame)%nat by (apply nth_error_Some; congruence). lia. }
    rewrite !Hlag by lia. reflexivity.
Qed.

(** On a frame without NaN prices and without lag columns, as the resolver
    builds them, shaping removes exactly the first 24 rows: the forecast runs
    on the prices from row 24 on, under their labels. *)
Theorem shaped_of_complete_frame (frame : Frame) :
  fresh_and_complete frame = true ->
  SpotPrice_column (shaped frame) = skipn 24 (SpotPrice_column frame).
Proof. apply shaped_complete_column. Qed.

End ShapingFacts.

Lemma shaped_of_complete_frame_witness :
  Pipeline.SpotPrice_column (shaped synthetic_24)
  = skipn 24 (Pipeline.SpotPrice_column synthetic_24).
Proof. apply (@shaped_of_complete_frame synthetic_24). vm_compute. reflexivity. Defined.

(** * Further properties of the orchestrator *)

Section RunExtras.

Import Metrics Pipeline.

Variable nm : Numerics.
Variable w : World.

(** Without enough shaped rows, or with a non-positive horizon, [run] raises
    before any collaborator other than the feed is called. *)
Lemma run_without_data (h : Z) (frame : Frame) (tag : string) (tr0 : list Event) :
  _load_price_frame nm w h [] = (Return (frame, tag), tr0) ->
  len (shaped frame) <= h \/ h <= 0 ->
  run nm w h [] =
    (Raise (if len (shaped frame) <=? h then insufficient_data else bad_split_nonpositive),
     tr0).
Proof.
  intros Hload Hcase.
  remember (run nm w h []) as out eqn:Hout.
  unfold run, bindR, lift in Hout. rewrite Hload in Hout.
  unfold Return at 1 in Hout. cbv beta iota in Hout. cbn [fst snd] in Hout.
  fold (shaped frame) in Hout.
  destruct (Z.leb_spec (len (shaped frame)) h) as [Hle|Hgt]; [exact Hout|].
  unfold train_test_split in Hout.
  destruct (Z.leb_spec h 0); [exact Hout|lia].
Qed.

(** With enough shaped rows and a positive horizon, [run] forecasts, posts
    the message, renders, and runs the three best-effort steps in order. *)
Lemma run_with_data (h : Z) (frame : Frame) (tag : string) (tr0 : list Event) :
  _load_price_frame nm w h [] = (Return (frame, tag), tr0) ->
  0 < h -> h < len (shaped frame) ->
  exists r m,
    naive_forecast (SpotPrice_column (shaped frame)) h = Return r /\
    _collect_metrics r = Return m /\
    run nm w h [] =
      let tr1 := tr0 ++ [PostMessage "#energy-forecast" (_build_message nm m)] in
      match post_message w with
      | inl e => (inl e, tr1)
      | inr _ =>
          match render_forecast_plot w with
          | inl e => (inl e, tr1 ++ [RenderForecastPlot h])
          | inr p =>
              (Return (mkPipelineOutput r (_build_message nm m) p m tag),
               snd (_maybe_commit_to_github w p
                      (snd (_persist_run w tag p
                              (snd (_maybe_upload_chart w p
                                      (tr1 ++ [RenderForecastPlot h])))))))
          end
      end.
Proof.
  intros Hload Hpos Hgt.
  assert (Hcol : len (SpotPrice_column (shaped frame)) = len (shaped frame)).
  { unfold SpotPrice_column, len. rewrite length_map. reflexivity. }
  destruct (@forecast_core (SpotPrice_column (shaped frame)) h) as
      [train [test [r [m [Hsplit [Hr [_ [_ Hm]]]]]]]]; try lia.
  exists r, m.
  assert (Hr' : naive_forecast (SpotPrice_column (shaped frame)) h = Return r).
  { rewrite train_test_split_ok in Hsplit by lia.
    unfold Return in Hsplit. injection Hsplit as <- <-.
    unfold Pd.concat in Hr. cbn [List.concat] in Hr.
    rewrite app_nil_r, firstn_skipn in Hr. exact Hr. }
  split; [exact Hr'|]. split; [exact Hm|].
  remember (run nm w h []) as out eqn:Hout.
  unfold run, bindR, lift in Hout. rewrite Hload in Hout.
  unfold Return at 1 in Hout. cbv beta iota in Hout. cbn [fst snd] in Hout.
  fold (shaped frame) in Hout.
  destruct (Z.leb_spec (len (shaped frame)) h) as [Hle|_]; [lia|].
  rewrite Hsplit in Hout. unfold Return at 1 in Hout. cbv beta iota in Hout.
  cbn [fst snd] in Hout.
  rewrite Hr in Hout. unfold Return at 1 in Hout. cbv beta iota in Hout.
  rewrite Hm in Hout. unfold Return at 1 in Hout. cbv beta iota in Hout.
  unfold call in Hout. cbv zeta.
  destruct (post_message w) as [e|[]]; [exact Hout|].
  destruct (render_forecast_plot w) as [e|p]; [exact Hout|].
  set (t2 := (tr0 ++ [PostMessage "#energy-forecast" (_build_message nm m)])
             ++ [RenderForecastPlot h]) in *.
  destruct (maybe_upload_chart_returns w p t2) as [s1 [H1 _]].
  rewrite H1 in Hout |- *. unfold Return at 1 in Hout. cbn [snd].
  destruct (persist_run_returns w tag p (t2 ++ s1)) as [s2 [H2 _]].
  rewrite H2 in Hout |- *. unfold Return at 1 in Hout. cbn [snd].
  destruct (maybe_commit_to_github_returns w p ((t2 ++ s1) ++ s2)) as [s3 [H3 _]].
  rewrite H3 in Hout |- *. unfold Return at 1 in Hout. cbn [snd].
  exact Hout.
Qed.

(** The resolver on a live response that cleans to more rows than the
    horizon. *)
Lemma load_live_frame (h : Z) (raw : list RawPrice) (frame : Frame) :
  truthy (nordpool_api_key (settings w)) = true ->
  fetch_spot_prices w = Return (Records raw) ->
  clean_api_frame raw = Some frame ->
  h < len frame ->
  _load_price_frame nm w h [] = (Return (frame, "api"), [FetchSpotPrices (today w)]).
Proof.
  intros Hkey Hfetch Hclean Hlt.
  unfold _load_price_frame. rewrite Hkey. cbn [negb].
  unfold bindR, try_except, call, ret, lift. rewrite Hfetch.
  unfold Return. cbv beta iota zeta. cbn [clean_payload]. unfold Return. rewrite Hclean.
  destruct (Z.ltb_spec h (len frame)); [reflexivity|lia].
Qed.

(** A run whose resolver raises ends there. *)
Lemma run_resolver_raises (h : Z) (e : exn) (tr0 : list Event) :
  _load_price_frame nm w h [] = (Raise e, tr0) -> run nm w h [] = (Raise e, tr0).
Proof. intros Hload. unfold run, bindR. rewrite Hload. reflexivity. Qed.

(** A live response that is long enough for the resolver but loses too many
    rows to the lag features: for a horizon that is not negative, with more
    than [horizon] and at most [horizon + 24] complete records, [run] raises
    the insufficient-data error after the feed call, without falling back to
    synthetic data. *)
Theorem run_short_live_frame (h : Z) (raw : list RawPrice) (frame : Frame) :
  truthy (nordpool_api_key (settings w)) = true ->
  fetch_spot_prices w = Return (Records raw) ->
  clean_api_frame raw = Some frame ->
  0 <= h -> h < len frame -> len frame <= h + 24 ->
  run nm w h [] = (Raise insufficient_data, [FetchSpotPrices (today w)]).
Proof.
  intros Hkey Hfetch Hclean Hnonneg Hlt Hle.
  pose proof (@load_live_frame h raw frame Hkey Hfetch Hclean Hlt) as Hload.
  pose proof (shaped_at_most frame) as Hshaped.
  rewrite (run_without_data Hload) by lia.
  destruct (Z.leb_spec (len (shaped frame)) h); [reflexivity|lia].
Qed.

(** When the data do not suffice or the horizon is not positive, [run]
    raises without a side effect: its trace is the resolver's, at most the
    one call of the live feed. *)
Theorem run_aborts_before_side_effects (h : Z) (frame : Frame) (tag : string)
    (tr0 : list Event) :
  _load_price_frame nm w h [] = (Return (frame, tag), tr0) ->
  len (shaped frame) <= h \/ h <= 0 ->
  (fst (run nm w h []) = Raise insufficient_data \/
   fst (run nm w h []) = Raise bad_split_nonpositive) /\
  snd (run nm w h []) = tr0 /\
  (tr0 = [] \/ tr0 = [FetchSpotPrices (today w)]).
Proof.
  intros Hload Hcase. rewrite (run_without_data Hload Hcase). cbn [fst snd].
  split; [destruct (len (shaped frame) <=? h); [left|right]; reflexivity|].
  split; [reflexivity|].
  destruct (load_price_frame_post nm w h [])
    as [[e [_ [_ Hl]]]|[f [t [tr' [Hl [_ [_ [_ [_ Htr]]]]]]]]];
    rewrite Hload in Hl; [discriminate|].
  injection Hl as _ _ <-.
  destruct Htr as [->|[_ ->]]; [left|right]; reflexivity.
Qed.

(** The Slack message gates everything after it: when [post_message] raises,
    the run raises and neither the renderer nor any sink is called; when the
    renderer raises, no sink is called. *)
Theorem run_stops_at_first_failure (h : Z) :
  (forall e, post_message w = Raise e ->
     raises_run (run nm w h []) = true /\
     forallb before_render (snd (run nm w h [])) = true) /\
  (forall e, render_forecast_plot w = Raise e ->
     raises_run (run nm w h []) = true /\
     forallb before_sinks (snd (run nm w h [])) = true).
Proof.
  destruct (load_price_frame_post nm w h [])
    as [[e0 [_ [_ Hload]]]|[f [t [tr0 [Hload [_ [_ [_ [_ Htr]]]]]]]]].
  { rewrite (@run_resolver_raises h _ _ Hload). cbn [fst snd raises_run app forallb].
    split; intros; split; reflexivity. }
  assert (Htr0 : forallb before_render tr0 = true /\ forallb before_sinks tr0 = true).
  { destruct Htr as [->|[_ ->]]; split; reflexivity. }
  destruct Htr0 as [Hb1 Hb2].
  destruct (Z_le_gt_dec (len (shaped f)) h) as [Hle|Hgt];
    [|destruct (Z_le_gt_dec h 0) as [Hneg|Hpos]].
  - pose proof (@run_without_data h f t tr0 Hload (or_introl Hle)) as Hrun.
    rewrite Hrun. cbn [fst snd raises_run]. split; intros; split; auto.
  - pose proof (@run_without_data h f t tr0 Hload (or_intror Hneg)) as Hrun.
    rewrite Hrun. cbn [fst snd raises_run]. split; intros; split; auto.
  - destruct (@run_with_data h f t tr0 Hload) as [r [m [_ [_ Hrun]]]]; try lia.
    cbv zeta in Hrun. split; intros e He; rewrite Hrun.
    + rewrite He. unfold Raise. cbn [fst snd raises_run]. split; [reflexivity|].
      rewrite forallb_app, Hb1. reflexivity.
    + rewrite He. unfold Raise.
      destruct (post_message w) as [e'|u]; cbn [fst snd raises_run].
      * split; [reflexivity|]. rewrite forallb_app, Hb2. reflexivity.
      * split; [reflexivity|]. rewrite !forallb_app, Hb2. reflexivity.
Qed.

Lemma string_app_assoc (a b c : string) : ((a ++ b) ++ c = a ++ (b ++ c))%string.
Proof. induction a as [|ch a IH]; simpl; [reflexivity|]. rewrite IH. reflexivity. Qed.

(** The message names the RMSE, whatever the numbers and their formatting. *)
Lemma build_message_mentions_RMSE (m : MetricsBundle) :
  exists pre post, (_build_message nm m = pre ++ "RMSE" ++ post)%string.
Proof.
  unfold _build_message.
  set (direction := if (0 <=? delta_pct m)%float then "↑" else "↓").
  exists ("*Dagens elpris-forecast:* " ++ format_fixed nm 2 (latest m) ++ " €/MWh ("
          ++ direction ++ format_fixed nm 1 (PrimFloat.abs (delta_pct m))
          ++ "% fra sidste observation)" ++ newline ++ "• ")%string.
  eexists. rewrite !string_app_assoc. reflexivity.
Qed.

(** The end-to-end run on synthetic data: without a live-feed credential,
    with a notifier that accepts the message, a renderer that returns a path
    and synthetic prices free of NaN, [run] for a horizon of at least 1
    returns an output tagged "synthetic" whose forecast covers the last
    [horizon] rows of the synthetic frame; the message, which names the RMSE,
    is posted first, the chart rendered next, and [record_forecast_run] is
    then called with the tag and the path of the chart, whatever its
    outcome. *)
Theorem run_on_synthetic_data (h : Z) (p : Path) :
  truthy (nordpool_api_key (settings w)) = false ->
  post_message w = Return tt ->
  render_forecast_plot w = Return p ->
  1 <= h ->
  fresh_and_complete (_generate_synthetic_frame nm (today w) h) = true ->
  exists out suffix,
    run nm w h [] =
      (Return out,
       [PostMessage "#energy-forecast" (message out); RenderForecastPlot h] ++ suffix) /\
    data_source out = "synthetic" /\
    report_path out = p /\
    y_true (forecast out) =
      skipn (Z.to_nat (Z.max (h + 48) 72 - h))
            (SpotPrice_column (_generate_synthetic_frame nm (today w) h)) /\
    len (y_pred (forecast out)) = h /\
    In (RecordForecastRun "synthetic" p) suffix /\
    exists pre post, (message out = pre ++ "RMSE" ++ post)%string.
Proof.
  intros Hkey Hpost Hrender Hh Hfc.
  set (frame := _generate_synthetic_frame nm (today w) h) in *.
  assert (Hload : _load_price_frame nm w h [] = (Return (frame, "synthetic"), [])).
  { unfold _load_price_frame. rewrite Hkey. reflexivity. }
  destruct (synthetic_frame_columns nm (today w) h) as [Hlen _]. cbv zeta in Hlen.
  fold frame in Hlen.
  pose proof (shaped_complete_column frame Hfc) as Hcol.
  assert (Hcollen : len (SpotPrice_column (shaped frame)) = len frame - 24).
  { rewrite Hcol, len_skipn. unfold SpotPrice_column. unfold len in *.
    rewrite length_map. lia. }
  assert (Hshaped : len (shaped frame) = len frame - 24).
  { rewrite <- Hcollen. unfold SpotPrice_column, len. rewrite length_map. reflexivity. }
  destruct (@run_with_data h frame "synthetic" [] Hload) as [r [m [Hr [Hm Hrun]]]];
    try lia.
  cbv zeta in Hrun. rewrite Hpost, Hrender in Hrun. unfold Return at 2 3 in Hrun.
  set (t2 := ([] ++ [PostMessage "#energy-forecast" (_build_message nm m)])
             ++ [RenderForecastPlot h]) in *.
  destruct (maybe_upload_chart_returns w p t2) as [s1 [H1 _]].
  destruct (persist_run_returns w "synthetic" p (t2 ++ s1)) as [s2 [H2 [Hrec _]]].
  destruct (maybe_commit_to_github_returns w p ((t2 ++ s1) ++ s2)) as [s3 [H3 _]].
  rewrite H1 in Hrun. cbn [snd] in Hrun. rewrite H2 in Hrun. cbn [snd] in Hrun.
  rewrite H3 in Hrun. cbn [snd] in Hrun.
  destruct (@naive_forecast_ok _ _ (SpotPrice_column (shaped frame)) h) as [v [_ Hok]];
    try lia.
  rewrite Hok in Hr. unfold Return in Hr. injection Hr as Hr.
  exists (mkPipelineOutput r (_build_message nm m) p m "synthetic"), (s1 ++ s2 ++ s3).
  cbn [message data_source report_path forecast].
  split; [rewrite Hrun; unfold t2; rewrite <- !app_assoc; reflexivity|].
  split; [reflexivity|]. split; [reflexivity|]. rewrite <- Hr. cbn [y_true y_pred].
  split; [|split; [|split]].
  - rewrite Hcollen, Hcol, skipn_skipn. f_equal. lia.
  - unfold len in *. rewrite length_combine, repeat_length.
    unfold Pd.index. rewrite length_map, length_skipn. lia.
  - apply in_or_app. right. apply in_or_app. left. exact Hrec.
  - apply build_message_mentions_RMSE.
Qed.

Lemma upload_events (p : Path) (tr : list Event) :
  snd (_maybe_upload_chart w p tr) =
    tr ++ match upload_file w with
          | Some upload =>
              if truthy (slack_token (settings w))
              then attempted (UploadFile "#energy-forecast" p) "Slack upload skipped: " upload
              else []
          | None => []
          end.
Proof.
  unfold _maybe_upload_chart, attempted.
  destruct (upload_file w) as [[e|[]]|]; [| |symmetry; apply app_nil_r];
    (destruct (truthy (slack_token (settings w))); [|symmetry; apply app_nil_r]);
    unfold try_except, call, print; cbn [snd]; rewrite <- ?app_assoc; reflexivity.
Qed.

Lemma notion_events (p : Path) (tr : list Event) :
  snd (sync_to_notion w p tr) =
    tr ++ (if truthy (notion_token (settings w)) && truthy (notion_database_id (settings w))
           then attempted (LogForecast ("file://" ++ p)%string)
                          "Notion logging skipped: " (log_forecast w)
           else []).
Proof.
  unfold sync_to_notion, attempted.
  destruct (truthy (notion_token (settings w))); cbn [negb orb andb];
    [|symmetry; apply app_nil_r].
  destruct (truthy (notion_database_id (settings w))); cbn [negb];
    [|symmetry; apply app_nil_r].
  unfold try_except, call, print.
  destruct (log_forecast w) as [e|[]]; cbn [snd]; rewrite <- ?app_assoc; reflexivity.
Qed.

Lemma persist_events (tag : string) (p : Path) (tr : list Event) :
  snd (_persist_run w tag p tr) =
    tr ++ attempted (RecordForecastRun tag p) "Database logging skipped: "
                    (record_forecast_run w)
       ++ (if truthy (notion_token (settings w)) && truthy (notion_database_id (settings w))
           then attempted (LogForecast ("file://" ++ p)%string)
                          "Notion logging skipped: " (log_forecast w)
           else []).
Proof.
  unfold _persist_run, bindR, try_except, call, print, attempted.
  destruct (record_forecast_run w) as [e|[]]; unfold Return; cbv beta iota;
    rewrite notion_events, <- ?app_assoc; reflexivity.
Qed.

Lemma commit_events (p : Path) (tr : list Event) :
  snd (_maybe_commit_to_github w p tr) =
    tr ++ (if truthy (github_token (settings w)) && truthy (github_repo (settings w))
           then match commit_file w with
                | inl e => attempted (CommitFile p) "GitHub commit skipped: " (inl e)
                | inr _ =>
                    CommitFile p
                    :: attempted (CommitText p) "GitHub commit skipped: " (commit_text w)
                end
           else []).
Proof.
  unfold _maybe_commit_to_github, attempted.
  destruct (truthy (github_token (settings w))); cbn [negb orb andb];
    [|symmetry; apply app_nil_r].
  destruct (truthy (github_repo (settings w))); cbn [negb];
    [|symmetry; apply app_nil_r].
  unfold try_except, bindR, call, print.
  destruct (commit_file w) as [e|[]]; [cbn [snd]; rewrite <- ?app_assoc; reflexivity|].
  destruct (commit_text w) as [e|[]]; cbn [snd]; rewrite <- ?app_assoc; reflexivity.
Qed.

(** Order and isolation of the fan-out: once the message is posted and the
    chart rendered, [run] returns, and its trace is the resolver's, the
    message, the rendering, and then the best-effort steps in the order Slack
    upload, database, Notion, GitHub, each leaving its call and, when it
    raised, one printed line; a step without its credential leaves nothing,
    and the second commit is not attempted after a failed first one. *)
Theorem run_fan_out_trace (h : Z) (frame : Frame) (tag : string) (tr0 : list Event)
    (p : Path) :
  _load_price_frame nm w h [] = (Return (frame, tag), tr0) ->
  0 < h -> h < len (shaped frame) ->
  post_message w = Return tt ->
  render_forecast_plot w = Return p ->
  exists out,
    run nm w h [] =
      (Return out,
       tr0 ++ [PostMessage "#energy-forecast" (message out); RenderForecastPlot h]
           ++ fan_out_events w tag p) /\
    report_path out = p /\ data_source out = tag.
Proof.
  intros Hload Hpos Hlt Hpost Hrender.
  destruct (@run_with_data h frame tag tr0 Hload Hpos Hlt) as [r [m [_ [_ Hrun]]]].
  cbv zeta in Hrun. rewrite Hpost, Hrender in Hrun. unfold Return in Hrun.
  cbv beta iota in Hrun.
  rewrite commit_events, persist_events, upload_events in Hrun.
  exists (mkPipelineOutput r (_build_message nm m) p m tag).
  split; [rewrite Hrun; cbn [message]; unfold fan_out_events, Return;
          rewrite <- !app_assoc; reflexivity|].
  split; reflexivity.
Qed.

End RunExtras.

Lemma run_short_live_frame_witness :
  Pipeline.run numerics0 world_short_feed 24 []
  = (Raise Pipeline.insufficient_data, [Pipeline.FetchSpotPrices (Pipeline.today world_short_feed)]).
Proof.
  apply (@run_short_live_frame numerics0 world_short_feed 24 raw_feed_30
           (Pipeline.reset_index
              (map (fun i => Pipeline.mkRow (Z.of_nat i) 50%float [] None) (seq 0 30))));
    vm_compute; congruence.
Defined.

Lemma run_aborts_before_side_effects_witness :
  (fst (Pipeline.run numerics0 world_quiet 0 []) = Raise Pipeline.insufficient_data \/
   fst (Pipeline.run numerics0 world_quiet 0 []) = Raise Pipeline.bad_split_nonpositive) /\
  snd (Pipeline.run numerics0 world_quiet 0 []) = [] /\
  (@nil Pipeline.Event = [] \/
   [] = [Pipeline.FetchSpotPrices (Pipeline.today world_quiet)]).
Proof.
  apply (@run_aborts_before_side_effects numerics0 world_quiet 0
           (Pipeline._generate_synthetic_frame numerics0 739558 0) "synthetic" []).
  - reflexivity.
  - right. lia.
Defined.

Lemma run_on_synthetic_data_witness :
  exists out suffix,
    Pipeline.run numerics0 world_quiet 24 [] =
      (Return out,
       [Pipeline.PostMessage "#energy-forecast" (Pipeline.message out);
        Pipeline.RenderForecastPlot 24] ++ suffix) /\
    Pipeline.data_source out = "synthetic" /\
    Pipeline.report_path out = "reports/plots/forecast_20251103_050000.png" /\
    y_true (Pipeline.forecast out) =
      skipn (Z.to_nat (Z.max (24 + 48) 72 - 24))
            (Pipeline.SpotPrice_column
               (Pipeline._generate_synthetic_frame numerics0 (Pipeline.today world_quiet) 24)) /\
    len (y_pred (Pipeline.forecast out)) = 24 /\
    In (Pipeline.RecordForecastRun "synthetic" "reports/plots/forecast_20251103_050000.png")
       suffix /\
    exists pre post, (Pipeline.message out = pre ++ "RMSE" ++ post)%string.
Proof.
  apply (@run_on_synthetic_data numerics0 world_quiet 24
           "reports/plots/forecast_20251103_050000.png");
    first [reflexivity | lia | vm_compute; reflexivity].
Defined.

Lemma run_fan_out_trace_witness :
  exists out,
    Pipeline.run numerics0 world_sinks_fail 24 [] =
      (Return out,
       [] ++ [Pipeline.PostMessage "#energy-forecast" (Pipeline.message out);
              Pipeline.RenderForecastPlot 24]
          ++ fan_out_events world_sinks_fail "synthetic"
                            "reports/plots/forecast_20251103_050000.png") /\
    Pipeline.report_path out = "reports/plots/forecast_20251103_050000.png" /\
    Pipeline.data_source out = "synthetic".
Proof.
  apply (@run_fan_out_trace numerics0 world_sinks_fail 24 synthetic_24 "synthetic" []
           "reports/plots/forecast_20251103_050000.png");
    first [reflexivity | lia | vm_compute; reflexivity].
Defined.

(** * src/automation/scheduler.py: cron expressions *)

Section CronFacts.

Import Scheduler.

Lemma split_from_word (word f rest : string) :
  no_space f = true ->
  split_from word (f ++ rest)%string = split_from (word ++ f)%string rest.
Proof.
  revert word. induction f as [|c f IH]; intros word Hf; simpl.
  - replace (word ++ "")%string with word; [reflexivity|].
    clear. induction word as [|ch word IHw]; simpl; [reflexivity|]. rewrite <- IHw.
    reflexivity.
  - simpl in Hf. apply andb_true_iff in Hf. destruct Hf as [Hc Hf].
    destruct (isspace c); [discriminate|].
    rewrite IH by exact Hf. rewrite string_app_assoc. reflexivity.
Qed.

Lemma split_from_space (word rest : string) :
  split_from word (String (Ascii.ascii_of_nat 32) rest) =
    match word with
    | EmptyString => split_from EmptyString rest
    | _ => word :: split_from EmptyString rest
    end.
Proof. reflexivity. Qed.

Lemma split_concat_fields (fields : list string) :
  forallb is_field fields = true ->
  split (String.concat " " fields) = fields.
Proof.
  unfold split. induction fields as [|f fields IH]; intros H; [reflexivity|].
  simpl in H. apply andb_true_iff in H. destruct H as [Hf Hrest].
  assert (Hns : no_space f = true) by (destruct f; [discriminate|exact Hf]).
  assert (Hne : f <> EmptyString) by (destruct f; [discriminate|discriminate]).
  destruct fields as [|g fields].
  - simpl. replace f with (f ++ "")%string at 1.
    + rewrite split_from_word by exact Hns. simpl. destruct f; [contradiction|reflexivity].
    + clear. induction f as [|ch f IHf]; simpl; [reflexivity|]. rewrite IHf. reflexivity.
  - change (String.concat " " (f :: g :: fields))
      with (f ++ String (Ascii.ascii_of_nat 32) (String.concat " " (g :: fields)))%string.
    rewrite split_from_word, split_from_space by exact Hns. cbn [String.append].
    destruct f as [|c f]; [contradiction|]. f_equal. apply IH. exact Hrest.
Qed.

(** Joining fields with single spaces and converting them back: a
    five-field expression gives its fields in the order minute, hour, day,
    month, day of week; any other number of fields raises a [ValueError]. *)
Theorem cron_to_kwargs_fields (fields : list string) :
  forallb is_field fields = true ->
  match fields with
  | [mi; ho; da; mo; dw] =>
      _cron_to_kwargs (String.concat " " fields) = Return (mkCronKwargs mi ho da mo dw)
  | _ => exists msg, _cron_to_kwargs (String.concat " " fields) = Raise (ValueError msg)
  end.
Proof.
  intros H. unfold _cron_to_kwargs. rewrite (split_concat_fields fields H).
  destruct fields as [|a [|b [|c [|d [|e [|f rest]]]]]];
    first [reflexivity | eexists; reflexivity].
Qed.

End CronFacts.

Lemma cron_to_kwargs_fields_witness :
  Scheduler._cron_to_kwargs (String.concat " " ["0"; "6"; "*"; "*"; "1"])
  = Return (Scheduler.mkCronKwargs "0" "6" "*" "*" "1").
Proof.
  apply (@cron_to_kwargs_fields ["0"; "6"; "*"; "*"; "1"]). reflexivity.
Defined.

(** * src/automation/github.py: create or update *)

Section GitHubFacts.

Import GitHub.

Variable b64encode : string -> string.
Variable repo : string.
Variable remote : Remote.

(** Create-or-update: a commit looks the file up once and sends at most one
    PUT after it; the PUT carries a [sha] exactly when the lookup answered 200
    with an object whose ["sha"] member is that non-empty string. *)
Theorem commit_text_create_or_update (content destination message : string) :
  let url := contents_url repo destination in
  let trace := snd (commit_text b64encode repo remote content destination message) in
  (trace = [Get url] \/
   exists sha, trace = [Get url; Put url message sha (b64encode content)]) /\
  forall s,
    In (Put url message (Some s) (b64encode content)) trace <->
    exists response obj,
      session_get remote = Return response /\
      status_code response = 200 /\
      json response = Return obj /\
      get "sha" obj = Some s /\ s <> EmptyString.
Proof.
  intros url trace. unfold trace, commit_text, _get_existing_sha. fold url.
  destruct (session_get remote) as [e|response] eqn:Hget.
  { cbn [snd]. split; [left; reflexivity|]. intros s. split.
    - intros [H|[]]; discriminate.
    - intros [r [obj [H _]]]. discriminate. }
  destruct (Z.eqb_spec (status_code response) 200) as [H200|Hn200].
  - destruct (json response) as [e|obj] eqn:Hjson; cbn [bind Return].
    { cbn [snd]. split; [left; reflexivity|]. intros s. split.
      - intros [H|[]]; discriminate.
      - intros [r [o [Hr [_ [Hj _]]]]]. unfold Return in Hr. injection Hr as <-.
        rewrite Hjson in Hj. discriminate. }
    assert (Htrace : forall sha,
               snd (match session_put remote with
                    | inl e => (inl e, [Get url] ++ [Put url message sha (b64encode content)])
                    | inr response0 =>
                        (bind (raise_for_status response0) (fun _ => json response0),
                         [Get url] ++ [Put url message sha (b64encode content)])
                    end) = [Get url; Put url message sha (b64encode content)])
      by (intros sha; destruct (session_put remote); reflexivity).
    rewrite Htrace. split; [right; eexists; reflexivity|].
    intros s. split.
    + intros [H|[H|[]]]; [discriminate|]. injection H as Hs.
      exists response, obj. split; [reflexivity|]. split; [exact H200|]. split; [exact Hjson|].
      destruct (get "sha" obj) as [[|c v]|]; cbn [truthy] in Hs; try discriminate.
      injection Hs as <-. split; [reflexivity|discriminate].
    + intros [r [o [Hr [_ [Hj [Hsha Hne]]]]]]. unfold Return in Hr, Hj. injection Hr as <-.
      rewrite Hjson in Hj. injection Hj as <-. rewrite Hsha.
      destruct s as [|c v]; [contradiction|]. cbn [truthy]. right. left. reflexivity.
  - assert (Hnosha : forall s,
               ~ exists r obj, inr response = Return r /\ status_code r = 200 /\
                               json r = Return obj /\ get "sha" obj = Some s /\ s <> EmptyString).
    { intros s [r [o [Hr [Hst _]]]]. unfold Return in Hr. injection Hr as <-. contradiction. }
    destruct (Z.eqb_spec (status_code response) 404) as [H404|Hn404].
    + destruct (session_put remote); cbn [snd truthy app].
      * split; [right; eexists; reflexivity|]. intros s. split;
          [intros [H|[H|[]]]; discriminate|intros H; destruct (Hnosha s H)].
      * split; [right; eexists; reflexivity|]. intros s. split;
          [intros [H|[H|[]]]; discriminate|intros H; destruct (Hnosha s H)].
    + destruct (raise_for_status response) as [e|[]]; cbn [bind Return].
      * cbn [snd]. split; [left; reflexivity|]. intros s. split;
          [intros [H|[]]; discriminate|intros H; destruct (Hnosha s H)].
      * destruct (session_put remote); cbn [snd truthy app].
        -- split; [right; eexists; reflexivity|]. intros s. split;
             [intros [H|[H|[]]]; discriminate|intros H; destruct (Hnosha s H)].
        -- split; [right; eexists; reflexivity|]. intros s. split;
             [intros [H|[H|[]]]; discriminate|intros H; destruct (Hnosha s H)].
Qed.

(** A lookup that answers an error status other than 404 ends the commit
    with an [HTTPError]: nothing is written. *)
Theorem commit_text_failed_lookup (content destination message : string)
    (response : Response) :
  session_get remote = Return response ->
  400 <= status_code response < 600 ->
  status_code response <> 404 ->
  commit_text b64encode repo remote content destination message =
    (Raise (HTTPError "HTTP error status"), [Get (contents_url repo destination)]).
Proof.
  intros Hget Hrange Hn404. unfold commit_text, _get_existing_sha. rewrite Hget.
  unfold Return at 1.
  destruct (Z.eqb_spec (status_code response) 200); [lia|].
  destruct (Z.eqb_spec (status_code response) 404); [contradiction|].
  unfold raise_for_status.
  destruct (Z.leb_spec 400 (status_code response)); [|lia].
  destruct (Z.ltb_spec (status_code response) 600); [|lia].
  reflexivity.
Qed.

(** The two commit routines follow one protocol: committing a file that can
    be read is committing its bytes as text, after the read. *)
Theorem commit_file_as_commit_text (path destination message bytes : string) :
  read_bytes remote = Return bytes ->
  commit_file b64encode repo remote path destination message =
    (fst (commit_text b64encode repo remote bytes destination message),
     ReadBytes path :: snd (commit_text b64encode repo remote bytes destination message)).
Proof.
  intros Hread. unfold commit_file, commit_text. rewrite Hread. unfold Return at 1.
  cbv zeta.
  destruct (_get_existing_sha remote (contents_url repo destination)) as [[e|sha] trace];
    [reflexivity|].
  destruct (session_put remote); reflexivity.
Qed.

End GitHubFacts.

Lemma commit_text_failed_lookup_witness :
  GitHub.commit_text (fun s => s) "owner/name" remote_lookup_fails "{}" "reports/history/f.json"
                     "Add forecast metrics"
  = (Raise (HTTPError "HTTP error status"),
     [GitHub.Get (GitHub.contents_url "owner/name" "reports/history/f.json")]).
Proof.
  apply (@commit_text_failed_lookup (fun s => s) "owner/name" remote_lookup_fails "{}"
           "reports/history/f.json" "Add forecast metrics"
           (GitHub.mkResponse 500 (Return []))).
  - reflexivity.
  - cbn. lia.
  - cbn. lia.
Defined.

Lemma commit_file_as_commit_text_witness :
  GitHub.commit_file (fun s => s) "owner/name" remote_existing "forecast.png"
                     "reports/plots/forecast.png" "Add forecast plot"
  = (fst (GitHub.commit_text (fun s => s) "owner/name" remote_existing "png bytes"
                             "reports/plots/forecast.png" "Add forecast plot"),
     GitHub.ReadBytes "forecast.png"
     :: snd (GitHub.commit_text (fun s => s) "owner/name" remote_existing "png bytes"
                                "reports/plots/forecast.png" "Add forecast plot")).
Proof.
  apply (@commit_file_as_commit_text (fun s => s) "owner/name" remote_existing "forecast.png"
           "reports/plots/forecast.png" "Add forecast plot" "png bytes").
  reflexivity.
Defined.

Section CronInvariant.

Import Scheduler.

Lemma no_space_app (a b : string) :
  no_space (a ++ b)%string = no_space a && no_space b.
Proof.
  induction a as [|c a IH]; simpl; [reflexivity|]. rewrite IH, andb_assoc. reflexivity.
Qed.

Lemma split_from_fields (word s : string) :
  no_space word = true -> forallb is_field (split_from word s) = true.
Proof.
  revert word. induction s as [|c s IH]; intros word Hw; simpl.
  - destruct word; [reflexivity|]. simpl. simpl in Hw. rewrite Hw. reflexivity.
  - destruct (isspace c) eqn:Hc.
    + destruct word as [|ch word]; [apply IH; reflexivity|].
      cbn [forallb is_field]. rewrite Hw. cbn [andb]. apply IH. reflexivity.
    + apply IH. rewrite no_space_app, Hw. simpl. rewrite Hc. reflexivity.
Qed.

(** Whatever the whitespace of the expression, the fields [_cron_to_kwargs]
    returns are not empty and hold no whitespace; writing them back with
    single spaces gives an expression that converts to the same fields. *)
Theorem cron_to_kwargs_normalises (cron_expression : string) (kw : CronKwargs) :
  _cron_to_kwargs cron_expression = Return kw ->
  forallb is_field [minute kw; hour kw; day kw; month kw; day_of_week kw] = true /\
  _cron_to_kwargs
    (String.concat " " [minute kw; hour kw; day kw; month kw; day_of_week kw]) = Return kw.
Proof.
  intros H. unfold _cron_to_kwargs in H.
  pose proof (@split_from_fields EmptyString cron_expression eq_refl) as Hfields.
  fold (split cron_expression) in Hfields.
  destruct (split cron_expression) as [|a [|b [|c [|d [|e [|f rest]]]]]]; try discriminate.
  unfold Return in H. injection H as <-. cbn [minute hour day month day_of_week].
  split; [exact Hfields|].
  unfold _cron_to_kwargs. rewrite (split_concat_fields _ Hfields). reflexivity.
Qed.

End CronInvariant.

Lemma cron_to_kwargs_normalises_witness :
  forallb Scheduler.is_field ["0"; "5"; "*"; "*"; "*"] = true /\
  Scheduler._cron_to_kwargs (String.concat " " ["0"; "5"; "*"; "*"; "*"])
  = Return (Scheduler.mkCronKwargs "0" "5" "*" "*" "*").
Proof.
  apply (@cron_to_kwargs_normalises "  0 5 * *   * " (Scheduler.mkCronKwargs "0" "5" "*" "*" "*")).
  reflexivity.
Defined.

(** * The forecast does not look before the holdout *)

Section HistoryFacts.

Context {L V : Type}.
#[local] Abbreviation Series := (@Pd.Series L V).

(** The observations before the holdout window have no influence on the
    naive forecast: with or without any history in front of a series that
    holds the horizon, the result is the same. *)
Theorem naive_forecast_ignores_history (history s : Series) (horizon : Z) :
  1 <= horizon -> horizon <= len s ->
  naive_forecast (history ++ s) horizon = naive_forecast s horizon.
Proof.
  intros H1 H2.
  destruct (@naive_forecast_ok _ _ s horizon H1 H2) as [v [Hv Hr]].
  destruct (@naive_forecast_ok _ _ (history ++ s) horizon) as [v' [Hv' Hr']];
    [lia|rewrite len_app; pose proof (len_nonneg history); lia|].
  rewrite Hr, Hr'.
  assert (Hskip : skipn (Z.to_nat (len (history ++ s) - horizon)) (history ++ s)
                  = skipn (Z.to_nat (len s - horizon)) s).
  { rewrite len_app, skipn_app.
    replace (Z.to_nat (len history + len s - horizon) - List.length history)%nat
      with (Z.to_nat (len s - horizon)) by (unfold len in *; lia).
    rewrite skipn_all2 by (unfold len in *; lia). reflexivity. }
  assert (Hvv : v' = v).
  { unfold Pd.values in Hv, Hv'. rewrite map_app, len_app in Hv'.
    rewrite nth_error_app2 in Hv' by (rewrite length_map; unfold len in *; lia).
    rewrite length_map in Hv'.
    replace (Z.to_nat (len history + len s - 1) - List.length history)%nat
      with (Z.to_nat (len s - 1)) in Hv' by (unfold len in *; lia).
    congruence. }
  rewrite Hskip, Hvv. reflexivity.
Qed.

End HistoryFacts.

Lemma naive_forecast_ignores_history_witness :
  naive_forecast (series3 ++ series10) 3 = naive_forecast series10 3.
Proof. apply (@naive_forecast_ignores_history Z Z series3 series10 3); vm_compute; congruence. Defined.

Section LiveRun.

Import Metrics Pipeline.

Variable nm : Numerics.
Variable w : World.

Lemma clean_api_frame_complete (raw : list RawPrice) (frame : Frame) :
  clean_api_frame raw = Some frame -> fresh_and_complete frame = true.
Proof.
  intros H. destruct (clean_api_frame_facts _ H) as [_ [_ [Hrows _]]].
  unfold fresh_and_complete. apply forallb_forall. intros lr Hlr.
  destruct (Hrows (snd lr) (in_map snd _ _ Hlr)) as [Hp [Hl _]].
  rewrite Hp, Hl. reflexivity.
Qed.

(** The live path end to end: with a credential, a response that the
    cleaning turns into a frame of more than [horizon + 24] rows (records with
    a parsed timestamp and a price that is not NaN) no two of which share a
    timestamp, a notifier that accepts the message and a renderer that returns
    a path, [run] for a horizon of at least 1 returns an output tagged "api"
    whose actuals are the [horizon] latest prices of the cleaned response. *)
Theorem run_on_live_data (h : Z) (raw : list RawPrice) (frame : Frame) (p : Path) :
  truthy (nordpool_api_key (settings w)) = true ->
  fetch_spot_prices w = Return (Records raw) ->
  clean_api_frame raw = Some frame ->
  strictly_ascending (map (fun lr => DateTime (snd lr)) frame) = true ->
  1 <= h -> h + 24 < len frame ->
  post_message w = Return tt ->
  render_forecast_plot w = Return p ->
  exists out,
    fst (run nm w h []) = Return out /\
    data_source out = "api" /\
    y_true (forecast out) = skipn (Z.to_nat (len frame - h)) (SpotPrice_column frame) /\
    len (y_pred (forecast out)) = h /\
    firstn 3 (snd (run nm w h [])) =
      [FetchSpotPrices (today w); PostMessage "#energy-forecast" (message out);
       RenderForecastPlot h].
Proof.
  intros Hkey Hfetch Hclean _ Hh Hlen Hpost Hrender.
  assert (Hload : _load_price_frame nm w h [] =
                  (Return (frame, "api"), [FetchSpotPrices (today w)]))
    by (apply (@load_live_frame nm w h raw frame Hkey Hfetch Hclean); lia).
  pose proof (shaped_complete_column frame (clean_api_frame_complete _ Hclean)) as Hcol.
  assert (Hcollen : len (SpotPrice_column (shaped frame)) = len frame - 24).
  { rewrite Hcol, len_skipn. unfold SpotPrice_column. unfold len in *.
    rewrite length_map. lia. }
  assert (Hshaped : len (shaped frame) = len frame - 24).
  { rewrite <- Hcollen. unfold SpotPrice_column, len. rewrite length_map. reflexivity. }
  destruct (@run_with_data nm w h frame "api" _ Hload) as [r [m [Hr [Hm Hrun]]]]; try lia.
  cbv zeta in Hrun. rewrite Hpost, Hrender in Hrun. unfold Return in Hrun.
  cbv beta iota in Hrun.
  rewrite commit_events, persist_events, upload_events in Hrun.
  destruct (@naive_forecast_ok _ _ (SpotPrice_column (shaped frame)) h) as [v [_ Hok]];
    try lia.
  rewrite Hok in Hr. unfold Return in Hr. injection Hr as Hr.
  exists (mkPipelineOutput r (_build_message nm m) p m "api").
  rewrite Hrun. cbn [fst snd message data_source forecast].
  split; [reflexivity|]. split; [reflexivity|]. rewrite <- Hr. cbn [y_true y_pred].
  split; [|split].
  - rewrite Hcollen, Hcol, skipn_skipn. f_equal. lia.
  - unfold len in *. rewrite length_combine, repeat_length.
    unfold Pd.index. rewrite length_map, length_skipn. lia.
  - rewrite <- !app_assoc. reflexivity.
Qed.

End LiveRun.

Lemma run_on_live_data_witness :
  exists out,
    fst (Pipeline.run numerics0 world_live_feed 24 []) = Return out /\
    Pipeline.data_source out = "api" /\
    y_true (Pipeline.forecast out)
      = skipn (Z.to_nat (len live_frame_60 - 24)) (Pipeline.SpotPrice_column live_frame_60) /\
    len (y_pred (Pipeline.forecast out)) = 24 /\
    firstn 3 (snd (Pipeline.run numerics0 world_live_feed 24 [])) =
      [Pipeline.FetchSpotPrices (Pipeline.today world_live_feed);
       Pipeline.PostMessage "#energy-forecast" (Pipeline.message out);
       Pipeline.RenderForecastPlot 24].
Proof.
  apply (@run_on_live_data numerics0 world_live_feed 24 raw_feed_60 live_frame_60
           "reports/plots/forecast_20251103_050000.png");
    first [reflexivity | lia | vm_compute; reflexivity | vm_compute; congruence].
Defined.
